(** * Diadochi: routing and response synthesis engine

    A shallow embedding of the Python package [backend/diadochi]
    (registry, routers, mixers, chains, ensemble, mixture of experts and
    the metacognitive orchestrator) together with the properties checked
    against it.

    Conventions of the embedding.
    - Python [str] values are Rocq strings whose characters are ASCII
      codes; [str.lower], [str.split] and [str.strip] follow CPython on
      that range.
    - Python [float] values are rationals ([Q]). Where a property depends
      on the rounding of the arithmetic, the rounding is explicit: the
      embedding router, the hybrid confidence estimator and the weight
      normalization of the mixture of experts round every result with a
      function [fl] and sum with [np_sum] or [py_sum], of which the
      theorems assume what they use (monotonicity, the usual error
      bounds), an overflow being outside the model; the router's scores
      are floats with nan and the infinities ([pyfloat]); the threshold
      of the consensus mixer is a binary64 float, its size test being one
      rounded product. Elsewhere (mixers, expert selection, orchestrator)
      the arithmetic is exact, and the properties stated there are about
      keys, order and comparisons of values as computed.
    - [asyncio.wait_for] has its timeout: model calls and sleeps have
      durations, given by the back end, and a task is cut off at the first
      call that would pass the budget.
    - A Python [dict] whose iteration order is observed is an association
      list in insertion order ([odict]); a dict that is only looked up is a
      [gmap].
    - Library and collaborator calls whose code is not part of the package
      ([np.exp], [time.time], the expert back ends, ...) are parameters of
      the sections that use them.
    - [async] functions are state-passing computations in the monad [M]:
      they return, raise, or never complete. *)

From Stdlib Require Import ZArith QArith Qabs Qround Ascii String List Lia Lqa.
From Stdlib Require Import Floats Uint63.
From stdpp Require Import base gmap strings list pretty.

Local Open Scope Z_scope.
Local Open Scope stdpp_scope.

(* ================================================================== *)
(** * Part I: the model *)
(* ================================================================== *)

(** ** Python strings *)
Module PyStr.

Definition code (c : ascii) : nat := nat_of_ascii c.

(** [str.isspace] on one ASCII character. *)
Definition is_space (c : ascii) : bool :=
  ((9 <=? code c)%nat && (code c <=? 13)%nat)
  || ((28 <=? code c)%nat && (code c <=? 32)%nat).

Definition lower_char (c : ascii) : ascii :=
  if ((65 <=? code c)%nat && (code c <=? 90)%nat)
  then ascii_of_nat (code c + 32) else c.

Definition upper_char (c : ascii) : ascii :=
  if ((97 <=? code c)%nat && (code c <=? 122)%nat)
  then ascii_of_nat (code c - 32) else c.

Fixpoint map_chars (f : ascii -> ascii) (s : string) : string :=
  match s with
  | EmptyString => EmptyString
  | String c s' => String (f c) (map_chars f s')
  end.

(** [s.lower()] and [s.upper()]. *)
Definition lower : string -> string := map_chars lower_char.
Definition upper : string -> string := map_chars upper_char.

(** [len(s)]. *)
Definition len (s : string) : nat := String.length s.

(** [s.startswith(p)]. *)
Fixpoint startswith (p s : string) : bool :=
  match p, s with
  | EmptyString, _ => true
  | String a p', String b s' => if ascii_dec a b then startswith p' s' else false
  | String _ _, EmptyString => false
  end.

(** [sub in s]. *)
Fixpoint contains (sub s : string) : bool :=
  startswith sub s ||
  match s with
  | EmptyString => false
  | String _ s' => contains sub s'
  end.

Definition of_chars (l : list ascii) : string := string_of_list_ascii l.
Definition chars (s : string) : list ascii := list_ascii_of_string s.

(** [s.split()]: maximal runs of non-whitespace characters. *)
Fixpoint split_ws_go (cur : list ascii) (l : list ascii) : list string :=
  match l with
  | [] => match cur with [] => [] | _ => [of_chars (rev cur)] end
  | c :: l' =>
      if is_space c
      then match cur with
           | [] => split_ws_go [] l'
           | _ => of_chars (rev cur) :: split_ws_go [] l'
           end
      else split_ws_go (c :: cur) l'
  end.
Definition split (s : string) : list string := split_ws_go [] (chars s).

(** [s.split(sep)] for a non-empty separator: [skip] counts the characters
    of a matched separator that are still to be consumed. *)
Fixpoint split_on_go (sep : string) (skip : nat) (cur : list ascii)
    (s : string) : list string :=
  match s with
  | EmptyString => [of_chars (rev cur)]
  | String c s' =>
      match skip with
      | S k => split_on_go sep k cur s'
      | O =>
          if startswith sep s
          then of_chars (rev cur) :: split_on_go sep (len sep - 1) [] s'
          else split_on_go sep 0 (c :: cur) s'
      end
  end.
Definition split_on (sep s : string) : list string := split_on_go sep 0 [] s.

Fixpoint lstrip_chars (l : list ascii) : list ascii :=
  match l with
  | c :: l' => if is_space c then lstrip_chars l' else l
  | [] => []
  end.

(** [s.strip()]. *)
Definition strip (s : string) : string :=
  of_chars (rev (lstrip_chars (rev (lstrip_chars (chars s))))).

(** [sep.join(parts)]. *)
Definition join (sep : string) (parts : list string) : string :=
  String.concat sep parts.

(** [s[:n]] for [n >= 0]. *)
Definition take (n : nat) (s : string) : string := String.substring 0 n s.

(** [s[:n]] for any integer [n] (a negative bound counts from the end). *)
Definition slice_to (n : Z) (s : string) : string :=
  if (0 <=? n)%Z then take (Z.to_nat n) s
  else take (len s - Z.to_nat (- n)) s.

Definition dquote : ascii := "034"%char.

Definition hex_digit (n : nat) : ascii :=
  if (n <? 10)%nat then ascii_of_nat (48 + n) else ascii_of_nat (87 + n).

(** One character of [repr(s)] when the enclosing quote is [q]. *)
Definition repr_char (q : ascii) (c : ascii) : string :=
  if ascii_dec c q then String "\" (String c EmptyString)
  else if ascii_dec c "\" then "\\"
  else if ascii_dec c "010" then "\n"
  else if ascii_dec c "013" then "\r"
  else if ascii_dec c "009" then "\t"
  else if ((code c <? 32)%nat || (126 <? code c)%nat)
  then String "\" (String "x" (String (hex_digit (code c / 16))
         (String (hex_digit (code c mod 16)) EmptyString)))
  else String c EmptyString.

Fixpoint repr_body (q : ascii) (s : string) : string :=
  match s with
  | EmptyString => EmptyString
  | String c s' => repr_char q c +:+ repr_body q s'
  end.

(** [repr(s)]: single quotes unless the text has a single quote and no
    double quote. *)
Definition repr (s : string) : string :=
  let q : ascii :=
    if contains "'" s && negb (contains (String dquote EmptyString) s)
    then dquote else "'"%char in
  String q (repr_body q s) +:+ String q EmptyString.

(** [repr] of a list of strings. *)
Definition repr_list (l : list string) : string :=
  "[" +:+ join ", " (map repr l) +:+ "]".

End PyStr.

(** ** Python values, exceptions and ordered dictionaries *)
Module Py.

(** The values stored in free-form dictionaries ([Dict[str, Any]]). *)
#[local] Unset Elimination Schemes.
Inductive pyval :=
| VNone
| VStr (s : string)
| VBool (b : bool)
| VInt (z : Z)
| VFloat (q : Q)
| VEnum (value : string)
| VList (l : list pyval)
| VDict (d : list (string * pyval)).
#[local] Set Elimination Schemes.

Inductive exn_class :=
| KeyError | ValueError | RuntimeError | ImportError | AttributeError
| TimeoutError | OtherException.

(** An exception object: its class and the text [str(e)] yields. *)
Record exn := mk_exn { exn_cls : exn_class; exn_str : string }.

(** [KeyError(msg)]: [str] of a [KeyError] is the [repr] of its argument. *)
Definition key_error (msg : string) : exn := mk_exn KeyError (PyStr.repr msg).
Definition value_error (msg : string) : exn := mk_exn ValueError msg.
Definition runtime_error (msg : string) : exn := mk_exn RuntimeError msg.
Definition timeout_error : exn := mk_exn TimeoutError "".

(** Insertion-ordered dictionary with string keys. *)
Definition odict (V : Type) : Type := list (string * V).

Section odict.
Context {V : Type}.

Fixpoint od_get (k : string) (d : odict V) : option V :=
  match d with
  | [] => None
  | (k', v) :: d' => if decide (k = k') then Some v else od_get k d'
  end.

Definition od_mem (k : string) (d : odict V) : bool :=
  match od_get k d with Some _ => true | None => false end.

(** [d[k] = v]: an existing key keeps its position. *)
Fixpoint od_set (k : string) (v : V) (d : odict V) : odict V :=
  match d with
  | [] => [(k, v)]
  | (k', v') :: d' =>
      if decide (k = k') then (k, v) :: d' else (k', v') :: od_set k v d'
  end.

Fixpoint od_del (k : string) (d : odict V) : odict V :=
  match d with
  | [] => []
  | (k', v') :: d' =>
      if decide (k = k') then d' else (k', v') :: od_del k d'
  end.

Definition od_keys (d : odict V) : list string := map fst d.
Definition od_values (d : odict V) : list V := map snd d.
Definition od_len (d : odict V) : nat := length d.

(** The dictionary built by inserting the pairs of [l] in order. *)
Definition od_of_list (l : list (string * V)) : odict V :=
  fold_left (fun d kv => od_set (fst kv) (snd kv) d) l [].
End odict.

(** [d.get(k, default)]. *)
Definition od_get_default {V} (k : string) (default : V) (d : odict V) : V :=
  match od_get k d with Some v => v | None => default end.

(** Comparisons of floats. *)
Definition Qgeb (a b : Q) : bool := Qle_bool b a.
Definition Qgtb (a b : Q) : bool := negb (Qle_bool a b).
Definition Qleb (a b : Q) : bool := Qle_bool a b.
Definition Qltb (a b : Q) : bool := negb (Qle_bool b a).

Definition Qsum (l : list Q) : Q := fold_right Qplus 0%Q l.
Definition Qnat (n : nat) : Q := inject_Z (Z.of_nat n).

(** [max(l, key=key)]: the first element whose key is not exceeded. *)
Definition max_by {A} (key : A -> Q) (l : list A) : option A :=
  match l with
  | [] => None
  | x :: l' =>
      Some (fold_left (fun best y => if Qgtb (key y) (key best) then y else best) l' x)
  end.

(** [sorted(l, key=key, reverse=True)]: the sort is stable, so elements with
    equal keys keep their order. *)
Fixpoint insert_desc {A} (key : A -> Q) (x : A) (sorted : list A) : list A :=
  match sorted with
  | [] => [x]
  | y :: rest =>
      if Qgtb (key y) (key x) then y :: insert_desc key x rest
      else x :: y :: rest
  end.
Definition sort_desc {A} (key : A -> Q) (l : list A) : list A :=
  fold_right (insert_desc key) [] l.

(** [l[:n]] for any integer [n]. *)
Definition slice_to {A} (n : Z) (l : list A) : list A :=
  if (0 <=? n)%Z then firstn (Z.to_nat n) l
  else firstn (length l - Z.to_nat (- n)) l.

(** [enumerate(l, start)]. *)
Fixpoint enumerate_from {A} (start : nat) (l : list A) : list (nat * A) :=
  match l with
  | [] => []
  | x :: l' => (start, x) :: enumerate_from (S start) l'
  end.

(** [s.add(x)] and [set(l)], a set being the list of its elements in order
    of first insertion. *)
Definition set_add {A} `{EqDecision A} (x : A) (s : list A) : list A :=
  if bool_decide (x ∈ s) then s else s ++ [x].
Definition set_of {A} `{EqDecision A} (l : list A) : list A :=
  fold_left (fun s x => set_add x s) l [].

(** Result of running a computation: a value, an exception, or no
    completion at all. *)
Inductive result (A : Type) :=
| Done (a : A)
| Raise (e : exn)
| Hang.
Arguments Done {A} a.
Arguments Raise {A} e.
Arguments Hang {A}.

(** Format strings with named fields only, as [str.format] sees them. *)
Inductive piece := Lit (text : string) | Field (name : string).
Definition template : Type := list piece.

(** [template.format] with keyword arguments [args]: a field that [args]
    lacks is a [KeyError]. *)
Fixpoint format_template (args : string -> option string) (t : template)
    : result string :=
  match t with
  | [] => Done ""
  | Lit text :: t' =>
      match format_template args t' with
      | Done rest => Done (text +:+ rest)
      | r => r
      end
  | Field name :: t' =>
      match args name with
      | None => Raise (key_error name)
      | Some v =>
          match format_template args t' with
          | Done rest => Done (v +:+ rest)
          | r => r
          end
      end
  end.

(** State-passing computations: the state survives an exception. *)
Definition M (S A : Type) : Type := S -> result A * S.

Section monad.
Context {S : Type}.

Definition ret {A} (a : A) : M S A := fun s => (Done a, s).

Definition bind {A B} (m : M S A) (k : A -> M S B) : M S B :=
  fun s =>
    match m s with
    | (Done a, s') => k a s'
    | (Raise e, s') => (Raise e, s')
    | (Hang, s') => (Hang, s')
    end.

Definition raise {A} (e : exn) : M S A := fun s => (Raise e, s).
Definition hang {A} : M S A := fun s => (Hang, s).

(** [try: m except Exception as e: h e]. *)
Definition try_except {A} (m : M S A) (h : exn -> M S A) : M S A :=
  fun s =>
    match m s with
    | (Raise e, s') => h e s'
    | r => r
    end.

Definition get : M S S := fun s => (Done s, s).
Definition put (s : S) : M S unit := fun _ => (Done tt, s).
Definition modify (f : S -> S) : M S unit := fun s => (Done tt, f s).

(** Lift the outcome of an external call. *)
Definition lift {A} (r : result A) : M S A := fun s => (r, s).

(** [for x in l: body x] *)
Fixpoint for_each {A} (l : list A) (body : A -> M S unit) : M S unit :=
  match l with
  | [] => ret tt
  | x :: l' => bind (body x) (fun _ => for_each l' body)
  end.
End monad.

#[global] Instance M_ret {S} : MRet (M S) := fun _ a => ret a.
#[global] Instance M_bind {S} : MBind (M S) := fun _ _ k m => bind m k.

End Py.

(** ** Models and the environment they run in ([core/models.py]) *)
Module Models.
Import Py.

Record ModelConfig := mk_model_config {
  name : string;
  engine : string;
  model_name : string;
  api_key : option string;
  base_url : option string;
  temperature : Q;
  max_tokens : Z;
  timeout : Z;
  extra_params : list (string * pyval)
}.

Inductive ModelClass := OllamaModel | OpenAIModel | AnthropicModel | HuggingFaceModel.

(** A model object: an instance of one of the four engine classes, built from
    its configuration, or any other object that offers [generate] (the
    ensemble and the mixture of experts accept a plain dictionary of such
    objects); [attr_name] is its [name] attribute, if it has one. *)
Inductive Model :=
| EngineModel (cls : ModelClass) (config : ModelConfig)
| CustomModel (ident : string) (attr_name : option string).

#[global] Instance ModelClass_eq_dec : EqDecision ModelClass.
Proof. solve_decision. Defined.

(** [getattr(model, 'name', default)]. *)
Definition getattr_name (m : Model) (default : string) : string :=
  match m with
  | EngineModel _ config => name config
  | CustomModel _ (Some n) => n
  | CustomModel _ None => default
  end.

(** What a run does to the outside world, in order. *)
Inductive event :=
| EvGenerate (m : Model) (prompt : string)
| EvIsAvailable (m : Model)
| EvSleep (seconds : Q)
| EvClock
| EvRandomChoice (candidates : list string)
| EvRoute (query : string) (available : list string)
| EvRouteMultiple (query : string) (available : list string) (k : Z)
| EvEstimate (query : string) (available : list string)
| EvMix (query : string) (responses : odict string) (weights : option (odict Q)).

(** The state threaded through a run: the events so far and the mutable
    fields of the object whose method runs. *)
Record World (O : Type) := mk_world { trace : list event; self : O }.
Arguments mk_world {O} trace self.
Arguments trace {O} w.
Arguments self {O} w.

(** The collaborators. Every outcome may depend on the number of events that
    precede the call, so that a back end may answer differently each time. *)
Record Backend := mk_backend {
  (** [await model.generate(prompt, **kwargs)] *)
  generate_outcome : nat -> Model -> string -> result string;
  (** the seconds that call takes before it returns or raises *)
  generate_seconds : nat -> Model -> string -> Q;
  (** [model.is_available()] *)
  is_available_outcome : nat -> Model -> result bool;
  (** whether the constructor of an engine class raises *)
  construct_outcome : ModelClass -> ModelConfig -> option exn;
  (** [time.time()] *)
  clock : nat -> Q;
  (** [random.choice(candidates)] *)
  random_choice : nat -> list string -> string
}.

Section effects.
Context {O : Type}.
Variable B : Backend.

Definition emit (e : event) : M (World O) unit :=
  fun w => (Done tt, mk_world (trace w ++ [e]) (self w)).

(** An external call: its outcome is read at the current length of the
    trace, then the call is recorded. *)
Definition external {A} (e : event) (outcome : nat -> result A) : M (World O) A :=
  fun w => (outcome (length (trace w)), mk_world (trace w ++ [e]) (self w)).

Definition generate (m : Model) (prompt : string) : M (World O) string :=
  external (EvGenerate m prompt) (fun n => generate_outcome B n m prompt).

Definition is_available (m : Model) : M (World O) bool :=
  external (EvIsAvailable m) (fun n => is_available_outcome B n m).

Definition sleep (seconds : Q) : M (World O) unit :=
  emit (EvSleep seconds).

Definition time_time : M (World O) Q :=
  external EvClock (fun n => Done (clock B n)).

Definition choice (candidates : list string) : M (World O) string :=
  external (EvRandomChoice candidates) (fun n => Done (random_choice B n candidates)).

(** The seconds spent in the call that [e] records at position [n] of the
    trace: [asyncio.sleep] returns at once for a delay that is not
    positive. *)
Definition seconds (n : nat) (e : event) : Q :=
  match e with
  | EvGenerate m prompt =>
      let d := generate_seconds B n m prompt in if Qle_bool 0 d then d else 0%Q
  | EvSleep delay => if Qle_bool 0 delay then delay else 0%Q
  | _ => 0%Q
  end.

(** How many of the calls [events], recorded from position [n] on, have
    been started when [budget] seconds have passed; [None] when they all end
    before that. A call that would end at the very moment the budget does
    counts as late. *)
Fixpoint started_by (n : nat) (budget : Q) (events : list event) : option nat :=
  match events with
  | [] => None
  | e :: rest =>
      if Qle_bool budget (seconds n e) then Some 1%nat
      else option_map S (started_by (S n) (budget - seconds n e)%Q rest)
  end.

(** [await asyncio.wait_for(task, timeout)] for a coroutine [task]. With a
    timeout that is not positive the task is cancelled before it runs and
    [TimeoutError] is raised. Otherwise the task runs until it ends or until
    [timeout] seconds have passed; in the latter case it is cancelled inside
    the call it is waiting for (that call was made, nothing after it
    happens) and [TimeoutError] is raised. The tasks awaited in this package
    use the registry and the configuration only: a task runs on the trace,
    in a world without object fields. *)
Definition wait_for {A} (task : M (World unit) A) (timeout : Q) : M (World O) A :=
  fun w =>
    if Qle_bool timeout 0 then (Raise timeout_error, w)
    else
      let n := length (trace w) in
      let '(r, w') := task (mk_world (trace w) tt) in
      let events := drop n (trace w') in
      match started_by n timeout events with
      | Some k =>
          (Raise timeout_error, mk_world (trace w ++ take k events) (self w))
      | None =>
          (match r with Hang => Raise timeout_error | _ => r end,
           mk_world (trace w') (self w))
      end.

Definition get_self : M (World O) O := fun w => (Done (self w), w).
Definition set_self (o : O) : M (World O) unit :=
  fun w => (Done tt, mk_world (trace w) o).
Definition update_self (f : O -> O) : M (World O) unit :=
  fun w => (Done tt, mk_world (trace w) (f (self w))).
End effects.

Definition engine_map (engine : string) : option ModelClass :=
  if decide (engine = "ollama") then Some OllamaModel
  else if decide (engine = "openai") then Some OpenAIModel
  else if decide (engine = "anthropic") then Some AnthropicModel
  else if decide (engine = "huggingface") then Some HuggingFaceModel
  else None.

(** [create_model(config)]. *)
Definition create_model (B : Backend) (config : ModelConfig) : result Model :=
  match engine_map (engine config) with
  | None => Raise (value_error ("Unsupported engine: " +:+ engine config))
  | Some cls =>
      match construct_outcome B cls config with
      | Some e => Raise e
      | None => Done (EngineModel cls config)
      end
  end.

End Models.

(** ** The model registry ([core/registry.py]) *)
Module Registry.
Import Py Models.

Record ModelRegistry := mk_registry {
  models : odict Model;
  configs : odict ModelConfig
}.

(** [ModelRegistry()]. *)
Definition empty : ModelRegistry := mk_registry [] [].

Section registry.
Variable B : Backend.

(** [registry.add_model(name, engine, model_name, ...)]: a computation on
    the registry itself. *)
Definition add_model (name engine model_name : string)
    (api_key base_url : option string) (temperature : Q)
    (max_tokens timeout : Z) (kwargs : list (string * pyval))
    : M ModelRegistry unit :=
  let config :=
    mk_model_config name engine model_name api_key base_url temperature
      max_tokens timeout kwargs in
  try_except
    (model ← lift (create_model B config);
     modify (fun r =>
       mk_registry (od_set name model (models r))
                   (od_set name config (configs r))))
    (fun e => raise e).

(** [registry.get(name)]. *)
Definition get (r : ModelRegistry) (name : string) : result Model :=
  match od_get name (models r) with
  | None => Raise (key_error ("Model '" +:+ name +:+ "' not found in registry"))
  | Some m => Done m
  end.

(** [registry.list_models()]. *)
Definition list_models (r : ModelRegistry) : list string := od_keys (models r).

(** [name in registry]. *)
Definition contains (r : ModelRegistry) (name : string) : bool :=
  od_mem name (models r).

(** [registry.remove_model(name)]: the two [del] statements run one after
    the other, and [del self.configs[name]] raises [KeyError(name)] when the
    model has no configuration. *)
Definition remove_model (name : string) : M ModelRegistry unit :=
  r ← Py.get;
  if od_mem name (models r)
  then
    put (mk_registry (od_del name (models r)) (configs r));;
    if od_mem name (configs r)
    then put (mk_registry (od_del name (models r)) (od_del name (configs r)))
    else raise (key_error name)
  else raise (key_error ("Model '" +:+ name +:+ "' not found in registry")).

(** [registry.check_availability()]: a probe that raises counts as
    unavailable. *)
Fixpoint check_availability_loop {O} (items : list (string * Model))
    (availability : odict bool) : M (World O) (odict bool) :=
  match items with
  | [] => mret availability
  | (name, model) :: rest =>
      a ← try_except (is_available B model) (fun e => mret false);
      check_availability_loop rest (od_set name a availability)
  end.

Definition check_availability {O} (r : ModelRegistry) : M (World O) (odict bool) :=
  check_availability_loop (models r) [].

(** [registry.get_available_models()]. *)
Definition get_available_models {O} (r : ModelRegistry) : M (World O) (list string) :=
  availability ← check_availability r;
  mret (map fst (List.filter (fun na => snd na) availability)).

(** [registry.get_config(name)]. *)
Definition get_config (r : ModelRegistry) (name : string) : result ModelConfig :=
  match od_get name (configs r) with
  | None =>
      Raise (key_error ("Model config '" +:+ name +:+ "' not found in registry"))
  | Some config => Done config
  end.

(** [registry.get_models_by_engine(engine)]. *)
Definition get_models_by_engine (r : ModelRegistry) (engine : string)
    : list string :=
  map fst
    (List.filter (fun nc => bool_decide (Models.engine (snd nc) = engine))
       (configs r)).

(** [registry.clear()]. *)
Definition clear : M ModelRegistry unit := put (mk_registry [] []).

(** [len(registry)]. *)
Definition len (r : ModelRegistry) : nat := od_len (models r).
End registry.

End Registry.

(** ** Mixers ([core/mixers.py]) *)
Module Mixers.
Import Py Models.

(** [if weights:] holds for a dictionary that is given and not empty. *)
Definition given (weights : option (odict Q)) : bool :=
  match weights with
  | Some (_ :: _) => true
  | _ => false
  end.

(** The dictionary behind an optional [weights] argument. *)
Definition weights_dict (weights : option (odict Q)) : odict Q :=
  match weights with Some d => d | None => [] end.

(** [weights.get(k, default)] under [if weights:]. *)
Definition weight_of (weights : option (odict Q)) (k : string) (default : Q) : Q :=
  od_get_default k default (weights_dict weights).

(** [k in weights]. *)
Definition has_weight (weights : option (odict Q)) (k : string) : bool :=
  match weights with
  | Some d => od_mem k d
  | None => false
  end.

(** The word sets of two texts and their Jaccard similarity
    [len(a & b) / len(a | b)], 0 when the union is empty. *)
Definition word_set (text : string) : list string := set_of (PyStr.split text).

Definition jaccard (words1 words2 : list string) : Q :=
  let intersection :=
    length (List.filter (fun w => bool_decide (w ∈ words2)) words1) in
  let union := length (set_of (words1 ++ words2)) in
  if (0 <? union)%nat then (Qnat intersection / Qnat union)%Q else 0%Q.

(** *** DefaultMixer *)
Definition DefaultMixer_mix {O} (query : string) (responses : odict string)
    (weights : option (odict Q)) : M (World O) string :=
  match responses with
  | [] => mret ""
  | (_, first) :: _ =>
      if negb (given weights) then mret first
      else
        match max_by (fun k => weight_of weights k 0)
                (od_keys (weights_dict weights)) with
        | Some best_source =>
            match od_get best_source responses with
            | Some r => mret r
            | None => mret first
            end
        | None => mret first
        end
  end.

(** *** ConcatenationMixer *)
Record ConcatenationMixer := mk_concatenation {
  include_weights : bool;
  separator : string
}.

(** [ConcatenationMixer()]. *)
Definition default_concatenation : ConcatenationMixer :=
  mk_concatenation true (PyStr.join "" [String "010" EmptyString; String "010" EmptyString]).

(** [sorted(responses.keys(), key=lambda k: weights.get(k, 0.0), reverse=True)]
    when weights are given, the keys in order otherwise. *)
Definition sorted_sources (responses : odict string) (weights : option (odict Q))
    : list string :=
  if given weights
  then sort_desc (fun k => weight_of weights k 0) (od_keys responses)
  else od_keys responses.

Section concatenation.
(** The percentage format [:.1%]. *)
Variable format_pct : Q -> string.

Definition concatenation_header (mixer : ConcatenationMixer)
    (weights : option (odict Q)) (source : string) : string :=
  if include_weights mixer && given weights && has_weight weights source
  then "[" +:+ source +:+ " (" +:+ format_pct (weight_of weights source 0) +:+ ")]:"
  else "[" +:+ source +:+ "]:".

Definition ConcatenationMixer_mix {O} (mixer : ConcatenationMixer)
    (query : string) (responses : odict string) (weights : option (odict Q))
    : M (World O) string :=
  match responses with
  | [] => mret ""
  | _ =>
      let mixed_parts :=
        map (fun source =>
               concatenation_header mixer weights source
               +:+ String "010" EmptyString
               +:+ od_get_default source "" responses)
            (sorted_sources responses weights) in
      mret (PyStr.join (separator mixer) mixed_parts)
  end.

(** *** SynthesisMixer *)
Record SynthesisMixer := mk_synthesis {
  synthesis_model : Model;
  prompt_template : template;
  max_input_length : option Z
}.

Definition line (text : string) : piece := Lit (text +:+ String "010" EmptyString).

Definition _default_prompt_template : template :=
  [line "";
   line "You are tasked with synthesizing responses from multiple domain experts into a coherent, integrated response.";
   line "";
   Lit "Original query: "; Field "query"; line "";
   line "";
   line "Expert responses:";
   Field "weighted_responses"; line "";
   line "";
   line "Create a unified response that:";
   line "1. Integrates insights from all relevant experts";
   line "2. Resolves any contradictions or conflicts";
   line "3. Provides a coherent narrative";
   line "4. Gives appropriate weight to each domain based on relevance";
   line "5. Directly addresses the original query";
   line "";
   line "Synthesized response:"].

Definition _format_weighted_responses (responses : odict string)
    (weights : option (odict Q)) : string :=
  let formatted_parts :=
    map (fun source =>
           (if given weights && has_weight weights source
            then "[" +:+ source +:+ " - Confidence: "
                 +:+ format_pct (weight_of weights source 0) +:+ "]"
            else "[" +:+ source +:+ "]")
           +:+ String "010" EmptyString
           +:+ od_get_default source "" responses)
        (sorted_sources responses weights) in
  PyStr.join (String "010" (String "010" EmptyString)) formatted_parts.

Definition _truncate_responses (formatted_responses : string) (max_length : Z)
    : string :=
  if (Z.of_nat (PyStr.len formatted_responses) <=? max_length)%Z
  then formatted_responses
  else PyStr.slice_to (max_length - 10) formatted_responses
       +:+ String "010" (String "010" "[...]").

Variable B : Backend.

Definition SynthesisMixer_mix {O} (mixer : SynthesisMixer) (query : string)
    (responses : odict string) (weights : option (odict Q))
    : M (World O) string :=
  match responses with
  | [] => mret ""
  | [(_, only)] => mret only
  | _ =>
      try_except
        (let weighted_responses := _format_weighted_responses responses weights in
         let weighted_responses :=
           match max_input_length mixer with
           | Some n =>
               if (n =? 0)%Z then weighted_responses
               else _truncate_responses weighted_responses n
           | None => weighted_responses
           end in
         prompt ← lift (format_template
                          (fun field =>
                             if decide (field = "query") then Some query
                             else if decide (field = "weighted_responses")
                             then Some weighted_responses
                             else None)
                          (prompt_template mixer));
         synthesis ← generate B (synthesis_model mixer) prompt;
         mret (PyStr.strip synthesis))
        (fun e =>
           ConcatenationMixer_mix default_concatenation query responses weights)
  end.
End concatenation.

(** *** WeightedMixer *)
Record WeightedMixer := mk_weighted {
  combination_method : string;
  segment_length : Z;
  overlap_penalty : Q
}.

(** [WeightedMixer()]. *)
Definition default_weighted : WeightedMixer :=
  mk_weighted "weighted_segments" 100 (1 # 10).

Definition flush (current_segment : list string) : list string :=
  match current_segment with
  | [] => []
  | _ => [PyStr.join " " current_segment]
  end.

Fixpoint split_segments_loop (segment_length : Z) (words : list string)
    (current_segment : list string) (current_length : Z) : list string :=
  match words with
  | [] => flush current_segment
  | word :: rest =>
      if (current_length + Z.of_nat (PyStr.len word) + 1 <=? segment_length)%Z
      then split_segments_loop segment_length rest (current_segment ++ [word])
             (current_length + Z.of_nat (PyStr.len word) + 1)
      else flush current_segment
           ++ split_segments_loop segment_length rest [word]
                (Z.of_nat (PyStr.len word))
  end.

Definition _split_into_segments (text : string) (segment_length : Z)
    : list string :=
  split_segments_loop segment_length (PyStr.split text) [] 0.

(** [re.split(r'[.!?]+', text)] followed by the removal of blank pieces. *)
Definition is_sentence_end (c : ascii) : bool :=
  bool_decide (c = "."%char) || bool_decide (c = "!"%char)
  || bool_decide (c = "?"%char).

Fixpoint split_sentences_loop (cur : list ascii) (l : list ascii)
    : list string :=
  match l with
  | [] => [PyStr.of_chars (rev cur)]
  | c :: l' =>
      if is_sentence_end c
      then PyStr.of_chars (rev cur) :: split_sentences_loop [] l'
      else split_sentences_loop (c :: cur) l'
  end.

Definition nonblank (s : string) : bool := negb (bool_decide (PyStr.strip s = "")).

Definition _split_into_sentences (text : string) : list string :=
  map PyStr.strip
    (List.filter nonblank (split_sentences_loop [] (PyStr.chars text))).

Definition _has_significant_overlap (mixer : WeightedMixer) (segment : string)
    (used_content : list string) : bool :=
  let segment_lower := PyStr.strip (PyStr.lower segment) in
  existsb
    (fun used =>
       (0 <? PyStr.len segment_lower)%nat && (0 <? PyStr.len used)%nat
       && match word_set segment_lower, word_set used with
          | _ :: _ as seg_words, _ :: _ as used_words =>
              Qgtb (jaccard seg_words used_words) (overlap_penalty mixer)
          | _, _ => false
          end)
    used_content.

Definition _sentences_similar (sent1 sent2 : string) (threshold : Q) : bool :=
  if bool_decide (sent1 = "") || bool_decide (sent2 = "") then false
  else
    match word_set sent1, word_set sent2 with
    | _ :: _ as words1, _ :: _ as words2 => Qgeb (jaccard words1 words2) threshold
    | _, _ => false
    end.

(** A piece of text with the weight and the name of its source. *)
Definition weighted : Type := string * Q * string.
Definition w_text (x : weighted) : string := fst (fst x).
Definition w_weight (x : weighted) : Q := snd (fst x).
Definition w_source (x : weighted) : string := snd x.

Fixpoint select_segments (mixer : WeightedMixer) (segments : list string)
    (weight : Q) (source : string)
    (acc : list weighted * list string) : list weighted * list string :=
  match segments with
  | [] => acc
  | segment :: rest =>
      let '(combined_segments, used_content) := acc in
      if negb (_has_significant_overlap mixer segment used_content)
      then select_segments mixer rest weight source
             (combined_segments ++ [(segment, weight, source)],
              set_add (PyStr.strip (PyStr.lower segment)) used_content)
      else select_segments mixer rest weight source acc
  end.

Fixpoint take_until_full (max_length : Q) (segments : list weighted)
    (total_length : nat) : list string :=
  match segments with
  | [] => []
  | segment :: rest =>
      if Qleb (Qnat (total_length + PyStr.len (w_text segment))) max_length
      then w_text segment
           :: take_until_full max_length rest
                (total_length + PyStr.len (w_text segment))
      else []
  end.

Definition _weighted_segments_combination (mixer : WeightedMixer)
    (responses : odict string) (weights : odict Q) : string :=
  let weighted_responses : list weighted :=
    sort_desc w_weight
      (map (fun sr => (snd sr, od_get_default (fst sr) 0%Q weights, fst sr))
           responses) in
  let combined_segments :=
    fst (fold_left
           (fun acc wr =>
              select_segments mixer
                (_split_into_segments (w_text wr) (segment_length mixer))
                (w_weight wr) (w_source wr) acc)
           weighted_responses ([], [])) in
  let combined_segments := sort_desc w_weight combined_segments in
  let max_length :=
    (Qnat (foldr Nat.max 0%nat (map PyStr.len (od_values responses)))
     * (12 # 10))%Q in
  PyStr.join " " (take_until_full max_length combined_segments 0).

Fixpoint select_sentences (sentences : list weighted)
    (used_sentences : list string) : list string :=
  match sentences with
  | [] => []
  | sentence :: rest =>
      let sentence_lower := PyStr.strip (PyStr.lower (w_text sentence)) in
      if negb (existsb (fun used => _sentences_similar sentence_lower used (7 # 10))
                 used_sentences)
      then w_text sentence
           :: select_sentences rest (set_add sentence_lower used_sentences)
      else select_sentences rest used_sentences
  end.

Definition _sentence_selection_combination (responses : odict string)
    (weights : odict Q) : string :=
  let weighted_sentences : list weighted :=
    flat_map
      (fun sr =>
         map (fun sentence => (sentence, od_get_default (fst sr) 0%Q weights, fst sr))
             (_split_into_sentences (snd sr)))
      responses in
  PyStr.join " " (select_sentences (sort_desc w_weight weighted_sentences) []).

(** The paragraphs of one topic group, in the order they were met. *)
Definition topic_group (topic : nat) (paragraphs : list (weighted * nat))
    : list weighted :=
  map fst (List.filter (fun p => (snd p =? topic)%nat) paragraphs).

Definition _paragraph_blend_combination (responses : odict string)
    (weights : odict Q) : string :=
  let blank_line := String "010" (String "010" EmptyString) in
  let paragraph_groups : list (weighted * nat) :=
    flat_map
      (fun sr =>
         map (fun ip =>
                ((snd ip, od_get_default (fst sr) 0%Q weights, fst sr),
                 (fst ip mod 3)%nat))
             (enumerate_from 0
                (map PyStr.strip
                   (List.filter nonblank (PyStr.split_on blank_line (snd sr))))))
      responses in
  let topics := set_of (map snd paragraph_groups) in
  let final_paragraphs :=
    flat_map
      (fun topic =>
         match sort_desc w_weight (topic_group topic paragraph_groups) with
         | best :: _ => [w_text best]
         | [] => []
         end)
      topics in
  PyStr.join blank_line final_paragraphs.

Definition WeightedMixer_mix {O} (mixer : WeightedMixer) (query : string)
    (responses : odict string) (weights : option (odict Q))
    : M (World O) string :=
  match responses with
  | [] => mret ""
  | [(_, only)] => mret only
  | _ =>
      let weights : odict Q :=
        if negb (given weights)
        then od_of_list
               (map (fun source => (source, (1 / Qnat (od_len responses))%Q))
                    (od_keys responses))
        else weights_dict weights in
      let total_weight := Qsum (od_values weights) in
      let weights :=
        if Qgtb total_weight 0
        then map (fun kv => (fst kv, (snd kv / total_weight)%Q)) weights
        else weights in
      if decide (combination_method mixer = "weighted_segments")
      then mret (_weighted_segments_combination mixer responses weights)
      else if decide (combination_method mixer = "sentence_selection")
      then mret (_sentence_selection_combination responses weights)
      else if decide (combination_method mixer = "paragraph_blend")
      then mret (_paragraph_blend_combination responses weights)
      else raise (value_error
                    ("Unknown combination method: " +:+ combination_method mixer))
  end.

(** *** ConsensusBasedMixer *)
Record ConsensusBasedMixer := mk_consensus {
  (** a binary64 float: the consensus test rounds a product with it *)
  consensus_threshold : float;
  conflict_resolution : string
}.

(** The float that the literal [0.6] denotes. *)
Definition float_0_6 : float := 0x1.3333333333333p-1%float.

(** [ConsensusBasedMixer()]. *)
Definition default_consensus : ConsensusBasedMixer :=
  mk_consensus float_0_6 "weight_based".

(** The float of a length (exact below 2^53). *)
Definition float_of_len (n : nat) : float :=
  PrimFloat.of_uint63 (Uint63.of_Z (Z.of_nat n)).

Definition _extract_key_points (response : string) : list string :=
  let sentences :=
    map PyStr.strip (List.filter nonblank (PyStr.split_on "." response)) in
  let key_points := List.filter (fun s => (20 <? PyStr.len s)%nat) sentences in
  firstn 5 key_points.

Definition _points_similar (point1 point2 : string) (threshold : Q) : bool :=
  if bool_decide (point1 = "") || bool_decide (point2 = "") then false
  else
    match word_set (PyStr.lower point1), word_set (PyStr.lower point2) with
    | _ :: _ as words1, _ :: _ as words2 => Qgeb (jaccard words1 words2) threshold
    | _, _ => false
    end.

(** [(point, source, weight)] for every key point of every source. *)
Definition all_points (key_points : odict (list string)) (weights : odict Q)
    : list weighted :=
  flat_map
    (fun sp =>
       map (fun point => (point, od_get_default (fst sp) 1%Q weights, fst sp))
           (snd sp))
    key_points.

(** The inner loop of [_find_consensus]: the later points, not yet used, that
    are similar to [point1] join its group. *)
Fixpoint collect_group (point1 : string) (later : list (nat * weighted))
    (group : list weighted) (used_points : list nat)
    : list weighted * list nat :=
  match later with
  | [] => (group, used_points)
  | (j, p2) :: rest =>
      if bool_decide (j ∈ used_points)
      then collect_group point1 rest group used_points
      else if _points_similar point1 (w_text p2) (1 # 2)
      then collect_group point1 rest (group ++ [p2]) (used_points ++ [j])
      else collect_group point1 rest group used_points
  end.

(** [max(group, key=lambda x: x[2])[0]]. *)
Definition best_point (group : list weighted) : string :=
  match max_by w_weight group with
  | Some p => w_text p
  | None => ""
  end.

(** The test that makes a group a consensus:
    [len(group) >= len(key_points) * self.consensus_threshold]. The product
    of the integer and the float is a float, rounded as binary64 rounds. *)
Definition is_consensus (mixer : ConsensusBasedMixer) (n_sources : nat)
    (group : list weighted) : bool :=
  PrimFloat.leb
    (PrimFloat.mul (float_of_len n_sources) (consensus_threshold mixer))
    (float_of_len (length group)).

Fixpoint consensus_loop (mixer : ConsensusBasedMixer) (n_sources : nat)
    (points : list (nat * weighted)) (used_points : list nat)
    (consensus_points : list string) : list string :=
  match points with
  | [] => consensus_points
  | (i, p1) :: rest =>
      if bool_decide (i ∈ used_points)
      then consensus_loop mixer n_sources rest used_points consensus_points
      else
        let '(group, used_points) :=
          collect_group (w_text p1) rest [p1] (used_points ++ [i]) in
        if is_consensus mixer n_sources group
        then consensus_loop mixer n_sources rest used_points
               (consensus_points ++ [best_point group])
        else consensus_loop mixer n_sources rest used_points consensus_points
  end.

Definition _find_consensus (mixer : ConsensusBasedMixer)
    (key_points : odict (list string)) (weights : odict Q) : list string :=
  consensus_loop mixer (od_len key_points)
    (enumerate_from 0 (all_points key_points weights)) [] [].

Definition _resolve_conflicts (mixer : ConsensusBasedMixer)
    (key_points : odict (list string)) (weights : odict Q) : list string :=
  if decide (conflict_resolution mixer = "weight_based")
  then
    let sorted_sources := sort_desc snd weights in
    flat_map
      (fun sw =>
         match od_get (fst sw) key_points with
         | Some points => firstn 2 points
         | None => []
         end)
      (firstn 2 sorted_sources)
  else [].

Definition bullet (text : string) : string := "• " +:+ text.

Definition _build_unified_response (consensus_points conflict_resolutions : list string)
    (query : string) : string :=
  let consensus_part :=
    match consensus_points with
    | [] => []
    | _ => "Based on expert consensus:" :: map bullet consensus_points
    end in
  let conflict_part :=
    match conflict_resolutions with
    | [] => []
    | _ =>
        (match consensus_part with
         | [] => "Key insights:"
         | _ => String "010" "Additional considerations:"
         end) :: map bullet conflict_resolutions
    end in
  match (consensus_part ++ conflict_part)%list with
  | [] => "No clear consensus found among expert responses."
  | response_parts => PyStr.join (String "010" EmptyString) response_parts
  end.

Definition ConsensusBasedMixer_mix {O} (mixer : ConsensusBasedMixer)
    (query : string) (responses : odict string) (weights : option (odict Q))
    : M (World O) string :=
  match responses with
  | [] => mret ""
  | [(_, only)] => mret only
  | _ =>
      let key_points : odict (list string) :=
        od_of_list (map (fun sr => (fst sr, _extract_key_points (snd sr))) responses) in
      let weights := weights_dict weights in
      let consensus_points := _find_consensus mixer key_points weights in
      let conflict_resolutions := _resolve_conflicts mixer key_points weights in
      mret (_build_unified_response consensus_points conflict_resolutions query)
  end.

(** The interface shared by the five mixers, as the ensemble and the mixture
    of experts use it. *)
Definition Mixer (O : Type) : Type :=
  string -> odict string -> option (odict Q) -> M (World O) string.

End Mixers.

(** ** Floats with their special values *)
Module PyFloat.
Import Py.

(** A numpy float: a finite value, an infinity or nan. The finite values
    are rationals; zero has no sign. *)
Inductive pyfloat :=
| Fin (q : Q)
| Inf (positive : bool)
| NaN.

Definition is_nan (x : pyfloat) : bool :=
  match x with NaN => true | _ => false end.

Definition is_inf (positive : bool) (x : pyfloat) : bool :=
  match x with Inf p => Bool.eqb p positive | _ => false end.

(** [a > b] and [a >= b]: every comparison with nan is false. *)
Definition fgt (a b : pyfloat) : bool :=
  match a, b with
  | NaN, _ | _, NaN => false
  | Fin x, Fin y => Qgtb x y
  | Inf p, Inf q => p && negb q
  | Inf p, Fin _ => p
  | Fin _, Inf q => negb q
  end.

Definition fge (a b : pyfloat) : bool :=
  match a, b with
  | NaN, _ | _, NaN => false
  | Fin x, Fin y => Qgeb x y
  | Inf p, Inf q => p || negb q
  | Inf p, Fin _ => p
  | Fin _, Inf q => negb q
  end.

(** [max(l, key=key)]: the running best is replaced by an element whose key
    is greater. *)
Definition max_by_f {A} (key : A -> pyfloat) (l : list A) : option A :=
  match l with
  | [] => None
  | x :: l' =>
      Some (fold_left (fun best y => if fgt (key y) (key best) then y else best) l' x)
  end.

(** [l.sort(key=key, reverse=True)]: the sort is stable. *)
Fixpoint insert_desc_f {A} (key : A -> pyfloat) (x : A) (sorted : list A)
    : list A :=
  match sorted with
  | [] => [x]
  | y :: rest =>
      if fgt (key y) (key x) then y :: insert_desc_f key x rest
      else x :: y :: rest
  end.
Definition sort_desc_f {A} (key : A -> pyfloat) (l : list A) : list A :=
  fold_right (insert_desc_f key) [] l.

(** [np.max(values)] of a non-empty array: a nan in the array makes the
    maximum nan. *)
Definition np_max (values : list pyfloat) : pyfloat :=
  match values with
  | [] => NaN
  | v :: rest =>
      fold_left
        (fun m x => if is_nan m || is_nan x then NaN
                    else if fgt x m then x else m)
        rest v
  end.

(** The finite entries of an array. *)
Definition finite_values (values : list pyfloat) : list Q :=
  omap (fun x => match x with Fin q => Some q | _ => None end) values.

Section arith.
(** The rounding of the result of an arithmetic operation to a float (an
    overflow to infinity is not modelled), [np.exp] on finite arguments and
    [np.sum] on arrays of finite values. *)
Variable fl : Q -> Q.
Variable np_exp : Q -> Q.
Variable np_sum : list Q -> Q.

(** [a / b] in numpy: a division by zero raises nothing, it gives an
    infinity, or nan for [0 / 0]. *)
Definition fdiv (a b : pyfloat) : pyfloat :=
  match a, b with
  | NaN, _ | _, NaN => NaN
  | Inf _, Inf _ => NaN
  | Inf p, Fin y => Inf (if Qle_bool 0 y then p else negb p)
  | Fin _, Inf _ => Fin 0
  | Fin x, Fin y =>
      if Qeq_bool y 0
      then (if Qeq_bool x 0 then NaN else Inf (Qle_bool 0 x))
      else Fin (fl (x / y))
  end.

(** [a - b]. *)
Definition fsub (a b : pyfloat) : pyfloat :=
  match a, b with
  | NaN, _ | _, NaN => NaN
  | Inf p, Inf q => if Bool.eqb p q then NaN else Inf p
  | Inf p, Fin _ => Inf p
  | Fin _, Inf q => Inf (negb q)
  | Fin x, Fin y => Fin (fl (x - y))
  end.

(** [np.exp(a)]. *)
Definition fexp (a : pyfloat) : pyfloat :=
  match a with
  | Fin x => Fin (np_exp x)
  | Inf true => Inf true
  | Inf false => Fin 0
  | NaN => NaN
  end.

(** [np.sum(values)]. *)
Definition fsum (values : list pyfloat) : pyfloat :=
  if existsb is_nan values then NaN
  else
    match existsb (is_inf true) values, existsb (is_inf false) values with
    | true, true => NaN
    | true, false => Inf true
    | false, true => Inf false
    | false, false => Fin (np_sum (finite_values values))
    end.
End arith.

End PyFloat.

(** ** The embedding router ([core/routers.py]) *)
Module Routers.
Import Py PyFloat.

Record DomainDescription := mk_domain {
  d_name : string;
  d_description : string;
  d_keywords : list string;
  d_examples : list string;
  d_embedding : option (list Q)
}.

Record EmbeddingRouter := mk_embedding_router {
  threshold : Q;
  temperature : Q;
  (** whether [self.embedding_model] was loaded *)
  embedding_model : bool;
  domains : odict DomainDescription
}.

(** [np.max(values)] of a non-empty array of finite values. *)
Definition np_max (values : list Q) : Q :=
  match values with
  | [] => 0%Q
  | v :: rest => fold_left (fun m x => if Qgtb x m then x else m) rest v
  end.

Section embedding.
(** The rounding of float results, [np.exp], [np.sum], the value of
    [np.dot] on vectors of one length, and [np.linalg.norm]. *)
Variable fl : Q -> Q.
Variable np_exp : Q -> Q.
Variable np_sum : list Q -> Q.
Variable dot_product : list Q -> list Q -> Q.
Variable np_norm : list Q -> Q.
(** [self.embedding_model.encode(text)]. *)
Variable encode : string -> result (list Q).

(** [np.dot(a, b)] of two vectors: the shapes must agree. *)
Definition np_dot (a b : list Q) : result Q :=
  if (length a =? length b)%nat
  then Done (dot_product a b)
  else Raise (value_error "shapes not aligned").

(** The loop of [_calculate_scores]; [None] when a step raises. The cosine
    similarity is a float division: for an embedding of norm zero it is
    nan or an infinity. *)
Fixpoint scores_loop (router : EmbeddingRouter) (query_embedding : list Q)
    (available_models : list string) (scores : odict pyfloat)
    : option (odict pyfloat) :=
  match available_models with
  | [] => Some scores
  | model :: rest =>
      match od_get model (domains router) with
      | Some {| d_embedding := Some (x :: xs) |} =>
          let domain_embedding := x :: xs in
          match np_dot query_embedding domain_embedding with
          | Done dot =>
              let similarity :=
                fdiv fl (Fin dot)
                  (Fin (fl (np_norm query_embedding * np_norm domain_embedding))) in
              scores_loop router query_embedding rest
                (od_set model similarity scores)
          | _ => None
          end
      | _ => scores_loop router query_embedding rest scores
      end
  end.

Definition _calculate_scores (router : EmbeddingRouter) (query : string)
    (available_models : list string) : result (odict pyfloat) :=
  if negb (embedding_model router) then Done []
  else
    match encode query with
    | Done query_embedding =>
        match scores_loop router query_embedding available_models [] with
        | Some scores => Done scores
        | None => Done []
        end
    | Raise e => Done []
    | Hang => Hang
    end.

(** The temperature-scaled softmax of the score values, array operation by
    array operation. *)
Definition softmax (router : EmbeddingRouter) (values : list pyfloat)
    : list pyfloat :=
  let score_values :=
    if negb (Qeq_bool (temperature router) 1)
    then map (fun v => fdiv fl v (Fin (temperature router))) values
    else values in
  let highest := PyFloat.np_max score_values in
  let exp_scores :=
    map (fun v => fexp np_exp (fsub fl v highest)) score_values in
  let total := fsum np_sum exp_scores in
  map (fun e => fdiv fl e total) exp_scores.

(** [route_multiple] once the scores are known. *)
Definition route_multiple_scores (router : EmbeddingRouter)
    (scores : odict pyfloat) (k : Z) : list (string * pyfloat) :=
  match scores with
  | [] => []
  | _ =>
      let softmax_scores := softmax router (od_values scores) in
      let model_scores := combine (od_keys scores) softmax_scores in
      let model_scores := sort_desc_f snd model_scores in
      List.filter (fun ms => fge (snd ms) (Fin (threshold router)))
        (slice_to k model_scores)
  end.

Definition route_multiple (router : EmbeddingRouter) (query : string)
    (available_models : list string) (k : Z)
    : result (list (string * pyfloat)) :=
  match _calculate_scores router query available_models with
  | Done scores => Done (route_multiple_scores router scores k)
  | Raise e => Raise e
  | Hang => Hang
  end.

Definition route (router : EmbeddingRouter) (query : string)
    (available_models : list string) : result (option string) :=
  if negb (embedding_model router) then Done None
  else
    match _calculate_scores router query available_models with
    | Done scores =>
        match max_by_f snd scores with
        | Some (best_model, best_score) =>
            if fge best_score (Fin (threshold router))
            then Done (Some best_model) else Done None
        | None => Done None
        end
    | Raise e => Raise e
    | Hang => Hang
    end.
End embedding.

End Routers.

(** ** Chains ([core/chains.py]) *)
Module Chains.
Import Py Models.

(** An entry of [chain.models]: a model, or a model name left unresolved. *)
Inductive chain_item := ModelItem (m : Model) | NameItem (model_name : string).

(** The values the chain stores in [context.metadata]: response texts and
    the flag [True]. *)
Inductive meta_value := MStr (text : string) | MTrue.

Definition str_of_meta (v : meta_value) : string :=
  match v with
  | MStr text => text
  | MTrue => "True"
  end.

Record ChainContext := mk_context {
  query : string;
  responses : list string;
  metadata : gmap string meta_value
}.

(** [ChainContext(query=query, responses=[], metadata={})]. *)
Definition new_context (query : string) : ChainContext := mk_context query [] ∅.

(** [context.add_response(response, model_name)]. *)
Definition add_response (response model_name : string) (context : ChainContext)
    : ChainContext :=
  let responses := responses context ++ [response] in
  mk_context (query context) responses
    (<[model_name := MStr response]>
       (<["response_" +:+ pretty (length responses - 1)%nat := MStr response]>
          (metadata context))).

(** [context.get_previous_response()]. *)
Definition get_previous_response (context : ChainContext) : option string :=
  last (responses context).

Record Chain := mk_chain {
  models : list chain_item;
  prompt_templates : gmap string template;
  max_context_length : option Z;
  stop_on_error : bool
}.

Definition nl : string := String "010" EmptyString.

Definition template_first : template := [Field "query"].

Definition template_middle : template :=
  [Lit "Previous analysis: "; Field "prev_response"; Lit (nl +:+ nl);
   Lit "Original query: "; Field "query"; Lit (nl +:+ nl);
   Lit "Provide your additional insights and analysis."].

Definition template_last : template :=
  [Lit ("Previous analyses:" +:+ nl); Field "all_responses"; Lit (nl +:+ nl);
   Lit "Original query: "; Field "query"; Lit (nl +:+ nl);
   Lit "Synthesize the above analyses into a comprehensive, integrated response."].

Definition _format_all_responses (context : ChainContext) : string :=
  match responses context with
  | [] => "None"
  | _ =>
      PyStr.join (nl +:+ nl)
        (map (fun ir =>
                "Analysis " +:+ pretty (fst ir + 1)%nat +:+ ":" +:+ nl +:+ snd ir)
             (enumerate_from 0 (responses context)))
  end.

(** The keyword arguments of [template.format]: the four fixed ones,
    overridden by the entries of the metadata. *)
Definition format_args (context : ChainContext) (field : string) : option string :=
  match metadata context !! field with
  | Some v => Some (str_of_meta v)
  | None =>
      if decide (field = "query") then Some (query context)
      else if decide (field = "prev_response")
      then Some (default "" (get_previous_response context))
      else if decide (field = "responses")
      then Some (PyStr.repr_list (responses context))
      else if decide (field = "all_responses")
      then Some (_format_all_responses context)
      else None
  end.

Definition _format_prompt (chain : Chain) (context : ChainContext)
    (model_name : string) (step total_steps : nat) : string :=
  let template :=
    match prompt_templates chain !! model_name with
    | Some t => t
    | None =>
        if (step =? 0)%nat then template_first
        else if (Z.of_nat step =? Z.of_nat total_steps - 1)%Z then template_last
        else template_middle
    end in
  match format_template (format_args context) template with
  | Done prompt => prompt
  | _ =>
      match responses context with
      | [] => query context
      | _ =>
          "Previous: " +:+ default "None" (get_previous_response context)
          +:+ nl +:+ "Query: " +:+ query context
      end
  end.

Definition _truncate_prompt (prompt : string) (max_length : Z) : string :=
  if (Z.of_nat (PyStr.len prompt) <=? max_length)%Z then prompt
  else if PyStr.contains "Original query:" prompt
  then PyStr.slice_to (max_length - 100) prompt
       +:+ nl +:+ nl +:+ "[Content truncated]" +:+ nl +:+ nl
       +:+ "Original query: "
       +:+ default "" (last (PyStr.split_on "Original query:" prompt))
  else PyStr.slice_to max_length prompt.

Definition error_placeholder (model_name : string) (e : exn) : string :=
  "[Error in " +:+ model_name +:+ ": " +:+ exn_str e +:+ "]".

Section chains.
Variable B : Backend.

(** The context of the running chain is the state of the computation, so
    that what a step did to it before raising is seen by the handler. *)
Definition record_response (response model_name : string)
    : M (World ChainContext) unit :=
  update_self (add_response response model_name).

(** One iteration of the loop of [Chain.generate]. *)
Definition chain_step (chain : Chain) (i : nat) (item : chain_item)
    : M (World ChainContext) unit :=
  match item with
  | NameItem _ => mret tt
  | ModelItem model =>
      let model_name := getattr_name model ("model_" +:+ pretty i) in
      try_except
        (context ← get_self;
         let prompt :=
           _format_prompt chain context model_name i (length (models chain)) in
         let prompt :=
           match max_context_length chain with
           | Some n =>
               if negb (n =? 0)%Z && (n <? Z.of_nat (PyStr.len prompt))%Z
               then _truncate_prompt prompt n else prompt
           | None => prompt
           end in
         response ← generate B model prompt;
         record_response response model_name)
        (fun e =>
           if stop_on_error chain then raise e
           else record_response (error_placeholder model_name e) model_name)
  end.

Fixpoint run_steps (step : nat -> chain_item -> M (World ChainContext) unit)
    (items : list (nat * chain_item)) : M (World ChainContext) unit :=
  match items with
  | [] => mret tt
  | (i, item) :: rest => step i item;; run_steps step rest
  end.

(** [Chain.generate(query)]. *)
Definition Chain_generate (chain : Chain) (query : string)
    : M (World ChainContext) string :=
  set_self (new_context query);;
  run_steps (chain_step chain) (enumerate_from 0 (models chain));;
  context ← get_self;
  match last (responses context) with
  | Some response => mret response
  | None => raise (runtime_error "Chain produced no responses")
  end.

(** *** SummarizingChain *)
Record SummarizingChain := mk_summarizing {
  base : Chain;
  summarizer : option Model;
  summary_threshold : Z;
  summary_target_length : Z
}.

Definition summary_template : template :=
  [Lit (nl +:+ "Summarize the following analysis concisely while preserving all key insights and important details:" +:+ nl +:+ nl);
   Field "content";
   Lit (nl +:+ nl +:+ "Summary (target length: ~");
   Field "target_length";
   Lit (" characters):" +:+ nl)].

(** The total length of the accumulated responses. *)
Definition total_length (context : ChainContext) : Z :=
  fold_right Z.add 0 (map (fun r => Z.of_nat (PyStr.len r)) (responses context)).

Definition _should_summarize (chain : SummarizingChain) (context : ChainContext)
    : bool :=
  match responses context with
  | [] => false
  | _ => (summary_threshold chain <? total_length context)%Z
  end.

(** The model that summarizes: the configured one, or else the last entry
    of the chain that is a model. *)
Definition pick_summarizer (chain : SummarizingChain) : option Model :=
  match summarizer chain with
  | Some m => Some m
  | None =>
      head
        (omap (fun item => match item with
                           | ModelItem m => Some m
                           | NameItem _ => None
                           end)
              (rev (models (base chain))))
  end.

Definition summary_prompt (chain : SummarizingChain) (context : ChainContext)
    : result string :=
  format_template
    (fun field =>
       if decide (field = "content") then Some (_format_all_responses context)
       else if decide (field = "target_length")
       then Some (pretty (summary_target_length chain))
       else None)
    summary_template.

(** The context that replaces everything accumulated so far. *)
Definition summarized (context : ChainContext) (summary : string) : ChainContext :=
  mk_context (query context) [summary]
    (<["response_0" := MStr summary]>
       (<["summarized" := MTrue]>
          (<["query" := MStr (query context)]> ∅))).

Definition _summarize_context (chain : SummarizingChain)
    : M (World ChainContext) unit :=
  context ← get_self;
  match responses context with
  | [] => mret tt
  | _ =>
      match pick_summarizer chain with
      | None => mret tt
      | Some summarizer =>
          try_except
            (prompt ← lift (summary_prompt chain context);
             summary ← generate B summarizer prompt;
             set_self (summarized context summary))
            (fun e => mret tt)
      end
  end.

(** One iteration of the loop of [SummarizingChain.generate]. *)
Definition summarizing_step (chain : SummarizingChain) (i : nat)
    (item : chain_item) : M (World ChainContext) unit :=
  match item with
  | NameItem _ => mret tt
  | ModelItem model =>
      let model_name := getattr_name model ("model_" +:+ pretty i) in
      try_except
        (context ← get_self;
         (if (0 <? i)%nat && _should_summarize chain context
          then _summarize_context chain else mret tt);;
         context ← get_self;
         let prompt :=
           _format_prompt (base chain) context model_name i
             (length (models (base chain))) in
         response ← generate B model prompt;
         record_response response model_name)
        (fun e =>
           if stop_on_error (base chain) then raise e
           else record_response (error_placeholder model_name e) model_name)
  end.

(** [SummarizingChain.generate(query)]. *)
Definition SummarizingChain_generate (chain : SummarizingChain) (query : string)
    : M (World ChainContext) string :=
  set_self (new_context query);;
  run_steps (summarizing_step chain) (enumerate_from 0 (models (base chain)));;
  context ← get_self;
  mret (default "" (last (responses context))).
End chains.

(** *** ConditionalChain *)

(** A branching condition [(query, context) -> truth value]: it returns or
    raises, and is taken to inspect the context without changing it. *)
Definition condition : Type := string -> ChainContext -> result bool.

Record ConditionalChain := mk_conditional {
  c_base : Chain;
  conditions : odict condition;
  branches : odict (list chain_item)
}.

(** The loop of [_check_conditions]: the first branch whose condition holds;
    a condition that raises is passed over. *)
Fixpoint check_conditions_loop (conds : odict condition) (query : string)
    (context : ChainContext) : result (option string) :=
  match conds with
  | [] => Done None
  | (branch_name, condition_func) :: rest =>
      match condition_func query context with
      | Done true => Done (Some branch_name)
      | Done false => check_conditions_loop rest query context
      | Raise e => check_conditions_loop rest query context
      | Hang => Hang
      end
  end.

Definition _check_conditions (chain : ConditionalChain) (query : string)
    (context : ChainContext) : result (option string) :=
  check_conditions_loop (conditions chain) query context.

(** [self.branches[b]] under the test [b and b in self.branches]. *)
Definition branch_of (chain : ConditionalChain) (new_branch : option string)
    : option (list chain_item) :=
  match new_branch with
  | Some branch_name =>
      if bool_decide (branch_name = "") then None
      else od_get branch_name (branches chain)
  | None => None
  end.

Definition _select_branch (chain : ConditionalChain) (query : string)
    (context : ChainContext) : result (list chain_item) :=
  match _check_conditions chain query context with
  | Done selected_branch =>
      Done (default (models (c_base chain)) (branch_of chain selected_branch))
  | Raise e => Raise e
  | Hang => Hang
  end.

Section conditional.
Variable B : Backend.

(** One iteration of the loop of [ConditionalChain.generate]. The loop runs
    over the list that [selected_models] named when it started; the
    iteration returns the list that the variable names afterwards. *)
Definition conditional_step (chain : ConditionalChain) (query : string)
    (i : nat) (item : chain_item) (selected_models : list chain_item)
    : M (World ChainContext) (list chain_item) :=
  match item with
  | NameItem _ => mret selected_models
  | ModelItem model =>
      let model_name := getattr_name model ("model_" +:+ pretty i) in
      try_except
        (context ← get_self;
         let prompt :=
           _format_prompt (c_base chain) context model_name i
             (length selected_models) in
         response ← generate B model prompt;
         record_response response model_name;;
         if (Z.of_nat i <? Z.of_nat (length selected_models) - 1)%Z
         then
           context ← get_self;
           new_branch ← lift (_check_conditions chain query context);
           match branch_of chain new_branch with
           | Some branch => mret branch
           | None => mret selected_models
           end
         else mret selected_models)
        (fun e =>
           if stop_on_error (c_base chain) then raise e
           else
             record_response (error_placeholder model_name e) model_name;;
             mret selected_models)
  end.

Fixpoint conditional_steps (chain : ConditionalChain) (query : string)
    (items : list (nat * chain_item)) (selected_models : list chain_item)
    : M (World ChainContext) unit :=
  match items with
  | [] => mret tt
  | (i, item) :: rest =>
      selected_models ← conditional_step chain query i item selected_models;
      conditional_steps chain query rest selected_models
  end.

(** [ConditionalChain.generate(query)]. *)
Definition ConditionalChain_generate (chain : ConditionalChain) (query : string)
    : M (World ChainContext) string :=
  set_self (new_context query);;
  context ← get_self;
  selected_models ← lift (_select_branch chain query context);
  conditional_steps chain query (enumerate_from 0 selected_models)
    selected_models;;
  context ← get_self;
  mret (default "" (last (responses context))).
End conditional.

End Chains.

(** ** The router-based ensemble ([patterns/ensemble.py]) *)
Module Ensemble.
Import Py Models Registry Mixers.

Record EnsembleConfig := mk_config {
  default_model : option string;
  fallback_strategy : string;
  timeout : Z;
  parallel_execution : bool;
  max_retries : Z;
  retry_delay : Q
}.

(** [EnsembleConfig()]. *)
Definition default_config : EnsembleConfig :=
  mk_config None "default" 30 true 3 1.

(** [self.stats]. *)
Record Stats := mk_stats {
  total_queries : Z;
  successful_queries : Z;
  failed_queries : Z;
  model_usage : odict Z;
  average_response_time : Q
}.

Definition initial_stats : Stats := mk_stats 0 0 0 [] 0.

(** The router interface. *)
Record Router := mk_router {
  route : string -> list string -> M (World Stats) (option string);
  route_multiple :
    string -> list string -> Z -> M (World Stats) (list (string * Q))
}.

Record Ensemble := mk_ensemble {
  router : Router;
  registry : ModelRegistry;
  mixer : Mixer Stats;
  config : EnsembleConfig
}.

(** The [routing_info] dictionaries that [generate] can attach. *)
Inductive routing_info :=
| Routed (selected_models : list (string * Q)) (responses : odict string)
    (response_time : Q)
| Failed (error : string)
| FellBack (selected_models : list (string * Q))
| NoSuitableModel (error : string)
| NoAvailableModel (error : string).

(** What [generate] returns: the text, or the text with routing information. *)
Inductive answer :=
| Text (response : string)
| WithInfo (response : string) (info : routing_info).

Definition response_of (a : answer) : string :=
  match a with
  | Text r => r
  | WithInfo r _ => r
  end.

Definition reply (include_routing_info : bool) (response : string)
    (info : routing_info) : answer :=
  if include_routing_info then WithInfo response info else Text response.

(** [range(n)]. *)
Definition range (n : Z) : list Z := map Z.of_nat (seq 0 (Z.to_nat n)).

Section ensemble.
Variable B : Backend.

(** [_generate_single_response] uses only [self.config] and
    [self.registry]: it is written for any object state. *)
Section single_response.
Context {O : Type}.

(** The loop of [_generate_single_response] over the remaining attempts. *)
Fixpoint attempt_loop (cfg : EnsembleConfig) (model : Model)
    (model_name query : string) (attempts : list Z) : M (World O) string :=
  match attempts with
  | [] => raise (runtime_error ("All attempts failed for model " +:+ model_name))
  | attempt :: rest =>
      try_except (generate B model query)
        (fun e =>
           if (attempt =? max_retries cfg - 1)%Z then raise e
           else
             sleep (retry_delay cfg * inject_Z (attempt + 1))%Q;;
             attempt_loop cfg model model_name query rest)
  end.

Definition _generate_single_response (cfg : EnsembleConfig)
    (reg : ModelRegistry) (model_name query : string) : M (World O) string :=
  model ← lift (Registry.get reg model_name);
  attempt_loop cfg model model_name query (range (max_retries cfg)).
End single_response.

(** The fan-out leaves the statistics alone: it is written for any object
    state. *)
Section fan_out.
Context {O : Type}.

(** [try: responses[name] = await asyncio.wait_for(task,
    timeout=self.config.timeout)] with both handlers, which only log. *)
Definition await_response (cfg : EnsembleConfig) (model_name : string)
    (task : M (World unit) string) (responses : odict string)
    : M (World O) (odict string) :=
  try_except
    (response ← wait_for B task (inject_Z (timeout cfg));
     mret (od_set model_name response responses))
    (fun e => mret responses).

(** The parallel branch: the coroutines are created first, then awaited one
    after the other; a coroutine starts to run when it is awaited. *)
Fixpoint await_tasks (cfg : EnsembleConfig)
    (tasks : list (string * M (World unit) string))
    (responses : odict string) : M (World O) (odict string) :=
  match tasks with
  | [] => mret responses
  | (model_name, task) :: rest =>
      responses ← await_response cfg model_name task responses;
      await_tasks cfg rest responses
  end.

(** The sequential branch. *)
Fixpoint generate_in_turn (cfg : EnsembleConfig) (reg : ModelRegistry)
    (query : string) (selected_models : list (string * Q))
    (responses : odict string) : M (World O) (odict string) :=
  match selected_models with
  | [] => mret responses
  | (model_name, weight) :: rest =>
      responses ←
        await_response cfg model_name
          (_generate_single_response cfg reg model_name query) responses;
      generate_in_turn cfg reg query rest responses
  end.

Definition _generate_responses (cfg : EnsembleConfig) (reg : ModelRegistry)
    (query : string) (selected_models : list (string * Q))
    : M (World O) (odict string) :=
  if parallel_execution cfg && (1 <? length selected_models)%nat
  then
    let tasks :=
      map (fun mw => (fst mw, _generate_single_response cfg reg (fst mw) query))
          selected_models in
    await_tasks cfg tasks []
  else generate_in_turn cfg reg query selected_models [].
End fan_out.

(** [await self.mixer.mix(query, responses, weights)]. *)
Definition call_mixer (e : Ensemble) (query : string) (responses : odict string)
    (weights : odict Q) : M (World Stats) string :=
  emit (EvMix query responses (Some weights));;
  mixer e query responses (Some weights).

Definition no_suitable_model : string :=
  "No suitable models available for this query".

(** The loop of the "all" fallback over at most three available models. *)
Fixpoint ask_all (e : Ensemble) (query : string) (names : list string)
    (responses : odict string) : M (World Stats) (odict string) :=
  match names with
  | [] => mret responses
  | model_name :: rest =>
      responses ←
        try_except
          (model ← lift (Registry.get (registry e) model_name);
           response ← generate B model query;
           mret (od_set model_name response responses))
          (fun e => mret responses);
      ask_all e query rest responses
  end.

(** [model = self.registry.get(name); response = await model.generate(query)]
    inside [try]; [None] when it raised. *)
Definition ask_one (e : Ensemble) (query model_name : string)
    : M (World Stats) (option string) :=
  try_except
    (model ← lift (Registry.get (registry e) model_name);
     response ← generate B model query;
     mret (Some response))
    (fun e => mret None).

Definition _handle_fallback (e : Ensemble) (query : string)
    (available_models : list string) (include_routing_info : bool)
    : M (World Stats) answer :=
  let cfg := config e in
  let is_set (name : option string) : bool :=
    match name with Some n => negb (bool_decide (n = "")) | None => false end in
  let available := match available_models with [] => false | _ => true end in
  outcome ←
    (if bool_decide (fallback_strategy cfg = "default") && is_set (default_model cfg)
     then
       let name := default "" (default_model cfg) in
       if bool_decide (name ∈ available_models)
       then
         r ← ask_one e query name;
         mret (option_map
                 (fun response =>
                    reply include_routing_info response (FellBack [(name, 1%Q)]))
                 r)
       else mret None
     else if bool_decide (fallback_strategy cfg = "random") && available
     then
       random_model ← choice B available_models;
       r ← ask_one e query random_model;
       mret (option_map
               (fun response =>
                  reply include_routing_info response
                    (FellBack [(random_model, 1%Q)]))
               r)
     else if bool_decide (fallback_strategy cfg = "all") && available
     then
       try_except
         (responses ← ask_all e query (firstn 3 available_models) [];
          match responses with
          | [] => mret None
          | _ =>
              let weights : odict Q :=
                od_of_list
                  (map (fun name => (name, (1 / Qnat (od_len responses))%Q))
                       (od_keys responses)) in
              final_response ← call_mixer e query responses weights;
              mret (Some (reply include_routing_info final_response
                            (FellBack (map (fun name =>
                                              (name, od_get_default name 0%Q weights))
                                           (od_keys responses)))))
          end)
         (fun e => mret None)
     else mret None);
  match outcome with
  | Some a => mret a
  | None =>
      mret (reply include_routing_info no_suitable_model
              (NoSuitableModel no_suitable_model))
  end.

Definition _handle_no_available_models (query : string)
    (include_routing_info : bool) : answer :=
  reply include_routing_info "No models are currently available"
    (NoAvailableModel "No models are currently available").

Definition _update_response_time (response_time : Q) (s : Stats) : Stats :=
  mk_stats (total_queries s) (successful_queries s) (failed_queries s)
    (model_usage s)
    ((average_response_time s * inject_Z (total_queries s - 1) + response_time)
     / inject_Z (total_queries s))%Q.

Definition count_query (s : Stats) : Stats :=
  mk_stats (total_queries s + 1) (successful_queries s) (failed_queries s)
    (model_usage s) (average_response_time s).

Definition count_success (s : Stats) : Stats :=
  mk_stats (total_queries s) (successful_queries s + 1) (failed_queries s)
    (model_usage s) (average_response_time s).

Definition count_failure (s : Stats) : Stats :=
  mk_stats (total_queries s) (successful_queries s) (failed_queries s + 1)
    (model_usage s) (average_response_time s).

Definition count_usage (names : list string) (s : Stats) : Stats :=
  mk_stats (total_queries s) (successful_queries s) (failed_queries s)
    (fold_left (fun usage name => od_set name (od_get_default name 0 usage + 1) usage)
       names (model_usage s))
    (average_response_time s).

(** The selection made by the router: [route] for [top_k == 1], else
    [route_multiple]. *)
Definition select_models (e : Ensemble) (query : string)
    (available_models : list string) (top_k : Z)
    : M (World Stats) (list (string * Q)) :=
  if (top_k =? 1)%Z
  then
    emit (EvRoute query available_models);;
    selected_model ← route (router e) query available_models;
    match selected_model with
    | Some model => if bool_decide (model = "") then mret [] else mret [(model, 1%Q)]
    | None => mret []
    end
  else
    emit (EvRouteMultiple query available_models top_k);;
    route_multiple (router e) query available_models top_k.

(** The responses are mixed only when there is not exactly one of them. *)
Definition combine_responses (e : Ensemble) (query : string)
    (selected_models : list (string * Q)) (responses : odict string)
    : M (World Stats) string :=
  match responses with
  | [(_, only)] => mret only
  | _ =>
      let weights : odict Q :=
        od_of_list
          (List.filter (fun mw => od_mem (fst mw) responses) selected_models) in
      call_mixer e query responses weights
  end.

(** [Ensemble.generate(query, top_k, include_routing_info)]. *)
Definition Ensemble_generate (e : Ensemble) (query : string) (top_k : Z)
    (include_routing_info : bool) : M (World Stats) answer :=
  start_time ← time_time B;
  try_except
    (update_self count_query;;
     available_models ← get_available_models B (registry e);
     match available_models with
     | [] => mret (_handle_no_available_models query include_routing_info)
     | _ =>
         selected_models ← select_models e query available_models top_k;
         match selected_models with
         | [] => _handle_fallback e query available_models include_routing_info
         | _ =>
             responses ←
               _generate_responses (config e) (registry e) query selected_models;
             final_response ← combine_responses e query selected_models responses;
             update_self count_success;;
             now ← time_time B;
             let response_time := (now - start_time)%Q in
             update_self (_update_response_time response_time);;
             update_self (count_usage (od_keys responses));;
             mret (reply include_routing_info final_response
                     (Routed selected_models responses response_time))
         end
     end)
    (fun exn =>
       update_self count_failure;;
       mret (reply include_routing_info ("Error: " +:+ exn_str exn)
               (Failed (exn_str exn)))).
End ensemble.

End Ensemble.

(** ** The mixture of experts ([patterns/moe.py]) *)
Module MoE.
Import Py Models Registry Mixers.

Record MoEConfig := mk_config {
  confidence_threshold : Q;
  max_experts : Z;
  parallel_execution : bool;
  timeout : Z;
  temperature : Q;
  aggregation_method : string;
  normalize_weights : bool;
  use_meta_expert : bool
}.

(** [MoEConfig()]. *)
Definition default_config : MoEConfig :=
  mk_config (1 # 10) 5 true 30 1 "weighted" true false.

(** [self.stats]. *)
Record Stats := mk_stats {
  total_queries : Z;
  successful_queries : Z;
  failed_queries : Z;
  expert_usage : odict Z;
  average_confidence : Q;
  average_response_time : Q;
  average_experts_used : Q
}.

Definition initial_stats : Stats := mk_stats 0 0 0 [] 0 0 0.

(** The confidence estimator interface: [estimate_confidence]. *)
Definition ConfidenceEstimator : Type :=
  string -> list string -> M (World Stats) (odict Q).

Record MixtureOfExperts := mk_moe {
  confidence_estimator : ConfidenceEstimator;
  registry : ModelRegistry;
  mixer : Mixer Stats;
  meta_expert : option Model;
  config : MoEConfig
}.

(** The [expert_info] dictionaries that [generate] can attach. *)
Inductive expert_info :=
| Consulted (selected_experts : list (string * Q)) (expert_responses : odict string)
    (confidence_scores : odict Q) (response_time : Q) (meta_expert_used : bool)
| Failed (error : string)
| NoExpertSelected (error : string) (query : string) (threshold : Q)
| NoExpertAvailable (error : string).

Inductive answer :=
| Text (response : string)
| WithInfo (response : string) (info : expert_info).

Definition response_of (a : answer) : string :=
  match a with
  | Text r => r
  | WithInfo r _ => r
  end.

Definition reply (include_expert_info : bool) (response : string)
    (info : expert_info) : answer :=
  if include_expert_info then WithInfo response info else Text response.

Definition no_experts_selected : string := "No experts were selected for this query".

Definition _handle_no_experts_selected (moe : MixtureOfExperts) (query : string)
    (include_expert_info : bool) : answer :=
  reply include_expert_info no_experts_selected
    (NoExpertSelected no_experts_selected query (confidence_threshold (config moe))).

Definition _handle_no_available_models (include_expert_info : bool) : answer :=
  reply include_expert_info "No expert models are currently available"
    (NoExpertAvailable "No expert models are currently available").

Definition nl : string := String "010" EmptyString.

Section moe.
(** [np.exp], the float format [:.2f], the rounding of a float quotient and
    the builtin [sum] on floats. *)
Variable np_exp : Q -> Q.
Variable format_2f : Q -> string.
Variable fl : Q -> Q.
Variable py_sum : list Q -> Q.
Variable B : Backend.

(** The experts whose confidence reaches the threshold. *)
Definition qualified (confidence_scores : odict Q) (threshold : Q)
    : list (string * Q) :=
  List.filter (fun ec => Qgeb (snd ec) threshold) confidence_scores.

(** The softmax of the "weighted" method is exact here, and a temperature
    of 0, for which numpy gives nan weights, is outside the model: the
    properties stated of the selection are about which experts are chosen,
    how many, and in which order. *)
Definition _select_experts (moe : MixtureOfExperts) (confidence_scores : odict Q)
    (max_experts : Z) (threshold : Q) : result (list (string * Q)) :=
  let qualified_experts := qualified confidence_scores threshold in
  match qualified_experts with
  | [] => Done []
  | _ =>
      let method := aggregation_method (config moe) in
      if decide (method = "weighted")
      then
        let confidences := map snd qualified_experts in
        let confidences :=
          if negb (Qeq_bool (temperature (config moe)) 1)
          then map (fun c => (c / temperature (config moe))%Q) confidences
          else confidences in
        let exp_confidences :=
          map (fun c => np_exp (c - Routers.np_max confidences)%Q) confidences in
        let softmax_confidences :=
          map (fun x => (x / Qsum exp_confidences)%Q) exp_confidences in
        let weighted_experts :=
          combine (map fst qualified_experts) softmax_confidences in
        Done (slice_to max_experts (sort_desc snd weighted_experts))
      else if decide (method = "top_k")
      then Done (slice_to max_experts (sort_desc snd qualified_experts))
      else if decide (method = "threshold")
      then Done (slice_to max_experts (sort_desc snd qualified_experts))
      else Raise (value_error ("Unknown aggregation method: " +:+ method))
  end.

(** [_generate_single_expert_response] uses only [self.registry]: it is
    written for any object state. *)
Definition _generate_single_expert_response {O} (reg : ModelRegistry)
    (expert_name query : string) : M (World O) string :=
  model ← lift (Registry.get reg expert_name);
  generate B model query.

(** The fan-out leaves the statistics alone: it is written for any object
    state. *)
Section fan_out.
Context {O : Type}.

(** [try: expert_responses[name] = await asyncio.wait_for(task,
    timeout=self.config.timeout)] with both handlers, which only log. *)
Definition await_response (cfg : MoEConfig) (expert_name : string)
    (task : M (World unit) string) (expert_responses : odict string)
    : M (World O) (odict string) :=
  try_except
    (response ← wait_for B task (inject_Z (timeout cfg));
     mret (od_set expert_name response expert_responses))
    (fun e => mret expert_responses).

(** The parallel branch: the coroutines are created first, then awaited one
    after the other; a coroutine starts to run when it is awaited. *)
Fixpoint await_tasks (cfg : MoEConfig)
    (tasks : list (string * M (World unit) string))
    (expert_responses : odict string) : M (World O) (odict string) :=
  match tasks with
  | [] => mret expert_responses
  | (expert_name, task) :: rest =>
      expert_responses ← await_response cfg expert_name task expert_responses;
      await_tasks cfg rest expert_responses
  end.

Fixpoint generate_in_turn (cfg : MoEConfig) (reg : ModelRegistry)
    (query : string) (selected_experts : list (string * Q))
    (expert_responses : odict string) : M (World O) (odict string) :=
  match selected_experts with
  | [] => mret expert_responses
  | (expert_name, confidence) :: rest =>
      expert_responses ←
        await_response cfg expert_name
          (_generate_single_expert_response reg expert_name query)
          expert_responses;
      generate_in_turn cfg reg query rest expert_responses
  end.

Definition _generate_expert_responses (cfg : MoEConfig) (reg : ModelRegistry)
    (query : string) (selected_experts : list (string * Q))
    : M (World O) (odict string) :=
  if parallel_execution cfg && (1 <? length selected_experts)%nat
  then
    let tasks :=
      map (fun ec =>
             (fst ec, _generate_single_expert_response reg (fst ec) query))
          selected_experts in
    await_tasks cfg tasks []
  else generate_in_turn cfg reg query selected_experts [].
End fan_out.

(** [await self.mixer.mix(query, expert_responses, weights)]. *)
Definition call_mixer (moe : MixtureOfExperts) (query : string)
    (expert_responses : odict string) (weights : odict Q)
    : M (World Stats) string :=
  emit (EvMix query expert_responses (Some weights));;
  mixer moe query expert_responses (Some weights).

Definition meta_prompt (query mixed_response : string)
    (expert_responses : odict string) (selected_experts : list (string * Q))
    : string :=
  let expert_info :=
    flat_map
      (fun ec =>
         match od_get (fst ec) expert_responses with
         | Some response =>
             ["Expert: " +:+ fst ec +:+ " (confidence: "
                +:+ format_2f (snd ec) +:+ ")";
              "Response: " +:+ response;
              ""]
         | None => []
         end)
      selected_experts in
  nl
  +:+ "As a meta-expert, review and refine the following synthesized response based on the expert inputs." +:+ nl
  +:+ nl
  +:+ "Original Query: " +:+ query +:+ nl
  +:+ nl
  +:+ "Expert Responses:" +:+ nl
  +:+ PyStr.join nl expert_info +:+ nl
  +:+ nl
  +:+ "Synthesized Response: " +:+ mixed_response +:+ nl
  +:+ nl
  +:+ "Please provide a refined response that:" +:+ nl
  +:+ "1. Incorporates the best insights from all experts" +:+ nl
  +:+ "2. Resolves any contradictions" +:+ nl
  +:+ "3. Provides a coherent and comprehensive answer" +:+ nl
  +:+ "4. Maintains appropriate confidence levels" +:+ nl
  +:+ nl
  +:+ "Refined Response:" +:+ nl.

Definition _apply_meta_expert (moe : MixtureOfExperts)
    (query mixed_response : string) (expert_responses : odict string)
    (selected_experts : list (string * Q)) : M (World Stats) string :=
  match meta_expert moe with
  | None => mret mixed_response
  | Some meta =>
      try_except
        (refined_response ←
           generate B meta
             (meta_prompt query mixed_response expert_responses selected_experts);
         mret (PyStr.strip refined_response))
        (fun e => mret mixed_response)
  end.

Definition _update_statistics (selected_experts : list (string * Q))
    (confidence_scores : odict Q) (response_time : Q) (s : Stats) : Stats :=
  let usage :=
    fold_left
      (fun usage ec => od_set (fst ec) (od_get_default (fst ec) 0 usage + 1) usage)
      selected_experts (expert_usage s) in
  let total := inject_Z (total_queries s) in
  let before := inject_Z (total_queries s - 1) in
  let confidence :=
    match confidence_scores with
    | [] => average_confidence s
    | _ =>
        let avg_confidence :=
          (Qsum (od_values confidence_scores) / Qnat (od_len confidence_scores))%Q in
        ((average_confidence s * before + avg_confidence) / total)%Q
    end in
  mk_stats (total_queries s) (successful_queries s) (failed_queries s) usage
    confidence
    ((average_response_time s * before + response_time) / total)%Q
    ((average_experts_used s * before + Qnat (length selected_experts)) / total)%Q.

Definition count_query (s : Stats) : Stats :=
  mk_stats (total_queries s + 1) (successful_queries s) (failed_queries s)
    (expert_usage s) (average_confidence s) (average_response_time s)
    (average_experts_used s).

Definition count_success (s : Stats) : Stats :=
  mk_stats (total_queries s) (successful_queries s + 1) (failed_queries s)
    (expert_usage s) (average_confidence s) (average_response_time s)
    (average_experts_used s).

Definition count_failure (s : Stats) : Stats :=
  mk_stats (total_queries s) (successful_queries s) (failed_queries s + 1)
    (expert_usage s) (average_confidence s) (average_response_time s)
    (average_experts_used s).

(** [top_k or self.config.max_experts] and
    [confidence_threshold or self.config.confidence_threshold]. *)
Definition effective_top_k (moe : MixtureOfExperts) (top_k : option Z) : Z :=
  match top_k with
  | Some k => if (k =? 0)%Z then max_experts (config moe) else k
  | None => max_experts (config moe)
  end.

Definition effective_threshold (moe : MixtureOfExperts)
    (confidence_threshold : option Q) : Q :=
  match confidence_threshold with
  | Some t => if Qeq_bool t 0 then MoE.confidence_threshold (config moe) else t
  | None => MoE.confidence_threshold (config moe)
  end.

(** The responses are mixed only when there is not exactly one of them. *)
Definition combine_responses (moe : MixtureOfExperts) (query : string)
    (selected_experts : list (string * Q)) (expert_responses : odict string)
    : M (World Stats) string :=
  match expert_responses with
  | [(_, only)] => mret only
  | _ =>
      let weights : odict Q :=
        od_of_list
          (List.filter (fun ec => od_mem (fst ec) expert_responses)
             selected_experts) in
      let weights :=
        match weights with
        | [] => weights
        | _ =>
            if normalize_weights (config moe)
            then
              let total_weight := py_sum (od_values weights) in
              if Qgtb total_weight 0
              then map (fun kv => (fst kv, fl (snd kv / total_weight)%Q)) weights
              else weights
            else weights
        end in
      call_mixer moe query expert_responses weights
  end.

(** [MixtureOfExperts.generate(query, top_k, confidence_threshold,
    include_expert_info)]. *)
Definition MoE_generate (moe : MixtureOfExperts) (query : string)
    (top_k : option Z) (confidence_threshold : option Q)
    (include_expert_info : bool) : M (World Stats) answer :=
  start_time ← time_time B;
  try_except
    (update_self count_query;;
     available_models ← get_available_models B (registry moe);
     match available_models with
     | [] => mret (_handle_no_available_models include_expert_info)
     | _ =>
         emit (EvEstimate query available_models);;
         confidence_scores ← confidence_estimator moe query available_models;
         selected_experts ←
           lift (_select_experts moe confidence_scores
                   (effective_top_k moe top_k)
                   (effective_threshold moe confidence_threshold));
         match selected_experts with
         | [] => mret (_handle_no_experts_selected moe query include_expert_info)
         | _ =>
             expert_responses ←
               _generate_expert_responses (config moe) (registry moe) query
                 selected_experts;
             final_response ←
               combine_responses moe query selected_experts expert_responses;
             final_response ←
               (if use_meta_expert (config moe)
                   && bool_decide (meta_expert moe <> None)
                then _apply_meta_expert moe query final_response
                       expert_responses selected_experts
                else mret final_response);
             update_self count_success;;
             now ← time_time B;
             let response_time := (now - start_time)%Q in
             update_self (_update_statistics selected_experts confidence_scores
                            response_time);;
             mret (reply include_expert_info final_response
                     (Consulted selected_experts expert_responses
                        confidence_scores response_time
                        (use_meta_expert (config moe)
                         && bool_decide (meta_expert moe <> None))))
         end
     end)
    (fun exn =>
       update_self count_failure;;
       mret (reply include_expert_info ("Error: " +:+ exn_str exn)
               (Failed (exn_str exn)))).
End moe.

End MoE.

(** ** Combining confidence estimators ([utils/confidence.py]) *)
Module Confidence.
Import Py.

(** A confidence estimator as [HybridConfidence] uses it: the outcome of
    [await estimator.estimate_confidence(query, available_domains)]. *)
Definition Estimator : Type := string -> list string -> result (odict Q).

Record HybridConfidence := mk_hybrid {
  estimators : list Estimator;
  weights : list Q;
  combination_method : string
}.

Section hybrid.
(** The arithmetic of the weights and of the combined confidences is float
    arithmetic: [fl] rounds the result of an operation to a float, and
    [py_sum] is [sum] on a list of floats. *)
Variable fl : Q -> Q.
Variable py_sum : list Q -> Q.

(** [HybridConfidence(estimators, weights, combination_method)]. *)
Definition HybridConfidence_init (estimators : list Estimator)
    (weights : option (list Q)) (combination_method : string)
    : result HybridConfidence :=
  let weights :=
    match weights with
    | Some (w :: ws) => w :: ws
    | _ => repeat 1%Q (length estimators)
    end in
  if negb (length weights =? length estimators)%nat
  then Raise (value_error "Number of weights must match number of estimators")
  else
    let total_weight := py_sum weights in
    let weights :=
      if Qgtb total_weight 0
      then map (fun w => fl (w / total_weight)%Q) weights
      else weights in
    Done (mk_hybrid estimators weights combination_method).

(** [{domain: 0.0 for domain in available_domains}]. *)
Definition zero_estimates (available_domains : list string) : odict Q :=
  od_of_list (map (fun domain => (domain, 0%Q)) available_domains).

(** The first loop of [estimate_confidence]: an estimator that raises
    contributes zero estimates. *)
Fixpoint collect_estimates (estimators : list Estimator) (query : string)
    (available_domains : list string) : result (list (odict Q)) :=
  match estimators with
  | [] => Done []
  | estimator :: rest =>
      match estimator query available_domains with
      | Hang => Hang
      | outcome =>
          let estimates :=
            match outcome with
            | Done estimates => estimates
            | _ => zero_estimates available_domains
            end in
          match collect_estimates rest query available_domains with
          | Done all_estimates => Done (estimates :: all_estimates)
          | r => r
          end
      end
  end.

(** The inner loop of [_weighted_average_combination]: [self.weights[i]]
    raises [IndexError] when there are fewer weights than estimates. *)
Fixpoint weighted_sum_loop (domain : string) (all_estimates : list (odict Q))
    (weights : list Q) (weighted_sum : Q) : result Q :=
  match all_estimates with
  | [] => Done weighted_sum
  | estimates :: rest =>
      match weights with
      | [] => Raise (mk_exn OtherException "list index out of range")
      | w :: ws =>
          weighted_sum_loop domain rest ws
            (fl (weighted_sum + fl (od_get_default domain 0%Q estimates * w))%Q)
      end
  end.

Fixpoint weighted_average_loop (weights : list Q)
    (all_estimates : list (odict Q)) (available_domains : list string)
    (combined : odict Q) : result (odict Q) :=
  match available_domains with
  | [] => Done combined
  | domain :: rest =>
      match weighted_sum_loop domain all_estimates weights 0%Q with
      | Done weighted_sum =>
          weighted_average_loop weights all_estimates rest
            (od_set domain weighted_sum combined)
      | Raise e => Raise e
      | Hang => Hang
      end
  end.

Definition _weighted_average_combination (h : HybridConfidence)
    (all_estimates : list (odict Q)) (available_domains : list string)
    : result (odict Q) :=
  weighted_average_loop (weights h) all_estimates available_domains [].

(** [max(a, b)] of two floats. *)
Definition py_max (a b : Q) : Q := if Qgtb b a then b else a.

Definition _max_combination (all_estimates : list (odict Q))
    (available_domains : list string) : odict Q :=
  fold_left
    (fun combined domain =>
       od_set domain
         (fold_left
            (fun max_confidence estimates =>
               py_max max_confidence (od_get_default domain 0%Q estimates))
            all_estimates 0%Q)
         combined)
    available_domains [].

Definition _vote_combination (all_estimates : list (odict Q))
    (available_domains : list string) (vote_threshold : Q) : odict Q :=
  fold_left
    (fun combined domain =>
       let votes :=
         length
           (List.filter
              (fun estimates =>
                 Qgeb (od_get_default domain 0%Q estimates) vote_threshold)
              all_estimates) in
       od_set domain
         (match all_estimates with
          | [] => 0%Q
          | _ => fl (Qnat votes / Qnat (length all_estimates))%Q
          end)
         combined)
    available_domains [].

(** [await hybrid.estimate_confidence(query, available_domains)]. *)
Definition estimate_confidence (h : HybridConfidence) (query : string)
    (available_domains : list string) : result (odict Q) :=
  match collect_estimates (estimators h) query available_domains with
  | Done all_estimates =>
      if decide (combination_method h = "weighted_average")
      then _weighted_average_combination h all_estimates available_domains
      else if decide (combination_method h = "max")
      then Done (_max_combination all_estimates available_domains)
      else if decide (combination_method h = "vote")
      then Done (_vote_combination all_estimates available_domains (1 # 2))
      else Raise (value_error
                    ("Unknown combination method: " +:+ combination_method h))
  | Raise e => Raise e
  | Hang => Hang
  end.
End hybrid.

(** *** LLMConfidence *)

Record DomainProfile := mk_profile {
  p_name : string;
  p_description : string;
  (** the set of keywords, in its iteration order *)
  p_keywords : list string;
  p_examples : list string
}.

Record LLMConfidence := mk_llm {
  llm_model : Models.Model;
  prompt_template : template;
  max_domains_per_call : Z;
  domain_profiles : odict DomainProfile
}.

Definition dq : string := String PyStr.dquote EmptyString.
Definition nl : string := String "010" EmptyString.

(** [LLMConfidence._default_prompt_template()]. *)
Definition default_prompt_template : template :=
  [Lit (nl
     +:+ "You are an expert at determining domain relevance for queries. Given a query and a list of domains with their descriptions, rate how relevant each domain is for answering the query." +:+ nl
     +:+ nl
     +:+ "Query: ");
   Field "query";
   Lit (nl +:+ nl +:+ "Domains:" +:+ nl);
   Field "domain_descriptions";
   Lit (nl
     +:+ nl
     +:+ "For each domain, provide a relevance score from 0.0 to 1.0, where:" +:+ nl
     +:+ "- 0.0 = completely irrelevant" +:+ nl
     +:+ "- 0.5 = somewhat relevant" +:+ nl
     +:+ "- 1.0 = highly relevant" +:+ nl
     +:+ nl
     +:+ "Respond in JSON format:" +:+ nl
     +:+ "{" +:+ nl
     +:+ "  " +:+ dq +:+ "scores" +:+ dq +:+ ": {" +:+ nl
     +:+ "    " +:+ dq +:+ "domain_name" +:+ dq +:+ ": score," +:+ nl
     +:+ "    ..." +:+ nl
     +:+ "  }," +:+ nl
     +:+ "  " +:+ dq +:+ "reasoning" +:+ dq +:+ ": " +:+ dq
     +:+ "Brief explanation of your scoring" +:+ dq +:+ nl
     +:+ "}" +:+ nl)].

(** [max(0.0, min(1.0, score))]. *)
Definition clamp (score : Q) : Q :=
  let low := if Qltb score 1 then score else 1%Q in
  if Qgtb low 0 then low else 0%Q.

(** The slices [available_domains[i:i + step]] for [i] in
    [range(0, len(available_domains), step)], [step] positive. *)
Fixpoint batches (fuel step : nat) (available_domains : list string)
    : list (list string) :=
  match fuel, available_domains with
  | S fuel, _ :: _ =>
      take step available_domains
      :: batches fuel step (drop step available_domains)
  | _, _ => []
  end.

Section llm.
Context {O : Type}.
Variable B : Models.Backend.
(** [json.loads(text)], [None] when it raises [JSONDecodeError], and
    [float(text)] of a string, [None] when it raises [ValueError]. *)
Variable json_loads : string -> option pyval.
Variable float_of_str : string -> option Q.

(** [float(v)]; [None] when it raises. *)
Definition py_float (v : pyval) : option Q :=
  match v with
  | VFloat q => Some q
  | VInt z => Some (inject_Z z)
  | VBool b => Some (if b then 1%Q else 0%Q)
  | VStr s => float_of_str s
  | _ => None
  end.

(** [domain in scores]; [None] when [scores] is no container. *)
Definition py_in (domain : string) (scores : pyval) : option bool :=
  match scores with
  | VDict d => Some (od_mem domain d)
  | VList l =>
      Some (existsb
              (fun v => match v with
                        | VStr s => bool_decide (s = domain)
                        | _ => false
                        end) l)
  | VStr s => Some (PyStr.contains domain s)
  | _ => None
  end.

(** [scores[domain]]; [None] when it raises. *)
Definition py_item (scores : pyval) (domain : string) : option pyval :=
  match scores with
  | VDict d => od_get domain d
  | _ => None
  end.

(** The loop that validates the scores of a batch; [None] when a step
    raises. *)
Fixpoint read_scores (scores : pyval) (domains : list string)
    (confidences : odict Q) : option (odict Q) :=
  match domains with
  | [] => Some confidences
  | domain :: rest =>
      match py_in domain scores with
      | Some true =>
          match py_item scores domain with
          | Some v =>
              match py_float v with
              | Some score =>
                  read_scores scores rest (od_set domain (clamp score) confidences)
              | None => None
              end
          | None => None
          end
      | Some false => read_scores scores rest (od_set domain 0%Q confidences)
      | None => None
      end
  end.

Definition describe (est : LLMConfidence) (domain : string) : string :=
  match od_get domain (domain_profiles est) with
  | Some profile =>
      let desc := "- " +:+ domain +:+ ": " +:+ p_description profile in
      match p_keywords profile with
      | [] => desc
      | keywords =>
          desc +:+ " (Keywords: " +:+ PyStr.join ", " (take 5 keywords) +:+ ")"
      end
  | None => "- " +:+ domain +:+ ": No description available"
  end.

(** [LLMConfidence._estimate_batch_confidence(query, domains)]: the model
    is asked once; every failure gives the batch zero confidences. *)
Definition _estimate_batch_confidence (est : LLMConfidence) (query : string)
    (domains : list string) : M (Models.World O) (odict Q) :=
  let zeros := zero_estimates domains in
  try_except
    (let domain_descriptions := map (describe est) domains in
     prompt ←
       lift (format_template
               (fun name =>
                  if decide (name = "query") then Some query
                  else if decide (name = "domain_descriptions")
                  then Some (PyStr.join nl domain_descriptions)
                  else None)
               (prompt_template est));
     response ← Models.generate B (llm_model est) prompt;
     match json_loads (PyStr.strip response) with
     | Some (VDict result) =>
         let scores := od_get_default "scores" (VDict []) result in
         match read_scores scores domains [] with
         | Some confidences => mret confidences
         | None => mret zeros
         end
     | _ => mret zeros
     end)
    (fun e => mret zeros).

Fixpoint estimate_batches (est : LLMConfidence) (query : string)
    (todo : list (list string)) (confidences : odict Q)
    : M (Models.World O) (odict Q) :=
  match todo with
  | [] => mret confidences
  | batch_domains :: rest =>
      batch_confidences ← _estimate_batch_confidence est query batch_domains;
      estimate_batches est query rest
        (fold_left (fun d kv => od_set (fst kv) (snd kv) d)
           batch_confidences confidences)
  end.

(** [await LLMConfidence.estimate_confidence(query, available_domains)]. *)
Definition LLMConfidence_estimate_confidence (est : LLMConfidence)
    (query : string) (available_domains : list string)
    : M (Models.World O) (odict Q) :=
  let step := max_domains_per_call est in
  if (step =? 0)%Z then raise (value_error "range() arg 3 must not be zero")
  else if (step <? 0)%Z then mret []
  else
    estimate_batches est query
      (batches (length available_domains) (Z.to_nat step) available_domains) [].
End llm.

End Confidence.

(** ** The metacognitive orchestrator ([orchestrator.py]) *)
Module Orchestrator.
Import Py.

Inductive PipelineStrategy := AUTO | ENSEMBLE | MOE | CHAIN | HYBRID.

#[global] Instance PipelineStrategy_eq_dec : EqDecision PipelineStrategy.
Proof. solve_decision. Defined.

(** The [value] of each member of the enumeration. *)
Definition strategy_value (s : PipelineStrategy) : string :=
  match s with
  | AUTO => "auto"
  | ENSEMBLE => "ensemble"
  | MOE => "mixture_of_experts"
  | CHAIN => "sequential_chain"
  | HYBRID => "hybrid"
  end.

Definition all_strategies : list PipelineStrategy :=
  [AUTO; ENSEMBLE; MOE; CHAIN; HYBRID].

Inductive QueryComplexity := SIMPLE | MODERATE | COMPLEX | EXPERT.

#[global] Instance QueryComplexity_eq_dec : EqDecision QueryComplexity.
Proof. solve_decision. Defined.

Definition complexity_value (c : QueryComplexity) : string :=
  match c with
  | SIMPLE => "simple"
  | MODERATE => "moderate"
  | COMPLEX => "complex"
  | EXPERT => "expert"
  end.

Record PipelineConfig := mk_config {
  strategy : PipelineStrategy;
  max_parallel_models : Z;
  confidence_threshold : Q;
  enable_explanation : bool;
  enable_metadata : bool;
  timeout_seconds : Q;
  fallback_strategy : option PipelineStrategy
}.

(** [PipelineConfig(strategy=s)]: every other field takes its default. *)
Definition config_with_strategy (s : PipelineStrategy) : PipelineConfig :=
  mk_config s 3 (7 # 10) true true 30 (Some ENSEMBLE).

(** [PipelineConfig()]. *)
Definition default_config : PipelineConfig := config_with_strategy AUTO.

Record PipelineResult := mk_result {
  response : string;
  confidence : Q;
  strategy_used : PipelineStrategy;
  models_used : list string;
  execution_time : Q;
  metadata : gmap string pyval;
  explanation : option string;
  intermediate_results : option (list pyval)
}.

(** The dictionary built by [_analyze_query]. *)
Record Analysis := mk_analysis {
  a_query : string;
  a_domain_context : option string;
  a_length : nat;
  a_complexity : QueryComplexity;
  a_domains : list string;
  a_keywords : list string;
  a_requires_expertise : bool;
  a_requires_synthesis : bool;
  a_confidence_requirements : string
}.

Definition domain_indicators : list string :=
  ["compare"; "versus"; "and"; "both"; "multiple"; "different";
   "integrate"; "combine"; "synthesis"; "holistic"].

Definition expert_indicators : list string :=
  ["explain"; "analyze"; "detailed"; "comprehensive"; "in-depth";
   "research"; "study"; "investigation"; "technical"].

(** [any(indicator in query_lower for indicator in indicators)]. *)
Definition any_indicator (indicators : list string) (query_lower : string) : bool :=
  existsb (fun indicator => PyStr.contains indicator query_lower) indicators.

Definition _analyze_query (query : string) (domain_context : option string)
    : Analysis :=
  let word_count := length (PyStr.split query) in
  let complexity :=
    if (50 <? word_count)%nat then COMPLEX
    else if (20 <? word_count)%nat then MODERATE
    else SIMPLE in
  let query_lower := PyStr.lower query in
  let synthesis := any_indicator domain_indicators query_lower in
  let complexity := if synthesis then COMPLEX else complexity in
  let expertise := any_indicator expert_indicators query_lower in
  {| a_query := query;
     a_domain_context := domain_context;
     a_length := length (PyStr.split query);
     a_complexity := complexity;
     a_domains := [];
     a_keywords := List.filter (fun word => (3 <? PyStr.len word)%nat) (PyStr.split query);
     a_requires_expertise := expertise;
     a_requires_synthesis := synthesis;
     a_confidence_requirements := "medium" |}.

Definition _select_strategy (analysis : Analysis) (config : PipelineConfig)
    : PipelineStrategy :=
  if decide (strategy config ≠ AUTO) then strategy config
  else
    let complexity := a_complexity analysis in
    let requires_synthesis := a_requires_synthesis analysis in
    let requires_expertise := a_requires_expertise analysis in
    if bool_decide (complexity = SIMPLE) && negb requires_synthesis
    then ENSEMBLE
    else if requires_synthesis || bool_decide (complexity = COMPLEX)
    then MOE
    else if requires_expertise
            && bool_decide (complexity ∈ [MODERATE; COMPLEX])
    then CHAIN
    else if bool_decide (complexity = EXPERT)
    then HYBRID
    else ENSEMBLE.

(** The dictionaries returned by the [_execute_*] methods. *)
Record ExecDict := mk_exec {
  x_response : string;
  x_confidence : Q;
  x_models_used : list string;
  x_metadata : gmap string pyval;
  x_explanation : option string;
  x_intermediate_results : option (list pyval)
}.

Definition analysis_value (a : Analysis) : pyval :=
  VDict [("query", VStr (a_query a));
         ("domain_context",
           match a_domain_context a with Some d => VStr d | None => VNone end);
         ("length", VInt (Z.of_nat (a_length a)));
         ("complexity", VEnum (complexity_value (a_complexity a)));
         ("domains", VList (map VStr (a_domains a)));
         ("keywords", VList (map VStr (a_keywords a)));
         ("requires_expertise", VBool (a_requires_expertise a));
         ("requires_synthesis", VBool (a_requires_synthesis a));
         ("confidence_requirements", VStr (a_confidence_requirements a))].

Definition exec_value (stage : string) (x : ExecDict) : pyval :=
  VDict ([("stage", VStr stage);
          ("response", VStr (x_response x));
          ("confidence", VFloat (x_confidence x));
          ("models_used", VList (map VStr (x_models_used x)));
          ("metadata", VDict (map_to_list (x_metadata x)))]
         ++ match x_intermediate_results x with
            | Some l => [("intermediate_results", VList l)]
            | None => []
            end).

(** The rolling statistics kept by the orchestrator. *)
Record Stats := mk_stats {
  total_queries : Z;
  strategy_usage : gmap string Z;
  average_execution_time : Q;
  success_rate : Q
}.

Definition initial_stats : Stats :=
  mk_stats 0
    (list_to_map (map (fun s => (strategy_value s, 0)) all_strategies))
    0 0.

(** Calls made to the components behind the four strategies. *)
Inductive call := CallEnsemble | CallMoE | CallChain | CallConsensusMix.

(** The orchestrator object: its statistics, the component calls made so
    far and the number of clock readings taken. *)
Record OState := mk_ostate {
  stats : Stats;
  calls : list call;
  clock_reads : nat
}.

Definition initial_state : OState := mk_ostate initial_stats [] 0.

Definition nl : string := String "010" EmptyString.

Section orchestrator.
(** [time.time()]: the value of the n-th reading. *)
Variable clock : nat -> Q.
(** The float format [:.2f]. *)
Variable format_2f : Q -> string.
(** The three executors delegate to classes that the package does not
    define ([RouterBasedEnsemble], [SequentialChain], ...): the outcome
    of each run is given by the environment, indexed by the number of
    component calls made before it. *)
Variable execute_ensemble execute_moe execute_chain :
  nat -> string -> Analysis -> PipelineConfig -> result ExecDict.
(** [self.mixers['consensus'].mix(responses=..., confidences=...,
    metadata=...)]. *)
Variable consensus_mix :
  nat -> list string -> list Q -> list (gmap string pyval) -> result ExecDict.

Definition now : M OState Q :=
  fun s => (Done (clock (clock_reads s)),
            mk_ostate (stats s) (calls s) (S (clock_reads s))).

Definition component {A} (c : call) (run : nat -> result A) : M OState A :=
  fun s => (run (length (calls s)),
            mk_ostate (stats s) (calls s ++ [c]) (clock_reads s)).

Definition _execute_ensemble query analysis config : M OState ExecDict :=
  component CallEnsemble (fun n => execute_ensemble n query analysis config).
Definition _execute_moe query analysis config : M OState ExecDict :=
  component CallMoE (fun n => execute_moe n query analysis config).
Definition _execute_chain query analysis config : M OState ExecDict :=
  component CallChain (fun n => execute_chain n query analysis config).

Definition _execute_hybrid (query : string) (analysis : Analysis)
    (config : PipelineConfig) : M OState ExecDict :=
  ensemble_result ← _execute_ensemble query analysis config;
  if Qlt_le_dec (x_confidence ensemble_result) (confidence_threshold config)
  then
    moe_result ← _execute_moe query analysis config;
    combined_result ← component CallConsensusMix (fun n =>
      consensus_mix n
        [x_response ensemble_result; x_response moe_result]
        [x_confidence ensemble_result; x_confidence moe_result]
        [x_metadata ensemble_result; x_metadata moe_result]);
    mret {| x_response := x_response combined_result;
            x_confidence := x_confidence combined_result;
            x_models_used :=
              x_models_used ensemble_result ++ x_models_used moe_result;
            x_metadata :=
              x_metadata combined_result ∪
              list_to_map
                [("strategy", VStr "hybrid");
                 ("ensemble_confidence", VFloat (x_confidence ensemble_result));
                 ("moe_confidence", VFloat (x_confidence moe_result));
                 ("combination_method", VStr "consensus")];
            x_explanation := None;
            x_intermediate_results :=
              Some [exec_value "ensemble" ensemble_result;
                    exec_value "moe" moe_result] |}
  else
    mret {| x_response := x_response ensemble_result;
            x_confidence := x_confidence ensemble_result;
            x_models_used := x_models_used ensemble_result;
            x_metadata :=
              <["strategy" := VStr "hybrid_ensemble_only"]>
                (x_metadata ensemble_result);
            x_explanation := x_explanation ensemble_result;
            x_intermediate_results :=
              x_intermediate_results ensemble_result |}.

Definition _execute_pipeline (query : string) (strategy : PipelineStrategy)
    (analysis : Analysis) (config : PipelineConfig) : M OState ExecDict :=
  match strategy with
  | ENSEMBLE => _execute_ensemble query analysis config
  | MOE => _execute_moe query analysis config
  | CHAIN => _execute_chain query analysis config
  | HYBRID => _execute_hybrid query analysis config
  | AUTO => raise (value_error "Unsupported strategy: PipelineStrategy.AUTO")
  end.

Definition _generate_explanation (result : ExecDict) (analysis : Analysis)
    : M OState string :=
  match x_metadata result !! "strategy" with
  | None => raise (key_error "strategy")
  | Some (VStr strategy) =>
      let confidence := x_confidence result in
      let models_used := x_models_used result in
      let requires (b : bool) : string :=
        if b then "requires" else "does not require" in
      mret (PyStr.strip (
        nl +:+ "**Processing Explanation:**" +:+ nl
        +:+ nl
        +:+ "**Query Analysis:** Your query was classified as "
        +:+ complexity_value (a_complexity analysis) +:+ " complexity. " +:+ nl
        +:+ "It " +:+ requires (a_requires_expertise analysis)
        +:+ " specialized expertise " +:+ nl
        +:+ "and " +:+ requires (a_requires_synthesis analysis)
        +:+ " synthesis of multiple perspectives." +:+ nl
        +:+ nl
        +:+ "**Strategy Selected:** " +:+ PyStr.upper strategy +:+ nl
        +:+ "- This strategy was chosen because it's optimal for your query characteristics." +:+ nl
        +:+ "- " +:+ pretty (length models_used)
        +:+ " domain experts were involved in processing." +:+ nl
        +:+ nl
        +:+ "**Confidence Assessment:** " +:+ format_2f confidence +:+ nl
        +:+ (if Qlt_le_dec (8 # 10) confidence
             then "This indicates high confidence in the response."
             else if Qlt_le_dec (6 # 10) confidence
             then "This indicates moderate confidence in the response."
             else "This indicates lower confidence; consider seeking additional validation.")
        +:+ nl
        +:+ nl
        +:+ "**Expert Models Used:** " +:+ PyStr.join ", " models_used +:+ nl
        +:+ nl
        +:+ "**Processing Details:** " +:+ nl
        +:+ "- Strategy: " +:+ strategy +:+ nl
        +:+ "- Execution time: Available in metadata" +:+ nl
        +:+ "- Quality assurance: All responses were validated and synthesized using advanced mixing algorithms." +:+ nl
        +:+ "        "))
  | Some _ =>
      raise (mk_exn AttributeError "object has no attribute 'upper'")
  end.

Definition _enhance_result (result : ExecDict) (analysis : Analysis)
    (config : PipelineConfig) : M OState ExecDict :=
  explanation ←
    (if enable_explanation config
     then e ← _generate_explanation result analysis; mret (Some e)
     else mret (x_explanation result));
  md ←
    (if enable_metadata config
     then t ← now;
          mret (<["orchestrator_version" := VStr "1.0.0"]>
                (<["processing_timestamp" := VFloat t]>
                 (<["query_analysis" := analysis_value analysis]>
                  (x_metadata result))))
     else mret (x_metadata result));
  mret {| x_response := x_response result;
          x_confidence := x_confidence result;
          x_models_used := x_models_used result;
          x_metadata := md;
          x_explanation := explanation;
          x_intermediate_results := x_intermediate_results result |}.

Definition _update_stats (strategy : PipelineStrategy) (execution_time : Q)
    (success : bool) : M OState unit :=
  s ← get;
  let st := stats s in
  let total := total_queries st + 1 in
  match strategy_usage st !! strategy_value strategy with
  | None =>
      put (mk_ostate
             (mk_stats total (strategy_usage st)
                (average_execution_time st) (success_rate st))
             (calls s) (clock_reads s));;
      raise (key_error (strategy_value strategy))
  | Some n =>
      let avg :=
        ((average_execution_time st * inject_Z (total - 1) + execution_time)
         / inject_Z total)%Q in
      let rate :=
        (if success
         then (success_rate st * inject_Z (total - 1) + 1) / inject_Z total
         else (success_rate st * inject_Z (total - 1)) / inject_Z total)%Q in
      put (mk_ostate
             (mk_stats total
                (<[strategy_value strategy := n + 1]> (strategy_usage st))
                avg rate)
             (calls s) (clock_reads s))
  end.

(** The result returned when no strategy produced an answer. *)
Definition error_result (config : PipelineConfig) (execution_time : Q)
    (e : exn) : PipelineResult :=
  {| response := "Pipeline execution failed: " +:+ exn_str e;
     confidence := 0;
     strategy_used := strategy config;
     models_used := [];
     execution_time := execution_time;
     metadata :=
       list_to_map [("error", VStr (exn_str e)); ("failed", VBool true)];
     explanation := None;
     intermediate_results := None |}.

(** [process_query] calls itself for the fallback strategy; [fuel] bounds
    the depth of that recursion. *)
Fixpoint process_query (fuel : nat) (query : string)
    (domain_context : option string) (config : option PipelineConfig)
    : M OState PipelineResult :=
  match fuel with
  | O => hang
  | S fuel' =>
      start_time ← now;
      let config := default default_config config in
      try_except
        (let analysis := _analyze_query query domain_context in
         let strategy := _select_strategy analysis config in
         result ← _execute_pipeline query strategy analysis config;
         enhanced_result ← _enhance_result result analysis config;
         t ← now;
         let execution_time := (t - start_time)%Q in
         _update_stats strategy execution_time true;;
         mret {| response := x_response enhanced_result;
                 confidence := x_confidence enhanced_result;
                 strategy_used := strategy;
                 models_used := x_models_used enhanced_result;
                 execution_time := execution_time;
                 metadata := x_metadata enhanced_result;
                 explanation := x_explanation enhanced_result;
                 intermediate_results :=
                   x_intermediate_results enhanced_result |})
        (fun e =>
           t ← now;
           let execution_time := (t - start_time)%Q in
           _update_stats (strategy config) execution_time false;;
           fallback ←
             match fallback_strategy config with
             | Some fb =>
                 if decide (fb ≠ strategy config)
                 then try_except
                        (r ← process_query fuel' query domain_context
                               (Some (config_with_strategy fb));
                         mret (Some r))
                        (fun fallback_error => mret None)
                 else mret None
             | None => mret None
             end;
           match fallback with
           | Some r => mret r
           | None => mret (error_result config execution_time e)
           end)
  end.
End orchestrator.

End Orchestrator.

(** ** Concrete inputs used by the examples of Part II *)
Module Scenarios.
Import Py.

(** *** Orchestrator *)

(** A 15-word query that contains "comprehensive analysis". *)
Definition query_15_words : string :=
  "Please give me a comprehensive analysis of VO2 max for elite rowers in winter training".

(** A configuration that pins the chain strategy and names the mixture of
    experts as its fallback. *)
Definition chain_with_moe_fallback : Orchestrator.PipelineConfig :=
  Orchestrator.mk_config Orchestrator.CHAIN 3 (7 # 10) true true 30
    (Some Orchestrator.MOE).

(** An environment in which every component run raises. *)
Definition failing_executor :
    nat -> string -> Orchestrator.Analysis -> Orchestrator.PipelineConfig ->
    result Orchestrator.ExecDict :=
  fun _ _ _ _ => Raise (runtime_error "backend unavailable").

Definition failing_consensus_mix :
    nat -> list string -> list Q -> list (gmap string pyval) ->
    result Orchestrator.ExecDict :=
  fun _ _ _ _ => Raise (runtime_error "backend unavailable").

Definition tick_clock : nat -> Q := fun n => inject_Z (Z.of_nat n).
Definition plain_format : Q -> string := fun _ => "0.00".

(** *** Back ends *)

(** A back end in which every engine can be constructed, every model is
    available and every model answers with a fixed text. *)
Definition healthy_backend : Models.Backend :=
  Models.mk_backend
    (fun _ _ _ => Done "answer")
    (fun _ _ _ => 1%Q)
    (fun _ _ => Done true)
    (fun _ _ => None)
    tick_clock
    (fun _ candidates => List.hd "" candidates).

(** A percentage format that prints every weight alike; the examples that
    use it pass no weights. *)
Definition plain_percent : Q -> string := fun _ => "0.0%".

(** A run that starts with no event recorded. *)
Definition fresh {O} (o : O) : Models.World O := Models.mk_world [] o.

(** *** Mixers *)
Definition aerobic_point : string := "Regular aerobic training raises VO2 max".
Definition fuel_point : string := "Carbohydrate intake before exercise matters".
Definition sleep_point : string := "Sleep quality drives recovery between sessions".

(** Three experts; the first one makes the same point twice. *)
Definition repeated_key_points : odict (list string) :=
  [("physiology", [aerobic_point; aerobic_point]);
   ("nutrition", [fuel_point]);
   ("recovery", [sleep_point])].

Definition repeated_responses : odict string :=
  [("physiology", aerobic_point +:+ ". " +:+ aerobic_point +:+ ".");
   ("nutrition", fuel_point +:+ ".");
   ("recovery", sleep_point +:+ ".")].

(** *** Embedding router *)

(** Two domains whose embeddings are the same unit vector, and an encoder
    that maps every query to that vector: both similarities are 1. The
    exponents of the softmax are then all 0, where [np.exp] is 1, and the
    norm of every vector involved is 1. *)
Definition exp_at_zero : Q -> Q := fun _ => 1%Q.
Definition unit_norm : list Q -> Q := fun _ => 1%Q.
Definition unit_encode : string -> result (list Q) := fun _ => Done [1%Q; 0%Q].

Definition unit_dot : list Q -> list Q -> Q := fun _ _ => 1%Q.

(** An arithmetic that rounds every result to the nearest multiple of
    2^-30 (as a fraction in lowest terms), and a summation that is exact. *)
Definition fixed_point (x : Q) : Q :=
  Qred (inject_Z (Qfloor (x * 1073741824 + (1 # 2))) / 1073741824)%Q.
Definition exact_sum : list Q -> Q := Qsum.

Definition two_domain_router : Routers.EmbeddingRouter :=
  Routers.mk_embedding_router (6 # 10) 1 true
    [("physiology",
      Routers.mk_domain "physiology" "Exercise physiology" ["vo2"] []
        (Some [1%Q; 0%Q]));
     ("nutrition",
      Routers.mk_domain "nutrition" "Sports nutrition" ["protein"] []
        (Some [1%Q; 0%Q]))].

(** *** Chains *)

(** A text of 1001 characters. *)
Definition long_text : string := PyStr.of_chars (repeat "a"%char 1001).

Definition expert (ident : string) : Models.Model :=
  Models.CustomModel ident (Some ident).

(** A back end whose experts answer with [long_text] and whose summarizer
    is down. *)
Definition summarizer_down : Models.Backend :=
  Models.mk_backend
    (fun _ m _ =>
       match m with
       | Models.CustomModel ident _ =>
           if decide (ident = "summarizer")
           then Raise (runtime_error "summarizer unavailable")
           else Done long_text
       | _ => Done long_text
       end)
    (fun _ _ _ => 1%Q)
    (fun _ _ => Done true)
    (fun _ _ => None)
    tick_clock
    (fun _ candidates => List.hd "" candidates).



(** *** Ensemble and mixture of experts *)

(** A back end whose very first call fails and which answers afterwards. *)
Definition busy_once : Models.Backend :=
  Models.mk_backend
    (fun n _ _ =>
       if (n =? 0)%nat then Raise (runtime_error "busy") else Done "answer")
    (fun _ _ _ => 1%Q)
    (fun _ _ => Done true)
    (fun _ _ => None)
    tick_clock
    (fun _ candidates => List.hd "" candidates).

(** A back end whose models answer after 45 seconds. *)
Definition slow_backend : Models.Backend :=
  Models.mk_backend
    (fun _ _ _ => Done "answer")
    (fun _ _ _ => 45%Q)
    (fun _ _ => Done true)
    (fun _ _ => None)
    tick_clock
    (fun _ candidates => List.hd "" candidates).

(** A back end whose meta-expert rewrites whatever it is given. *)
Definition meta_refines : Models.Backend :=
  Models.mk_backend
    (fun _ m _ =>
       match m with
       | Models.CustomModel ident _ =>
           if decide (ident = "meta") then Done "A refined answer."
           else Done "answer"
       | _ => Done "answer"
       end)
    (fun _ _ _ => 1%Q)
    (fun _ _ => Done true)
    (fun _ _ => None)
    tick_clock
    (fun _ candidates => List.hd "" candidates).

Definition one_expert_registry : Registry.ModelRegistry :=
  Registry.mk_registry [("physiology", expert "physiology")] [].

Definition two_expert_registry : Registry.ModelRegistry :=
  Registry.mk_registry
    [("physiology", expert "physiology"); ("nutrition", expert "nutrition")] [].

(** An estimator that is moderately confident in every expert. *)
Definition half_confident : MoE.ConfidenceEstimator :=
  fun _ available => mret (map (fun name => (name, (1 # 2)%Q)) available).

(** A mixer that would be noticed if it ran. *)
Definition marking_mixer {O} : Mixers.Mixer O :=
  fun _ _ _ => mret "MIXED".

(** A router that always picks the first available model. *)
Definition first_router : Ensemble.Router :=
  Ensemble.mk_router
    (fun _ available => mret (List.head available))
    (fun _ available k => mret (map (fun name => (name, 1%Q)) available)).

Definition small_ensemble : Ensemble.Ensemble :=
  Ensemble.mk_ensemble first_router one_expert_registry marking_mixer
    Ensemble.default_config.

(** A router that never selects anything, and an ensemble that then falls
    back to asking all available models. *)
Definition silent_router : Ensemble.Router :=
  Ensemble.mk_router (fun _ _ => mret None) (fun _ _ _ => mret []).

Definition ask_all_ensemble : Ensemble.Ensemble :=
  Ensemble.mk_ensemble silent_router one_expert_registry marking_mixer
    (Ensemble.mk_config None "all" 30 true 3 1).

(** One expert, the "top_k" selection and an enabled meta-expert. *)
Definition moe_with_meta : MoE.MixtureOfExperts :=
  MoE.mk_moe half_confident one_expert_registry marking_mixer
    (Some (Models.CustomModel "meta" None))
    (MoE.mk_config (1 # 10) 5 true 30 1 "top_k" true true).

(** Two experts and the default configuration. *)
Definition plain_moe : MoE.MixtureOfExperts :=
  MoE.mk_moe half_confident two_expert_registry marking_mixer None
    MoE.default_config.

(** [json.loads] on the answers of these back ends, none of which is
    JSON, and [float] on strings, which is not reached. *)
Definition no_json : string -> option pyval := fun _ => None.
Definition no_float : string -> option Q := fun _ => None.

(** An estimator that asks the physiology expert to judge, with the default
    prompt, up to five domains per call and no domain profiles. *)
Definition judge : Confidence.LLMConfidence :=
  Confidence.mk_llm (expert "physiology") Confidence.default_prompt_template
    5 [].

(** Two experts, the default configuration and that estimator. *)
Definition judged_moe : MoE.MixtureOfExperts :=
  MoE.mk_moe
    (Confidence.LLMConfidence_estimate_confidence healthy_backend no_json
       no_float judge)
    two_expert_registry marking_mixer None MoE.default_config.

(** *** Registry *)

(** The registry after [add_model("nutrition", engine="openai",
    model_name="gpt-4")]. *)
Definition registry_with_nutrition : Registry.ModelRegistry :=
  snd (Registry.add_model healthy_backend "nutrition" "openai" "gpt-4"
         None None (7 # 10) 1000 30 [] Registry.empty).


(** *** Further inputs *)

(** The two-domain router with the threshold lowered to 0.5. *)
Definition lenient_router : Routers.EmbeddingRouter :=
  Routers.mk_embedding_router (1 # 2) 1 true
    (Routers.domains two_domain_router).

(** The same router with the temperature 0. *)
Definition cold_router : Routers.EmbeddingRouter :=
  Routers.mk_embedding_router (1 # 2) 0 true
    (Routers.domains two_domain_router).

(** A router with a third domain whose embedding is the zero vector, with
    the dot product and the norm of the vectors that occur here. *)
Definition plain_dot (a b : list Q) : Q :=
  Qsum (map (fun xy => (fst xy * snd xy)%Q) (combine a b)).
Definition plain_norm (v : list Q) : Q :=
  if forallb (fun x => Qeq_bool x 0) v then 0%Q else 1%Q.

Definition router_with_blank_domain : Routers.EmbeddingRouter :=
  Routers.mk_embedding_router (1 # 2) 1 true
    (Routers.domains two_domain_router
     ++ [("recovery",
          Routers.mk_domain "recovery" "Recovery" [] [] (Some [0%Q; 0%Q]))]).

(** A chain of three models that stops on errors; the second model is the
    summarizer, which is down in [summarizer_down]. *)
Definition chain_through_summarizer : Chains.Chain :=
  Chains.mk_chain
    [Chains.ModelItem (expert "physiology");
     Chains.ModelItem (expert "summarizer");
     Chains.ModelItem (expert "recovery")]
    ∅ None true.

(** The same chain when it does not stop on errors. *)
Definition tolerant_chain : Chains.Chain :=
  Chains.mk_chain (Chains.models chain_through_summarizer) ∅ None false.

(** A chain that holds a model name only. *)
Definition chain_of_names : Chains.Chain :=
  Chains.mk_chain [Chains.NameItem "physiology"] ∅ None true.


(** A registry that holds the summarizer only. *)
Definition summarizer_registry : Registry.ModelRegistry :=
  Registry.mk_registry [("summarizer", expert "summarizer")] [].

(** A back end whose models are available but raise whenever they are
    asked to generate. *)
Definition all_down : Models.Backend :=
  Models.mk_backend
    (fun _ _ _ => Raise (runtime_error "model unavailable"))
    (fun _ _ _ => 1%Q)
    (fun _ _ => Done true)
    (fun _ _ => None)
    tick_clock
    (fun _ candidates => List.hd "" candidates).

(** A back end in which no model passes the availability probe. *)
Definition none_available : Models.Backend :=
  Models.mk_backend
    (fun _ _ _ => Done "answer")
    (fun _ _ _ => 1%Q)
    (fun _ _ => Done false)
    (fun _ _ => None)
    tick_clock
    (fun _ candidates => List.hd "" candidates).

(** An estimator that gives every domain the confidence 0.5, one that
    always raises, and the hybrid of the two with equal weights. *)
Definition steady_estimator : Confidence.Estimator :=
  fun _ available => Done (map (fun name => (name, (1 # 2)%Q)) available).

Definition broken_estimator : Confidence.Estimator :=
  fun _ _ => Raise (runtime_error "estimator unavailable").

Definition two_estimator_hybrid : Confidence.HybridConfidence :=
  Confidence.mk_hybrid [steady_estimator; broken_estimator]
    [(1 # 2)%Q; (1 # 2)%Q] "weighted_average".
End Scenarios.

(* ================================================================== *)
(** * Part II: properties *)
(* ================================================================== *)

(** ** Facts about the string helpers *)
Module PyStrFacts.
Import PyStr.

Lemma startswith_map_chars (f : ascii -> ascii) (p s : string) :
  startswith p s = true ->
  startswith (map_chars f p) (map_chars f s) = true.
Proof.
  revert s; induction p as [|a p IH]; intros [|b s]; simpl; try done.
  destruct (ascii_dec a b) as [->|]; [|done].
  intros Hp. destruct (ascii_dec (f b) (f b)); [auto|done].
Qed.

Lemma contains_map_chars (f : ascii -> ascii) (sub s : string) :
  contains sub s = true ->
  contains (map_chars f sub) (map_chars f s) = true.
Proof.
  induction s as [|c s IH]; simpl.
  - rewrite !orb_false_r. apply (startswith_map_chars f sub EmptyString).
  - intros [Hp|Hc]%orb_true_iff; apply orb_true_iff.
    + left. apply (startswith_map_chars f sub (String c s) Hp).
    + right. auto.
Qed.

(** A lower-case needle found in a text is found in the lowered text. *)
Lemma contains_lower (sub s : string) :
  lower sub = sub -> contains sub s = true -> contains sub (lower s) = true.
Proof.
  intros Hsub Hc. rewrite <- Hsub. by apply contains_map_chars.
Qed.

Lemma startswith_shorter (p r s : string) :
  startswith (p +:+ r) s = true -> startswith p s = true.
Proof.
  revert s; induction p as [|a p IH]; intros [|b s]; simpl; try done.
  destruct (ascii_dec a b); [apply IH|done].
Qed.

(** A text that contains a phrase contains every prefix of the phrase. *)
Lemma contains_shorter (p r s : string) :
  contains (p +:+ r) s = true -> contains p s = true.
Proof.
  induction s as [|c s IH]; simpl.
  - rewrite !orb_false_r. apply startswith_shorter.
  - intros [Hp|Hc]%orb_true_iff; apply orb_true_iff.
    + left. by apply (startswith_shorter p r).
    + right. auto.
Qed.
End PyStrFacts.

(** ** Ordered dictionaries *)
Module OdictFacts.
Import Py.

Lemma od_get_set_eq {V} (k : string) (v : V) (d : odict V) :
  od_get k (od_set k v d) = Some v.
Proof.
  induction d as [|[k' v'] d IH]; simpl.
  - by destruct (decide (k = k)).
  - destruct (decide (k = k')) as [->|Hne]; simpl.
    + by destruct (decide (k' = k')).
    + by destruct (decide (k = k')).
Qed.

Lemma od_get_set_ne {V} (k k' : string) (v : V) (d : odict V) :
  k ≠ k' -> od_get k' (od_set k v d) = od_get k' d.
Proof.
  intros Hne. induction d as [|[k0 v0] d IH]; simpl.
  - destruct (decide (k' = k)); [congruence|done].
  - destruct (decide (k = k0)) as [->|Hk]; simpl.
    + destruct (decide (k' = k0)); [congruence|done].
    + destruct (decide (k' = k0)); [done|apply IH].
Qed.

(** Assigning to a key that is present keeps the order of the keys. *)
Lemma od_keys_set_mem {V} (k : string) (v : V) (d : odict V) :
  od_mem k d = true -> od_keys (od_set k v d) = od_keys d.
Proof.
  unfold od_mem, od_keys. induction d as [|[k' v'] d IH]; simpl; [done|].
  destruct (decide (k = k')) as [->|Hne]; simpl; [done|].
  intros H. f_equal. by apply IH.
Qed.

(** Assigning to a fresh key appends it. *)
Lemma od_keys_set_fresh {V} (k : string) (v : V) (d : odict V) :
  od_mem k d = false -> od_keys (od_set k v d) = od_keys d ++ [k].
Proof.
  unfold od_mem, od_keys. induction d as [|[k' v'] d IH]; simpl; [done|].
  destruct (decide (k = k')) as [->|Hne]; simpl; [done|].
  intros H. f_equal. by apply IH.
Qed.

Lemma od_mem_set {V} (k : string) (v : V) (d : odict V) :
  od_mem k (od_set k v d) = true.
Proof. unfold od_mem. by rewrite od_get_set_eq. Qed.
End OdictFacts.

(** ** Registry: registering an identifier twice *)
Module RegistryProps.
Import Py Models Registry.

(** C6, as the code has it: registering an identifier that is already
    present raises no duplicate error. When the model can be created the call
    succeeds and the new model and configuration replace the registered ones
    at the same position; when the creation raises, that exception is raised
    again and the registry, with the earlier expert, is left as it was. *)
Theorem add_model_again_replaces (B : Backend) (r : ModelRegistry)
    (name engine model_name : string) (api_key base_url : option string)
    (temperature : Q) (max_tokens timeout : Z) (kwargs : list (string * pyval))
    (Hregistered : Registry.contains r name = true) :
  let config :=
    mk_model_config name engine model_name api_key base_url temperature
      max_tokens timeout kwargs in
  let run :=
    add_model B name engine model_name api_key base_url temperature
      max_tokens timeout kwargs r in
  match create_model B config with
  | Done model =>
      fst run = Done tt /\
      Registry.get (snd run) name = Done model /\
      od_get name (configs (snd run)) = Some config /\
      list_models (snd run) = list_models r
  | Raise e => run = (Raise e, r)
  | Hang => False
  end.
Proof.
  intros config run. subst run. unfold add_model.
  fold config. unfold try_except, mbind, M_bind, bind, lift, modify.
  destruct (create_model B config) as [model|e|] eqn:Hcreate; simpl.
  - unfold Registry.get, list_models; simpl.
    rewrite !OdictFacts.od_get_set_eq.
    repeat split. by apply OdictFacts.od_keys_set_mem.
  - done.
  - unfold create_model in Hcreate. repeat case_match; done.
Qed.

Lemma add_model_again_replaces_witness :
  Registry.contains Scenarios.registry_with_nutrition "nutrition" = true /\
  Registry.get
    (snd (add_model Scenarios.healthy_backend "nutrition" "ollama" "llama2"
            None None (7 # 10) 1000 30 [] Scenarios.registry_with_nutrition))
    "nutrition"
  = Done (EngineModel OllamaModel
            (mk_model_config "nutrition" "ollama" "llama2" None None (7 # 10)
               1000 30 [])).
Proof.
  split; [reflexivity|].
  exact (proj1 (proj2
    (add_model_again_replaces Scenarios.healthy_backend
       Scenarios.registry_with_nutrition "nutrition" "ollama" "llama2"
       None None (7 # 10) 1000 30 [] eq_refl))).
Defined.

(** Registering "nutrition" a second time returns normally and the registry
    then holds the second model, not the first. *)
Lemma add_model_again_is_not_refused :
  let r := Scenarios.registry_with_nutrition in
  let run :=
    add_model Scenarios.healthy_backend "nutrition" "ollama" "llama2"
      None None (7 # 10) 1000 30 [] r in
  Registry.contains r "nutrition" = true /\
  fst run = Done tt /\
  Registry.get (snd run) "nutrition" <> Registry.get r "nutrition".
Proof. by vm_compute. Qed.
End RegistryProps.

(** ** Mixers: a single response *)
Module MixerSingleResponse.
Import Py Models Mixers.

Lemma length_append (s t : string) :
  String.length (s +:+ t) = (String.length s + String.length t)%nat.
Proof. induction s as [|c s IH]; simpl; [done|by rewrite IH]. Qed.

Lemma sorted_sources_single (source text : string) (weights : option (odict Q)) :
  sorted_sources [(source, text)] weights = [source].
Proof. unfold sorted_sources. by destruct (given weights). Qed.

Lemma header_not_empty (format_pct : Q -> string) (mixer : ConcatenationMixer)
    (weights : option (odict Q)) (source : string) :
  (0 < String.length (concatenation_header format_pct mixer weights source))%nat.
Proof.
  unfold concatenation_header. case_match; simpl; lia.
Qed.

(** C2, as the code has it: given exactly one response, the default, the
    synthesis, the weighted and the consensus mixer return its text unchanged
    for any weights and leave the world as it was (no model is called); the
    concatenation mixer returns the text under its "[source]:" header line
    (with the percentage when a weight is given for the source), which is
    never the text itself, and calls no model either. *)
Theorem single_response_is_returned {O} (format_pct : Q -> string)
    (B : Backend) (w : World O) (query source text : string)
    (weights : option (odict Q)) :
  DefaultMixer_mix query [(source, text)] weights w = (Done text, w) /\
  (forall mixer : SynthesisMixer,
      SynthesisMixer_mix format_pct B mixer query [(source, text)] weights w
      = (Done text, w)) /\
  (forall mixer : WeightedMixer,
      WeightedMixer_mix mixer query [(source, text)] weights w = (Done text, w)) /\
  (forall mixer : ConsensusBasedMixer,
      ConsensusBasedMixer_mix mixer query [(source, text)] weights w
      = (Done text, w)) /\
  (forall mixer : ConcatenationMixer,
      ConcatenationMixer_mix format_pct mixer query [(source, text)] weights w
      = (Done (concatenation_header format_pct mixer weights source
               +:+ String "010" EmptyString +:+ text), w) /\
      concatenation_header format_pct mixer weights source
        +:+ String "010" EmptyString +:+ text <> text).
Proof.
  repeat split; try done.
  - unfold DefaultMixer_mix.
    destruct (given weights); simpl; [|done].
    destruct (max_by _ _) as [best|]; [|done].
    simpl. by destruct (decide (best = source)).
  - unfold ConcatenationMixer_mix. rewrite sorted_sources_single. simpl.
    unfold od_get_default. simpl. by destruct (decide (source = source)).
  - intros Heq. apply (f_equal String.length) in Heq.
    rewrite !length_append in Heq.
    pose proof (header_not_empty format_pct mixer weights source). lia.
Qed.

(** With one response and no weights the concatenation mixer answers with
    a header line in front of the response. *)
Lemma concatenation_labels_single_response :
  ConcatenationMixer_mix Scenarios.plain_percent default_concatenation
    "How should I fuel?" [("nutrition", Scenarios.fuel_point)] None
    (Scenarios.fresh tt)
  = (Done ("[nutrition]:" +:+ String "010" EmptyString +:+ Scenarios.fuel_point),
     Scenarios.fresh tt)
  /\ "[nutrition]:" +:+ String "010" EmptyString +:+ Scenarios.fuel_point
     <> Scenarios.fuel_point.
Proof. by vm_compute. Qed.
End MixerSingleResponse.

(** ** Mixers: when a group of points is a consensus *)
Module MixerConsensus.
Import Py Models Mixers.

(** The groups that [_find_consensus] forms, in the order it forms them. *)
Fixpoint point_groups (points : list (nat * weighted)) (used_points : list nat)
    : list (list weighted) :=
  match points with
  | [] => []
  | (i, p1) :: rest =>
      if bool_decide (i ∈ used_points)
      then point_groups rest used_points
      else
        let '(group, used_points) :=
          collect_group (w_text p1) rest [p1] (used_points ++ [i]) in
        group :: point_groups rest used_points
  end.

(** The experts that contributed a point to a group. *)
Definition contributors (group : list weighted) : list string :=
  set_of (map w_source group).

Lemma consensus_loop_groups (mixer : ConsensusBasedMixer) (n : nat)
    (points : list (nat * weighted)) (used : list nat) (acc : list string) :
  consensus_loop mixer n points used acc =
    acc ++ map best_point
             (List.filter (is_consensus mixer n) (point_groups points used)).
Proof.
  revert used acc. induction points as [|[i p1] rest IH]; intros used acc; simpl.
  - by rewrite app_nil_r.
  - destruct (bool_decide (i ∈ used)); [apply IH|].
    destruct (collect_group _ _ _ _) as [group used'].
    simpl. destruct (is_consensus mixer n group); rewrite IH; simpl.
    + by rewrite <- app_assoc.
    + done.
Qed.

Lemma Qgeb_spec (a b : Q) : Qgeb a b = true <-> (b <= a)%Q.
Proof. unfold Qgeb. apply Qle_bool_iff. Qed.

(** What [_find_consensus] reports: the best-weighted points of exactly
    those groups that pass the size test. The test counts the points of the
    group, a point counting once for every time it was made, whoever made
    it. *)
Lemma consensus_by_group_size (mixer : ConsensusBasedMixer)
    (key_points : odict (list string)) (weights : odict Q) :
  let experts := od_len key_points in
  let groups :=
    point_groups (enumerate_from 0 (all_points key_points weights)) [] in
  _find_consensus mixer key_points weights
    = map best_point (List.filter (is_consensus mixer experts) groups).
Proof.
  intros experts groups. unfold _find_consensus.
  by rewrite consensus_loop_groups.
Qed.

(** The size test on examples. With 3 experts and the threshold 0.6 the
    product is the float 1.7999999999999998: a group of two points passes
    and a group of one point does not. With 25 experts and the threshold
    0.28 the product is the float 7.000000000000001: a group of seven
    points does not pass. *)
Lemma consensus_test_examples :
  (forall group : list weighted,
      (length group = 2%nat -> is_consensus default_consensus 3 group = true) /\
      (length group = 1%nat -> is_consensus default_consensus 3 group = false)) /\
  (forall group : list weighted,
      length group = 7%nat ->
      is_consensus (mk_consensus 0x1.1eb851eb851ecp-2%float "weight_based")
        25 group = false).
Proof.
  split.
  - intros group. unfold is_consensus. split; intros ->; by vm_compute.
  - intros group. unfold is_consensus. intros ->. by vm_compute.
Qed.

(** C8, what the code does: three experts, threshold 0.6; the first
    expert makes one point twice and nobody else makes it. The group of that
    point has two members, both from the first expert, so one expert of
    three supports it; the group passes the size test and the mixer reports
    the point as expert consensus. *)
Lemma consensus_from_one_expert :
  let groups :=
    point_groups
      (enumerate_from 0 (all_points Scenarios.repeated_key_points [])) [] in
  od_len Scenarios.repeated_key_points = 3%nat /\
  consensus_threshold default_consensus = float_0_6 /\
  map contributors groups = [["physiology"]; ["nutrition"]; ["recovery"]] /\
  _find_consensus default_consensus Scenarios.repeated_key_points []
    = [Scenarios.aerobic_point] /\
  map (fun sr => (fst sr, _extract_key_points (snd sr)))
      Scenarios.repeated_responses = Scenarios.repeated_key_points /\
  ConsensusBasedMixer_mix default_consensus "How do I raise my VO2 max?"
    Scenarios.repeated_responses None (Scenarios.fresh tt)
  = (Done ("Based on expert consensus:" +:+ String "010" EmptyString
           +:+ bullet Scenarios.aerobic_point),
     Scenarios.fresh tt).
Proof. by vm_compute. Qed.
End MixerConsensus.

(** ** Sums of floats *)
Module QsumFacts.
Import Py.

Lemma Qsum_app (l1 l2 : list Q) : (Qsum (l1 ++ l2) == Qsum l1 + Qsum l2)%Q.
Proof.
  induction l1 as [|x l1 IH]; simpl; [ring|]. rewrite IH. ring.
Qed.


Lemma Qsum_nonneg (l : list Q) : Forall (fun x => 0 <= x)%Q l -> (0 <= Qsum l)%Q.
Proof.
  induction 1 as [|x l Hx _ IH]; simpl; [apply Qle_refl|].
  replace 0%Q with (0 + 0)%Q by reflexivity. by apply Qplus_le_compat.
Qed.

Lemma Qsum_pos (l : list Q) :
  l <> [] -> Forall (fun x => 0 < x)%Q l -> (0 < Qsum l)%Q.
Proof.
  intros Hne Hall. destruct Hall as [|x l Hx Hl]; [done|]. simpl.
  apply Qlt_le_trans with (x + 0)%Q; [by rewrite Qplus_0_r|].
  apply Qplus_le_compat; [apply Qle_refl|].
  apply Qsum_nonneg. eapply Forall_impl; [exact Hl|].
  intros y Hy. by apply Qlt_le_weak.
Qed.

Lemma Qsum_scale (l : list Q) (c : Q) :
  (Qsum (map (fun e => e / c) l) == Qsum l / c)%Q.
Proof.
  induction l as [|x l IH]; simpl.
  - unfold Qdiv. ring.
  - rewrite IH. unfold Qdiv. ring.
Qed.





Lemma slice_to_firstn {A} (k : Z) (l : list A) :
  exists n, slice_to k l = firstn n l.
Proof. unfold slice_to. destruct (0 <=? k)%Z; eauto. Qed.

End QsumFacts.

(** ** Floats: comparisons, sorting and the array operations *)
Module FloatFacts.
Import Py PyFloat QsumFacts.


Lemma insert_desc_f_perm {A} (key : A -> pyfloat) (x : A) (l : list A) :
  insert_desc_f key x l ≡ₚ x :: l.
Proof.
  induction l as [|y l IH]; simpl; [done|].
  destruct (fgt (key y) (key x)); [|done].
  rewrite IH. apply Permutation_swap.
Qed.

(** Sorting rearranges, it neither drops nor adds. *)
Lemma sort_desc_f_perm {A} (key : A -> pyfloat) (l : list A) :
  sort_desc_f key l ≡ₚ l.
Proof.
  induction l as [|x l IH]; simpl; [done|].
  rewrite insert_desc_f_perm. by rewrite IH.
Qed.

Lemma sort_desc_f_elem {A} (key : A -> pyfloat) (x : A) (l : list A) :
  x ∈ sort_desc_f key l <-> x ∈ l.
Proof. by rewrite sort_desc_f_perm. Qed.












(** The order of floats. *)
Lemma Qgtb_lt (a b : Q) : Qgtb a b = true <-> (b < a)%Q.
Proof.
  unfold Qgtb. rewrite negb_true_iff. split.
  - intros H. apply Qnot_le_lt. intros Hle. apply Qle_bool_iff in Hle. congruence.
  - intros H. destruct (Qle_bool a b) eqn:Hle; [|done].
    apply Qle_bool_iff in Hle. lra.
Qed.

Lemma Qgeb_le (a b : Q) : Qgeb a b = true <-> (b <= a)%Q.
Proof. unfold Qgeb. apply Qle_bool_iff. Qed.

Lemma Qgtb_ge (a b : Q) : Qgtb a b = false <-> (a <= b)%Q.
Proof.
  unfold Qgtb. rewrite negb_false_iff. apply Qle_bool_iff.
Qed.

(** Case analysis on the floats of a goal about their order. *)
Ltac float_order :=
  intros; simpl in *; try done;
  repeat match goal with
         | b : bool |- _ => destruct b; simpl in *; try done
         end;
  rewrite ?Qgtb_lt, ?Qgeb_le, ?Qgtb_ge in *; try lra.

Lemma fge_not_nan (a b : pyfloat) :
  fge a b = true -> is_nan a = false /\ is_nan b = false.
Proof. by destruct a, b. Qed.

Lemma fgt_not_nan (a b : pyfloat) :
  fgt a b = true -> is_nan a = false /\ is_nan b = false.
Proof. by destruct a, b. Qed.

Lemma fge_refl (a : pyfloat) : is_nan a = false -> fge a a = true.
Proof. destruct a; float_order. Qed.

Lemma fgt_fge (a b : pyfloat) : fgt a b = true -> fge a b = true.
Proof. destruct a, b; float_order. Qed.

Lemma not_fgt_fge (a b : pyfloat) :
  is_nan a = false -> is_nan b = false -> fgt a b = false -> fge b a = true.
Proof. destruct a, b; float_order. Qed.

Lemma fge_not_fgt (a b : pyfloat) : fge b a = true -> fgt a b = false.
Proof. destruct a, b; float_order. Qed.

Lemma fge_trans (a b c : pyfloat) :
  fge a b = true -> fge b c = true -> fge a c = true.
Proof. destruct a, b, c; float_order. Qed.

Lemma fgt_trans (a b c : pyfloat) :
  fgt a b = true -> fgt b c = true -> fgt a c = true.
Proof. destruct a, b, c; float_order. Qed.

End FloatFacts.

(** ** Rounded arithmetic *)
Module RoundingFacts.
Import Py QsumFacts FloatFacts.

Section accuracy.
(** The accuracy of a float arithmetic: a result is rounded with a relative
    error of at most [u] and an absolute error of at most [eta], and the
    summation [sum] has a relative error of at most [delta] on values that
    are not negative. Rounding is monotone and keeps zero. *)
Variable fl : Q -> Q.
Variable sum : list Q -> Q.
Variables u eta delta : Q.
Hypothesis fl_mono : forall x y, (x <= y)%Q -> (fl x <= fl y)%Q.
Hypothesis fl_zero : (fl 0 == 0)%Q.
Hypothesis fl_err :
  forall x, (0 <= x)%Q ->
    ((1 - u) * x - eta <= fl x)%Q /\ (fl x <= (1 + u) * x + eta)%Q.
Hypothesis sum_err :
  forall l, Forall (fun x => 0 <= x)%Q l ->
    ((1 - delta) * Qsum l <= sum l)%Q /\ (sum l <= (1 + delta) * Qsum l)%Q.
Hypothesis u_range : (0 <= u)%Q /\ (u <= 1)%Q.
Hypothesis eta_range : (0 <= eta)%Q.
Hypothesis delta_range : (0 <= delta)%Q /\ (delta <= 1 # 2)%Q.

Lemma fl_nonneg (x : Q) : (0 <= x)%Q -> (0 <= fl x)%Q.
Proof. intros Hx. rewrite <- fl_zero. by apply fl_mono. Qed.


(** Rounding every term of a sum of [n] terms moves the sum by at most the
    relative error [u] and [n] times the absolute error [eta]. *)
Lemma rounded_sum (l : list Q) :
  Forall (fun x => 0 <= x)%Q l ->
  ((1 - u) * Qsum l - Qnat (length l) * eta <= Qsum (map fl l))%Q /\
  (Qsum (map fl l) <= (1 + u) * Qsum l + Qnat (length l) * eta)%Q.
Proof.
  induction 1 as [|x l Hx Hl [IHlo IHhi]].
  - simpl. unfold Qnat. simpl. split; ring_simplify; apply Qle_refl.
  - destruct (fl_err x Hx) as [Hlo Hhi].
    change (length (x :: l)) with (S (length l)).
    assert (Hn : (Qnat (S (length l)) == Qnat (length l) + 1)%Q).
    { unfold Qnat. rewrite Nat2Z.inj_succ, <- Z.add_1_r, inject_Z_plus.
      reflexivity. }
    rewrite Hn. simpl. split; nra.
Qed.

(** Dividing values that are not negative by their computed sum gives
    values that are not negative and that sum to 1 up to the rounding
    errors. *)
Lemma normalized_sum (l : list Q) :
  Forall (fun x => 0 <= x)%Q l ->
  (0 < Qsum l)%Q ->
  let normalized := map (fun e => fl (e / sum l)%Q) l in
  let tolerance := (2 * u + 2 * delta + Qnat (length l) * eta)%Q in
  (0 < sum l)%Q /\
  Forall (fun s => 0 <= s)%Q normalized /\
  (1 - tolerance <= Qsum normalized)%Q /\ (Qsum normalized <= 1 + tolerance)%Q.
Proof.
  intros Hall Hsum normalized tolerance. subst normalized tolerance.
  set (total := sum l).
  destruct (sum_err l Hall) as [Hlo Hhi]. fold total in Hlo, Hhi.
  destruct u_range as [Hu0 Hu1]. destruct delta_range as [Hd0 Hd1].
  assert (Htotal : (0 < total)%Q) by nra.
  set (quotients := map (fun e => (e / total)%Q) l).
  assert (Hq : Forall (fun x => 0 <= x)%Q quotients).
  { apply Forall_map. eapply Forall_impl; [exact Hall|]. simpl.
    intros e He. apply Qle_shift_div_l; [done|]. lra. }
  assert (Hmap : map (fun e => fl (e / total)%Q) l = map fl quotients).
  { subst quotients. by rewrite map_map. }
  rewrite Hmap.
  assert (Hqlen : length quotients = length l).
  { subst quotients. by rewrite length_map. }
  destruct (rounded_sum quotients Hq) as [Hrlo Hrhi]. rewrite Hqlen in Hrlo, Hrhi.
  assert (Hx : (Qsum quotients == Qsum l / total)%Q) by apply Qsum_scale.
  assert (Hxlo : (1 - delta <= Qsum quotients)%Q).
  { rewrite Hx. apply Qle_shift_div_l; [done|]. nra. }
  assert (Hxhi : (Qsum quotients <= 1 + 2 * delta)%Q).
  { rewrite Hx. apply Qle_shift_div_r; [done|]. nra. }
  assert (Hn : (0 <= Qnat (length l) * eta)%Q).
  { apply Qmult_le_0_compat; [|done]. unfold Qnat.
    change 0%Q with (inject_Z 0). rewrite <- Zle_Qle. lia. }
  split; [done|].
  split; [apply Forall_map; eapply Forall_impl; [exact Hq|];
          intros x; apply fl_nonneg|].
  split; nra.
Qed.
End accuracy.

(** The fixed-point arithmetic of the examples is that accurate: it is
    monotone, keeps zero and is off by at most 2^-31; the summation of the
    examples is exact. *)
Lemma fixed_point_mono (x y : Q) :
  (x <= y)%Q -> (Scenarios.fixed_point x <= Scenarios.fixed_point y)%Q.
Proof.
  intros Hxy. unfold Scenarios.fixed_point. rewrite !Qred_correct.
  apply Qmult_le_compat_r; [|discriminate].
  rewrite <- Zle_Qle. apply Qfloor_resp_le. lra.
Qed.

Lemma fixed_point_err (x : Q) :
  (0 <= x)%Q ->
  ((1 - 0) * x - (1 # 2147483648) <= Scenarios.fixed_point x)%Q /\
  (Scenarios.fixed_point x <= (1 + 0) * x + (1 # 2147483648))%Q.
Proof.
  intros _. unfold Scenarios.fixed_point. rewrite Qred_correct.
  set (y := (x * 1073741824 + (1 # 2))%Q).
  pose proof (Qfloor_le y) as Hlo. pose proof (Qlt_floor y) as Hhi.
  rewrite inject_Z_plus in Hhi. change (inject_Z 1) with 1%Q in Hhi.
  set (F := inject_Z (Qfloor y)) in *. subst y.
  split.
  - apply Qle_shift_div_l; [reflexivity|]. lra.
  - apply Qle_shift_div_r; [reflexivity|]. lra.
Qed.

Lemma exact_sum_err (l : list Q) :
  Forall (fun x => 0 <= x)%Q l ->
  ((1 - 0) * Qsum l <= Scenarios.exact_sum l)%Q /\
  (Scenarios.exact_sum l <= (1 + 0) * Qsum l)%Q.
Proof. intros _. unfold Scenarios.exact_sum. split; lra. Qed.
End RoundingFacts.

(** ** Embedding router: the scores of [route_multiple] *)
Module EmbeddingRouterProps.
Import Py PyFloat Routers QsumFacts FloatFacts.


Section softmax.
Variable fl : Q -> Q.
Variable np_exp : Q -> Q.
Variable np_sum : list Q -> Q.
(** The accuracy of the arithmetic: a result is rounded with a relative
    error of at most [u] and an absolute error of at most [eta], and
    [np.sum] has a relative error of at most [delta] on values that are not
    negative. Rounding is monotone and keeps zero; [np.exp] is never
    negative and is 1 at 0. *)
Variables u eta delta : Q.
Hypothesis fl_mono : forall x y, (x <= y)%Q -> (fl x <= fl y)%Q.
Hypothesis fl_zero : (fl 0 == 0)%Q.
Hypothesis fl_err :
  forall x, (0 <= x)%Q ->
    ((1 - u) * x - eta <= fl x)%Q /\ (fl x <= (1 + u) * x + eta)%Q.
Hypothesis exp_nonneg : forall x, (0 <= np_exp x)%Q.
Hypothesis exp_zero : forall x, (x == 0)%Q -> (np_exp x == 1)%Q.
Hypothesis sum_err :
  forall l, Forall (fun x => 0 <= x)%Q l ->
    ((1 - delta) * Qsum l <= np_sum l)%Q /\ (np_sum l <= (1 + delta) * Qsum l)%Q.
Hypothesis u_range : (0 <= u)%Q /\ (u <= 1)%Q.
Hypothesis eta_range : (0 <= eta)%Q.
Hypothesis delta_range : (0 <= delta)%Q /\ (delta <= 1 # 2)%Q.



End softmax.





(** With the temperature 0 every scaled score is an infinity, every softmax
    score is nan, and nothing is returned whatever the threshold is. *)
Lemma zero_temperature_returns_nothing :
  softmax Scenarios.fixed_point Scenarios.exp_at_zero Scenarios.exact_sum
    Scenarios.cold_router [Fin 1; Fin 1]
  = [NaN; NaN] /\
  route_multiple Scenarios.fixed_point Scenarios.exp_at_zero
    Scenarios.exact_sum Scenarios.unit_dot Scenarios.unit_norm
    Scenarios.unit_encode Scenarios.cold_router
    "How do I raise my VO2 max?" ["physiology"; "nutrition"] 3
  = Done [].
Proof. split; by vm_compute. Qed.

(** A domain whose embedding has norm zero gets the similarity nan; then
    every softmax score is nan and [route_multiple] returns nothing, while
    [route] still selects the best of the other domains. *)
Lemma zero_norm_embedding_is_nan :
  _calculate_scores Scenarios.fixed_point Scenarios.plain_dot
    Scenarios.plain_norm Scenarios.unit_encode
    Scenarios.router_with_blank_domain "How do I raise my VO2 max?"
    ["physiology"; "nutrition"; "recovery"]
  = Done [("physiology", Fin 1); ("nutrition", Fin 1); ("recovery", NaN)] /\
  route_multiple Scenarios.fixed_point Scenarios.exp_at_zero
    Scenarios.exact_sum Scenarios.plain_dot Scenarios.plain_norm
    Scenarios.unit_encode Scenarios.router_with_blank_domain
    "How do I raise my VO2 max?" ["physiology"; "nutrition"; "recovery"] 3
  = Done [] /\
  route Scenarios.fixed_point Scenarios.plain_dot Scenarios.plain_norm
    Scenarios.unit_encode Scenarios.router_with_blank_domain
    "How do I raise my VO2 max?" ["physiology"; "nutrition"; "recovery"]
  = Done (Some "physiology").
Proof. repeat split; by vm_compute. Qed.
End EmbeddingRouterProps.

(** ** Summarizing chain: what a step does once the context is long *)
Module SummarizingChainProps.
Import Py Models Chains.






End SummarizingChainProps.

(** ** Fan-out of the ensemble and of the mixture of experts *)
Module FanOutProps.
Import Py Models Registry.

Lemma world_eta {O} (w : World O) : mk_world (trace w) (self w) = w.
Proof. by destruct w. Qed.

Section fan_out.
Context {O : Type}.
Variable B : Backend.

(** A fan-out that asks every selected expert at most once, in order. With
    a timeout that is not positive nobody is asked. Otherwise the expert is
    looked up; if it is registered its [generate] is called once; its answer
    is stored under its name if the call returns before the timeout has
    passed, and an expert that raises, that does not answer in time or that
    is not registered is left out. *)
Definition ask_once (timeout : Z) (reg : ModelRegistry) (query : string)
    (name : string) (state : odict string * World O) : odict string * World O :=
  let '(responses, w) := state in
  if (timeout <=? 0)%Z then (responses, w)
  else
    match Registry.get reg name with
    | Done model =>
        let n := length (trace w) in
        let w' := mk_world (trace w ++ [EvGenerate model query]) (self w) in
        if Qle_bool (inject_Z timeout) (seconds B n (EvGenerate model query))
        then (responses, w')
        else
          match generate_outcome B n model query with
          | Done response => (od_set name response responses, w')
          | _ => (responses, w')
          end
    | _ => (responses, w)
    end.

Definition single_attempt_fan_out (timeout : Z) (reg : ModelRegistry)
    (query : string) (selected : list (string * Q))
    (state : odict string * World O) : odict string * World O :=
  fold_left (fun st mw => ask_once timeout reg query (fst mw) st) selected state.

(** What the fan-out of the mixture of experts comes to. *)
Definition moe_fan_out (cfg : MoE.MoEConfig) (reg : ModelRegistry)
    (query : string) (selected : list (string * Q)) (w : World O)
    : result (odict string) * World O :=
  let once := single_attempt_fan_out (MoE.timeout cfg) reg query selected ([], w) in
  (Done (fst once), snd once).

Lemma timeout_not_positive (timeout : Z) :
  Qle_bool (inject_Z timeout) 0 = (timeout <=? 0)%Z.
Proof.
  destruct (timeout <=? 0)%Z eqn:Hz.
  - apply Qle_bool_iff. change 0%Q with (inject_Z 0). rewrite <- Zle_Qle.
    by apply Z.leb_le.
  - destruct (Qle_bool _ _) eqn:Hq; [|done]. apply Qle_bool_iff in Hq.
    change 0%Q with (inject_Z 0) in Hq. rewrite <- Zle_Qle in Hq.
    apply Z.leb_gt in Hz. lia.
Qed.

(** Awaiting one call of [generate] under a timeout. *)
Lemma await_single_call (timeout : Z) (reg : ModelRegistry)
    (query name : string) (responses : odict string) (w : World O) :
  try_except
    (response ←
       wait_for B
         (model ← lift (Registry.get reg name); generate B model query)
         (inject_Z timeout);
     mret (od_set name response responses))
    (fun e => mret responses) w
  = (Done (fst (ask_once timeout reg query name (responses, w))),
     snd (ask_once timeout reg query name (responses, w))).
Proof.
  unfold ask_once, try_except, wait_for, mbind, M_bind, bind, lift, generate,
    external, mret, M_ret, ret.
  rewrite timeout_not_positive.
  destruct (timeout <=? 0)%Z; [done|].
  destruct (Registry.get reg name) as [model|e|]; cbn [trace self].
  - rewrite drop_app_length. cbn [started_by].
    destruct (Qle_bool (inject_Z timeout) _); [done|].
    cbn [option_map].
    by destruct (generate_outcome B _ model query).
  - rewrite drop_all. cbn [started_by]. by rewrite world_eta.
  - rewrite drop_all. cbn [started_by]. by rewrite world_eta.
Qed.

Lemma moe_await_once (cfg : MoE.MoEConfig) (reg : ModelRegistry)
    (query name : string) (responses : odict string) (w : World O) :
  MoE.await_response B cfg name
    (MoE._generate_single_expert_response B reg name query) responses w
  = (Done (fst (ask_once (MoE.timeout cfg) reg query name (responses, w))),
     snd (ask_once (MoE.timeout cfg) reg query name (responses, w))).
Proof. apply await_single_call. Qed.

Lemma moe_in_turn (cfg : MoE.MoEConfig) (reg : ModelRegistry) (query : string)
    (selected : list (string * Q)) (responses : odict string) (w : World O) :
  MoE.generate_in_turn B cfg reg query selected responses w
  = (Done (fst (single_attempt_fan_out (MoE.timeout cfg) reg query selected
                  (responses, w))),
     snd (single_attempt_fan_out (MoE.timeout cfg) reg query selected
            (responses, w))).
Proof.
  revert responses w. induction selected as [|[name conf] rest IH];
    intros responses w; [done|].
  cbn [MoE.generate_in_turn].
  unfold mbind, M_bind, bind. rewrite moe_await_once. rewrite IH.
  unfold single_attempt_fan_out. cbn [fold_left fst snd].
  by destruct (ask_once (MoE.timeout cfg) reg query name (responses, w)).
Qed.

Lemma moe_tasks (cfg : MoE.MoEConfig) (reg : ModelRegistry) (query : string)
    (selected : list (string * Q)) (responses : odict string) (w : World O) :
  MoE.await_tasks B cfg
    (map (fun ec => (fst ec, MoE._generate_single_expert_response B reg (fst ec) query))
         selected) responses w
  = MoE.generate_in_turn B cfg reg query selected responses w.
Proof.
  revert responses w. induction selected as [|[name conf] rest IH];
    intros responses w; simpl; [done|].
  unfold mbind, M_bind, bind.
  destruct (MoE.await_response _ _ _ _ _ _) as [[r|e|] w']; [apply IH|done|done].
Qed.





End fan_out.




(** The timeout at work. An expert that needs 45 seconds is asked and then
    left out by both fan-outs under the timeout of 30 seconds; with the
    timeout 0 the expert is not asked at all; and the ensemble, whose first
    attempt fails after one second, is cut off in its second attempt when
    the timeout is 2 seconds: it has slept for half a second and asked
    again, and the answer, due after 2.5 seconds, is lost. *)
Lemma fan_out_respects_timeout :
  let query := "How do I raise my VO2 max?" in
  let physiology := Scenarios.expert "physiology" in
  MoE._generate_expert_responses Scenarios.slow_backend MoE.default_config
    Scenarios.one_expert_registry query [("physiology", 1%Q)]
    (Scenarios.fresh tt)
  = (Done [], mk_world [EvGenerate physiology query] tt) /\
  Ensemble._generate_responses Scenarios.slow_backend
    (Ensemble.mk_config None "default" 30 true 1 1)
    Scenarios.one_expert_registry query [("physiology", 1%Q)]
    (Scenarios.fresh tt)
  = (Done [], mk_world [EvGenerate physiology query] tt) /\
  MoE._generate_expert_responses Scenarios.healthy_backend
    (MoE.mk_config (1 # 10) 5 true 0 1 "weighted" true false)
    Scenarios.one_expert_registry query [("physiology", 1%Q)]
    (Scenarios.fresh tt)
  = (Done [], Scenarios.fresh tt) /\
  Ensemble._generate_responses Scenarios.busy_once
    (Ensemble.mk_config None "default" 2 true 3 (1 # 2))
    Scenarios.one_expert_registry query [("physiology", 1%Q)]
    (Scenarios.fresh tt)
  = (Done [],
     mk_world [EvGenerate physiology query; EvSleep (1 # 2);
               EvGenerate physiology query] tt).
Proof. by vm_compute. Qed.
End FanOutProps.

(** ** Mixture of experts: no expert reaches the threshold *)
Module MoEThreshold.
Import Py Models Registry MoE.

Lemma qualified_none (confidence_scores : odict Q) (threshold : Q) :
  Forall (fun ec => snd ec < threshold)%Q confidence_scores ->
  qualified confidence_scores threshold = [].
Proof.
  induction 1 as [|ec scores Hlow _ IH]; [done|].
  unfold qualified in *. simpl. rewrite IH.
  destruct (Qgeb (snd ec) threshold) eqn:Hge; [|done].
  apply Qle_bool_iff in Hge. lra.
Qed.

(** The world in which the body of [generate] starts: the clock was read and
    the query counted. *)
Definition started (w : World Stats) : World Stats :=
  mk_world (trace w ++ [EvClock]) (count_query (self w)).

(** The world in which the estimator is called. *)
Definition estimating (query : string) (available_models : list string)
    (w : World Stats) : World Stats :=
  mk_world (trace w ++ [EvEstimate query available_models]) (self w).

Definition is_generate (ev : event) : bool :=
  match ev with EvGenerate _ _ => true | _ => false end.

(** The availability check makes availability probes and nothing else. *)
Lemma check_availability_probes {O} (B : Backend)
    (items : list (string * Model)) (acc : odict bool) (w : World O) :
  exists probes,
    trace (snd (check_availability_loop B items acc w)) = trace w ++ probes /\
    self (snd (check_availability_loop B items acc w)) = self w /\
    Forall (fun ev => is_generate ev = false) probes.
Proof.
  revert acc w. induction items as [|[name model] rest IH]; intros acc w.
  - exists []. simpl. by rewrite app_nil_r.
  - cbn [check_availability_loop].
    unfold mbind, M_bind, bind, try_except, is_available, external.
    destruct (is_available_outcome B (length (trace w)) model) as [a|e|].
    + destruct (IH (od_set name a acc)
                  (mk_world (trace w ++ [EvIsAvailable model]) (self w)))
        as (probes & Ht & Hs & Hp).
      exists (EvIsAvailable model :: probes). rewrite Ht, Hs. simpl.
      rewrite <- app_assoc. repeat split; [done..|by constructor].
    + simpl.
      destruct (IH (od_set name false acc)
                  (mk_world (trace w ++ [EvIsAvailable model]) (self w)))
        as (probes & Ht & Hs & Hp).
      exists (EvIsAvailable model :: probes). rewrite Ht, Hs. simpl.
      rewrite <- app_assoc. repeat split; [done..|by constructor].
    + exists [EvIsAvailable model]. simpl. repeat split; [done..|].
      by repeat constructor.
Qed.

Lemma get_available_models_probes {O} (B : Backend) (reg : ModelRegistry)
    (w : World O) :
  exists probes,
    trace (snd (get_available_models B reg w)) = trace w ++ probes /\
    self (snd (get_available_models B reg w)) = self w /\
    Forall (fun ev => is_generate ev = false) probes.
Proof.
  unfold get_available_models, check_availability, mbind, M_bind, bind.
  destruct (check_availability_probes B (models reg) [] w)
    as (probes & Ht & Hs & Hp).
  exists probes.
  by destruct (check_availability_loop B (models reg) [] w) as [[a|e|] w'].
Qed.

(** The models whose [generate] was called, in the order of the calls. *)
Definition models_asked (events : list event) : list Model :=
  omap (fun ev => match ev with EvGenerate m _ => Some m | _ => None end) events.

(** C7, as the code has it: when [generate] is called with the threshold 0.9
    and the estimator returns scores that are all below 0.9, the call
    returns the "no experts selected" result: the message alone, or with
    [include_expert_info] the message together with the error text, the
    query and the threshold of the configuration (not the 0.9 of the call).
    It returns in the very world in which the estimator returned: after the
    estimate no expert is asked and no statistic is changed. Before the
    estimate the call read the clock, counted the query and probed the
    availability of the registered models, and asked nothing else. The
    calls that the estimator itself makes are its own. *)
Theorem no_expert_below_threshold (np_exp : Q -> Q) (format_2f : Q -> string)
    (fl : Q -> Q) (py_sum : list Q -> Q)
    (B : Backend) (moe : MixtureOfExperts) (query : string)
    (top_k : option Z) (include_expert_info : bool) (w w1 w2 : World Stats)
    (available_models : list string) (confidence_scores : odict Q)
    (Havailable : get_available_models B (registry moe) (started w)
                  = (Done available_models, w1))
    (Hsome : available_models <> [])
    (Hestimate : confidence_estimator moe query available_models
                   (estimating query available_models w1)
                 = (Done confidence_scores, w2))
    (Hlow : Forall (fun ec => snd ec < 9 # 10)%Q confidence_scores) :
  MoE_generate np_exp format_2f fl py_sum B moe query top_k (Some (9 # 10)%Q)
    include_expert_info w
  = (Done (if include_expert_info
           then WithInfo "No experts were selected for this query"
                  (NoExpertSelected "No experts were selected for this query"
                     query (confidence_threshold (config moe)))
           else Text "No experts were selected for this query"),
     w2) /\
  exists probes,
    trace w1 = trace w ++ EvClock :: probes /\
    models_asked probes = [] /\
    self w1 = count_query (self w).
Proof.
  split.
  - unfold MoE_generate, mbind, M_bind, bind, try_except, time_time, external,
      update_self. simpl.
    fold (started w). rewrite Havailable.
    destruct available_models as [|a rest]; [done|].
    unfold emit. simpl. fold (estimating query (a :: rest) w1).
    rewrite Hestimate. unfold lift, _select_experts.
    change (effective_threshold moe (Some (9 # 10)%Q)) with (9 # 10)%Q.
    rewrite (qualified_none _ _ Hlow). by destruct include_expert_info.
  - destruct (get_available_models_probes B (registry moe) (started w))
      as (probes & Ht & Hs & Hp).
    rewrite Havailable in Ht, Hs. simpl in Ht, Hs.
    exists probes. split; [rewrite Ht; by rewrite <- app_assoc|].
    split; [|done].
    clear -Hp. induction Hp as [|ev rest Hev _ IH]; [done|].
    unfold models_asked in *. simpl. by destruct ev.
Qed.

Lemma no_expert_below_threshold_witness :
  exists (w1 w2 : World Stats) (scores : odict Q),
    get_available_models Scenarios.healthy_backend
      (registry Scenarios.plain_moe) (started (Scenarios.fresh initial_stats))
    = (Done ["physiology"; "nutrition"], w1) /\
    ["physiology"; "nutrition"] <> [] /\
    confidence_estimator Scenarios.plain_moe "How do I raise my VO2 max?"
      ["physiology"; "nutrition"]
      (estimating "How do I raise my VO2 max?" ["physiology"; "nutrition"] w1)
    = (Done scores, w2) /\
    Forall (fun ec => snd ec < 9 # 10)%Q scores /\
    MoE_generate Scenarios.exp_at_zero Scenarios.plain_format
      Scenarios.fixed_point Scenarios.exact_sum
      Scenarios.healthy_backend Scenarios.plain_moe
      "How do I raise my VO2 max?" None (Some (9 # 10)%Q) true
      (Scenarios.fresh initial_stats)
    = (Done (WithInfo "No experts were selected for this query"
               (NoExpertSelected "No experts were selected for this query"
                  "How do I raise my VO2 max?" (1 # 10))),
       w2).
Proof.
  do 3 eexists.
  assert (Hlow : Forall (fun ec : string * Q => snd ec < 9 # 10)%Q
                   [("physiology", (1 # 2)%Q); ("nutrition", (1 # 2)%Q)]).
  { repeat constructor. }
  split; [vm_compute; reflexivity|].
  split; [discriminate|].
  split; [vm_compute; reflexivity|].
  split; [exact Hlow|].
  refine (proj1 (no_expert_below_threshold Scenarios.exp_at_zero
            Scenarios.plain_format Scenarios.fixed_point
              Scenarios.exact_sum Scenarios.healthy_backend
            Scenarios.plain_moe "How do I raise my VO2 max?" None true
            (Scenarios.fresh initial_stats) _ _ ["physiology"; "nutrition"]
            _ eq_refl _ eq_refl Hlow)).
  discriminate.
Defined.

(** A mixture of experts whose estimator is an [LLMConfidence] that judges
    with the physiology expert. The expert answers with a text that is not
    JSON, so both confidences are 0.0 and no expert is selected; yet the
    [generate] of the physiology expert was called once, by the estimator. *)
Lemma llm_estimator_asks_a_model :
  let query := "How do I raise my VO2 max?" in
  let run :=
    MoE_generate Scenarios.exp_at_zero Scenarios.plain_format
      Scenarios.fixed_point Scenarios.exact_sum
      Scenarios.healthy_backend Scenarios.judged_moe query None
      (Some (9 # 10)%Q) false (Scenarios.fresh initial_stats) in
  fst (confidence_estimator Scenarios.judged_moe query
         ["physiology"; "nutrition"] (Scenarios.fresh initial_stats))
  = Done [("physiology", 0%Q); ("nutrition", 0%Q)] /\
  fst run = Done (Text "No experts were selected for this query") /\
  models_asked (trace (snd run)) = [Scenarios.expert "physiology"].
Proof. by vm_compute. Qed.
End MoEThreshold.

(** ** A single surviving response is returned without mixing *)
Module LoneSurvivor.
Import Py Models Registry.

(** The worlds in which the body of each [generate] starts: the clock was
    read and the query counted. *)
Definition ensemble_started (w : World Ensemble.Stats) : World Ensemble.Stats :=
  mk_world (trace w ++ [EvClock]) (Ensemble.count_query (self w)).

Definition is_mix (ev : event) : bool :=
  match ev with EvMix _ _ _ => true | _ => false end.

(** The meta-expert that [generate] consults, if the refinement is enabled. *)
Definition refining_expert (moe : MoE.MixtureOfExperts) : option Model :=
  if MoE.use_meta_expert (MoE.config moe) then MoE.meta_expert moe else None.

Lemma ensemble_lone_survivor (B : Backend) (e : Ensemble.Ensemble)
    (query : string) (top_k : Z) (include_routing_info : bool)
    (w w1 w2 w3 : World Ensemble.Stats) (available_models : list string)
    (selected_models : list (string * Q)) (name text : string) :
  get_available_models B (Ensemble.registry e) (ensemble_started w)
    = (Done available_models, w1) ->
  available_models <> [] ->
  Ensemble.select_models e query available_models top_k w1
    = (Done selected_models, w2) ->
  selected_models <> [] ->
  Ensemble._generate_responses B (Ensemble.config e) (Ensemble.registry e)
    query selected_models w2 = (Done [(name, text)], w3) ->
  exists (response_time : Q) (stats : Ensemble.Stats),
    Ensemble.Ensemble_generate B e query top_k include_routing_info w
    = (Done (Ensemble.reply include_routing_info text
               (Ensemble.Routed selected_models [(name, text)] response_time)),
       mk_world (trace w3 ++ [EvClock]) stats).
Proof.
  intros Hav Hsome Hsel Hnonempty Hfan.
  unfold Ensemble.Ensemble_generate, mbind, M_bind, bind, try_except,
    time_time, external, update_self. simpl.
  fold (ensemble_started w). rewrite Hav.
  destruct available_models as [|a rest]; [done|].
  rewrite Hsel. destruct selected_models as [|s srest]; [done|].
  rewrite Hfan. simpl. eauto.
Qed.

Lemma moe_lone_survivor (np_exp : Q -> Q) (format_2f : Q -> string)
    (fl : Q -> Q) (py_sum : list Q -> Q)
    (B : Backend) (moe : MoE.MixtureOfExperts) (query : string)
    (top_k : option Z) (confidence_threshold : option Q)
    (include_expert_info : bool) (w w1 w2 w3 : World MoE.Stats)
    (available_models : list string) (confidence_scores : odict Q)
    (selected_experts : list (string * Q)) (name text : string) :
  get_available_models B (MoE.registry moe) (MoEThreshold.started w)
    = (Done available_models, w1) ->
  available_models <> [] ->
  MoE.confidence_estimator moe query available_models
    (MoEThreshold.estimating query available_models w1)
    = (Done confidence_scores, w2) ->
  MoE._select_experts np_exp moe confidence_scores
    (MoE.effective_top_k moe top_k)
    (MoE.effective_threshold moe confidence_threshold)
    = Done selected_experts ->
  selected_experts <> [] ->
  MoE._generate_expert_responses B (MoE.config moe) (MoE.registry moe) query
    selected_experts w2 = (Done [(name, text)], w3) ->
  let run :=
    MoE.MoE_generate np_exp format_2f fl py_sum B moe query top_k confidence_threshold
      include_expert_info w in
  let consulted final_response :=
    exists (response_time : Q) (stats : MoE.Stats) (events : list event),
      run = (Done (MoE.reply include_expert_info final_response
                     (MoE.Consulted selected_experts [(name, text)]
                        confidence_scores response_time
                        (MoE.use_meta_expert (MoE.config moe)
                         && bool_decide (MoE.meta_expert moe <> None)))),
             mk_world (trace w3 ++ events) stats) /\
      Forall (fun ev => is_mix ev = false) events in
  match refining_expert moe with
  | None => consulted text
  | Some meta =>
      match generate_outcome B (length (trace w3)) meta
              (MoE.meta_prompt format_2f query text [(name, text)]
                 selected_experts) with
      | Done refined => consulted (PyStr.strip refined)
      | Raise _ => consulted text
      | Hang => fst run = Hang
      end
  end.
Proof.
  intros Hav Hsome Hest Hsel Hnonempty Hfan run consulted.
  assert (Hrun : run =
    (let '(r, w4) :=
       (final_response ←
          (if MoE.use_meta_expert (MoE.config moe)
              && bool_decide (MoE.meta_expert moe <> None)
           then MoE._apply_meta_expert format_2f B moe query text
                  [(name, text)] selected_experts
           else mret text);
        mret final_response) w3 in
     match r with
     | Done final_response =>
         (Done (MoE.reply include_expert_info final_response
                  (MoE.Consulted selected_experts [(name, text)]
                     confidence_scores
                     (clock B (length (trace w4)) - clock B (length (trace w)))%Q
                     (MoE.use_meta_expert (MoE.config moe)
                      && bool_decide (MoE.meta_expert moe <> None)))),
          mk_world (trace w4 ++ [EvClock])
            (MoE._update_statistics selected_experts confidence_scores
               (clock B (length (trace w4)) - clock B (length (trace w)))%Q
               (MoE.count_success (self w4))))
     | Raise exn =>
         (Done (MoE.reply include_expert_info ("Error: " +:+ exn_str exn)
                  (MoE.Failed (exn_str exn))),
          mk_world (trace w4) (MoE.count_failure (self w4)))
     | Hang => (Hang, w4)
     end)).
  { subst run.
    unfold MoE.MoE_generate, mbind, M_bind, bind, try_except, time_time,
      external, update_self. simpl.
    fold (MoEThreshold.started w). rewrite Hav.
    destruct available_models as [|a rest]; [done|].
    unfold emit. simpl.
    fold (MoEThreshold.estimating query (a :: rest) w1). rewrite Hest.
    unfold lift. rewrite Hsel.
    destruct selected_experts as [|s srest]; [done|].
    rewrite Hfan. simpl.
    destruct (MoE.use_meta_expert (MoE.config moe)
              && bool_decide (MoE.meta_expert moe <> None)); simpl;
      [|done].
    by destruct (MoE._apply_meta_expert _ _ _ _ _ _ _ w3) as [[r|exn|] w4]. }
  unfold refining_expert in *.
  destruct (MoE.use_meta_expert (MoE.config moe)) eqn:Huse.
  - destruct (MoE.meta_expert moe) as [meta|] eqn:Hmeta.
    + rewrite bool_decide_eq_true_2 in Hrun by done.
      unfold MoE._apply_meta_expert, mbind, M_bind, bind, try_except,
        generate, external in Hrun.
      rewrite Hmeta in Hrun. simpl in Hrun.
      destruct (generate_outcome B (length (trace w3)) meta _)
        as [refined|exn|]; simpl in Hrun.
      * subst consulted. simpl. do 2 eexists.
        exists [EvGenerate meta
                  (MoE.meta_prompt format_2f query text [(name, text)]
                     selected_experts); EvClock].
        rewrite Hrun. rewrite <- app_assoc. split; [done|].
        by repeat constructor.
      * subst consulted. simpl. do 2 eexists.
        exists [EvGenerate meta
                  (MoE.meta_prompt format_2f query text [(name, text)]
                     selected_experts); EvClock].
        rewrite Hrun. rewrite <- app_assoc. split; [done|].
        by repeat constructor.
      * by rewrite Hrun.
    + simpl in Hrun.
      subst consulted. simpl in *. do 2 eexists. exists [EvClock].
      rewrite Hrun. split; [done|]. by repeat constructor.
  - simpl in Hrun.
    subst consulted. simpl in *. do 2 eexists. exists [EvClock].
    rewrite Hrun. split; [done|]. by repeat constructor.
Qed.

(** C10, as the code has it: when the fan-out leaves exactly one response,
    neither [generate] calls the mixer. The ensemble returns that response
    as its final text. The mixture of experts returns it as well unless the
    meta-expert refinement is enabled and a meta-expert is set: then the
    meta-expert is asked, and the final text is its stripped answer, or the
    lone response when the meta-expert raises. *)
Theorem lone_survivor_is_not_mixed (np_exp : Q -> Q) (format_2f : Q -> string)
    (fl : Q -> Q) (py_sum : list Q -> Q)
    (B : Backend) (query name text : string) :
  (forall (e : Ensemble.Ensemble) (top_k : Z) (include_routing_info : bool)
          (w w1 w2 w3 : World Ensemble.Stats) (available_models : list string)
          (selected_models : list (string * Q)),
      get_available_models B (Ensemble.registry e) (ensemble_started w)
        = (Done available_models, w1) ->
      available_models <> [] ->
      Ensemble.select_models e query available_models top_k w1
        = (Done selected_models, w2) ->
      selected_models <> [] ->
      Ensemble._generate_responses B (Ensemble.config e) (Ensemble.registry e)
        query selected_models w2 = (Done [(name, text)], w3) ->
      exists (response_time : Q) (stats : Ensemble.Stats),
        Ensemble.Ensemble_generate B e query top_k include_routing_info w
        = (Done (Ensemble.reply include_routing_info text
                   (Ensemble.Routed selected_models [(name, text)] response_time)),
           mk_world (trace w3 ++ [EvClock]) stats)) /\
  (forall (moe : MoE.MixtureOfExperts) (top_k : option Z)
          (confidence_threshold : option Q) (include_expert_info : bool)
          (w w1 w2 w3 : World MoE.Stats) (available_models : list string)
          (confidence_scores : odict Q) (selected_experts : list (string * Q)),
      get_available_models B (MoE.registry moe) (MoEThreshold.started w)
        = (Done available_models, w1) ->
      available_models <> [] ->
      MoE.confidence_estimator moe query available_models
        (MoEThreshold.estimating query available_models w1)
        = (Done confidence_scores, w2) ->
      MoE._select_experts np_exp moe confidence_scores
        (MoE.effective_top_k moe top_k)
        (MoE.effective_threshold moe confidence_threshold)
        = Done selected_experts ->
      selected_experts <> [] ->
      MoE._generate_expert_responses B (MoE.config moe) (MoE.registry moe)
        query selected_experts w2 = (Done [(name, text)], w3) ->
      let run :=
        MoE.MoE_generate np_exp format_2f fl py_sum B moe query top_k
          confidence_threshold include_expert_info w in
      let consulted final_response :=
        exists (response_time : Q) (stats : MoE.Stats) (events : list event),
          run = (Done (MoE.reply include_expert_info final_response
                         (MoE.Consulted selected_experts [(name, text)]
                            confidence_scores response_time
                            (MoE.use_meta_expert (MoE.config moe)
                             && bool_decide (MoE.meta_expert moe <> None)))),
                 mk_world (trace w3 ++ events) stats) /\
          Forall (fun ev => is_mix ev = false) events in
      match refining_expert moe with
      | None => consulted text
      | Some meta =>
          match generate_outcome B (length (trace w3)) meta
                  (MoE.meta_prompt format_2f query text [(name, text)]
                     selected_experts) with
          | Done refined => consulted (PyStr.strip refined)
          | Raise _ => consulted text
          | Hang => fst run = Hang
          end
      end).
Proof.
  split.
  - intros. by eapply ensemble_lone_survivor.
  - intros. by eapply moe_lone_survivor.
Qed.

Lemma lone_survivor_is_not_mixed_witness :
  exists (w1 w2 w3 : World Ensemble.Stats) (response_time : Q)
         (stats : Ensemble.Stats),
    get_available_models Scenarios.healthy_backend
      (Ensemble.registry Scenarios.small_ensemble)
      (ensemble_started (Scenarios.fresh Ensemble.initial_stats))
    = (Done ["physiology"], w1) /\
    ["physiology"] <> [] /\
    Ensemble.select_models Scenarios.small_ensemble
      "How do I raise my VO2 max?" ["physiology"] 1 w1
    = (Done [("physiology", 1%Q)], w2) /\
    [("physiology", 1%Q)] <> [] /\
    Ensemble._generate_responses Scenarios.healthy_backend
      (Ensemble.config Scenarios.small_ensemble)
      (Ensemble.registry Scenarios.small_ensemble)
      "How do I raise my VO2 max?" [("physiology", 1%Q)] w2
    = (Done [("physiology", "answer")], w3) /\
    Ensemble.Ensemble_generate Scenarios.healthy_backend
      Scenarios.small_ensemble "How do I raise my VO2 max?" 1 false
      (Scenarios.fresh Ensemble.initial_stats)
    = (Done (Ensemble.Text "answer"),
       mk_world (trace w3 ++ [EvClock]) stats).
Proof.
  assert (Hav : ["physiology"] <> ([] : list string)) by discriminate.
  assert (Hsel : [("physiology", 1%Q)] <> ([] : list (string * Q)))
    by discriminate.
  destruct (proj1 (lone_survivor_is_not_mixed Scenarios.exp_at_zero
              Scenarios.plain_format Scenarios.fixed_point
              Scenarios.exact_sum Scenarios.healthy_backend
              "How do I raise my VO2 max?" "physiology" "answer")
              Scenarios.small_ensemble 1 false
              (Scenarios.fresh Ensemble.initial_stats) _ _ _
              ["physiology"] [("physiology", 1%Q)]
              eq_refl Hav eq_refl Hsel eq_refl)
    as (response_time & stats & Hrun).
  do 3 eexists. exists response_time, stats.
  repeat (split; [first [reflexivity|assumption]|]).
  exact Hrun.
Defined.

(** One expert survives the fan-out of a mixture of experts whose
    meta-expert refinement is enabled: the mixer is not called, but the final
    text is the answer of the meta-expert, not the response of the expert. *)
Lemma meta_expert_rewrites_lone_survivor :
  exists (response_time : Q) (w : World MoE.Stats),
    MoE.MoE_generate Scenarios.exp_at_zero Scenarios.plain_format
      Scenarios.fixed_point Scenarios.exact_sum
      Scenarios.meta_refines Scenarios.moe_with_meta
      "How do I raise my VO2 max?" None None true
      (Scenarios.fresh MoE.initial_stats)
    = (Done (MoE.WithInfo "A refined answer."
               (MoE.Consulted [("physiology", (1 # 2)%Q)]
                  [("physiology", "answer")] [("physiology", (1 # 2)%Q)]
                  response_time true)), w) /\
    Forall (fun ev => is_mix ev = false) (trace w) /\
    "A refined answer." <> "answer".
Proof.
  do 2 eexists. split; [vm_compute; reflexivity|].
  split; [|done]. by repeat constructor.
Qed.

(** Outside the fan-out, on the "all" fallback of the ensemble, a single
    response does go through the mixer. *)
Lemma fallback_all_mixes_single_response :
  exists w : World Ensemble.Stats,
    Ensemble.Ensemble_generate Scenarios.healthy_backend
      Scenarios.ask_all_ensemble "How do I raise my VO2 max?" 1 false
      (Scenarios.fresh Ensemble.initial_stats)
    = (Done (Ensemble.Text "MIXED"), w) /\
    EvMix "How do I raise my VO2 max?" [("physiology", "answer")]
      (Some [("physiology", 1%Q)]) ∈ trace w.
Proof.
  eexists. split; [vm_compute; reflexivity|].
  do 4 apply list_elem_of_further. apply list_elem_of_here.
Qed.
End LoneSurvivor.

(** ** Orchestrator: analysis and strategy selection *)
Module OrchestratorSelection.
Import Py Orchestrator.

(** The strategy chosen for a query when the caller leaves the choice to
    the orchestrator. *)
Definition selected (query : string) (domain_context : option string)
    (config : PipelineConfig) : PipelineStrategy :=
  _select_strategy (_analyze_query query domain_context) config.

Lemma any_indicator_intro (indicators : list string) (ind text : string) :
  ind ∈ indicators -> PyStr.contains ind text = true ->
  any_indicator indicators text = true.
Proof.
  intros Hin Hc. apply existsb_exists. exists ind.
  split; [by apply list_elem_of_In|done].
Qed.

(** The complexity tier computed by the analysis. *)
Lemma analysis_complexity (query : string) (dc : option string) :
  a_complexity (_analyze_query query dc) =
    if a_requires_synthesis (_analyze_query query dc) then COMPLEX
    else if (length (PyStr.split query) <=? 20)%nat then SIMPLE
    else if (length (PyStr.split query) <=? 50)%nat then MODERATE
    else COMPLEX.
Proof.
  unfold _analyze_query; cbn [a_complexity a_requires_synthesis].
  destruct (any_indicator domain_indicators (PyStr.lower query)); [done|].
  repeat case_match; try done;
    repeat match goal with
      | H : (_ <? _)%nat = true |- _ => apply Nat.ltb_lt in H
      | H : (_ <? _)%nat = false |- _ => apply Nat.ltb_ge in H
      | H : (_ <=? _)%nat = true |- _ => apply Nat.leb_le in H
      | H : (_ <=? _)%nat = false |- _ => apply Nat.leb_gt in H
      end; lia.
Qed.

(** Selection as a function of the word count and the two flags. *)
Lemma selected_by_word_count (query : string) (dc : option string)
    (config : PipelineConfig) :
  strategy config = AUTO ->
  selected query dc config =
    if a_requires_synthesis (_analyze_query query dc) then MOE
    else if (length (PyStr.split query) <=? 20)%nat then ENSEMBLE
    else if (length (PyStr.split query) <=? 50)%nat
         then (if a_requires_expertise (_analyze_query query dc)
               then CHAIN else ENSEMBLE)
    else MOE.
Proof.
  intros Hauto. unfold selected, _select_strategy.
  rewrite Hauto. destruct (decide (AUTO ≠ AUTO)) as [?|_]; [done|].
  cbv zeta. rewrite analysis_complexity.
  destruct (a_requires_synthesis _); [done|].
  destruct (a_requires_expertise _);
    repeat (case_match; try done).
Qed.

(** C3, as the code has it: the ordered selection rules, the word-count
    tiers (at most 20 words: simple, at most 50: moderate, else complex, and
    complex whenever a synthesis indicator occurs), and the three scenarios:
    the four-word query selects the ensemble, a 60-word query containing
    "compare" and "integrate" selects the mixture of experts, and a 15-word
    query containing "comprehensive analysis" selects the ensemble (the
    mixture of experts when a synthesis indicator occurs in it), never the
    chain; the hybrid strategy is never selected automatically. *)
Theorem auto_selection (query : string) (dc : option string)
    (config : PipelineConfig) (Hauto : strategy config = AUTO) :
  let analysis := _analyze_query query dc in
  let words := length (PyStr.split query) in
  (* the ordered rules of the selection *)
  (forall a : Analysis,
      (a_complexity a = SIMPLE -> a_requires_synthesis a = false ->
       _select_strategy a config = ENSEMBLE) /\
      (~ (a_complexity a = SIMPLE /\ a_requires_synthesis a = false) ->
       a_requires_synthesis a = true \/ a_complexity a = COMPLEX ->
       _select_strategy a config = MOE) /\
      (a_requires_synthesis a = false -> a_complexity a = MODERATE ->
       a_requires_expertise a = true ->
       _select_strategy a config = CHAIN) /\
      (a_requires_synthesis a = false -> a_complexity a = EXPERT ->
       _select_strategy a config = HYBRID) /\
      (a_requires_synthesis a = false -> a_complexity a = MODERATE ->
       a_requires_expertise a = false ->
       _select_strategy a config = ENSEMBLE)) /\
  (* the tiers *)
  a_complexity analysis =
    (if a_requires_synthesis analysis then COMPLEX
     else if (words <=? 20)%nat then SIMPLE
     else if (words <=? 50)%nat then MODERATE
     else COMPLEX) /\
  a_complexity analysis <> EXPERT /\
  selected query dc config <> HYBRID /\
  (* the scenarios *)
  selected "What is VO2 max?" dc config = ENSEMBLE /\
  (words = 60%nat ->
   PyStr.contains "compare" query = true ->
   PyStr.contains "integrate" query = true ->
   selected query dc config = MOE) /\
  (words = 15%nat ->
   PyStr.contains "comprehensive analysis" query = true ->
   a_requires_expertise analysis = true /\
   selected query dc config =
     (if a_requires_synthesis analysis then MOE else ENSEMBLE) /\
   selected query dc config <> CHAIN).
Proof.
  intros analysis words.
  pose proof (selected_by_word_count query dc config Hauto) as Hsel.
  pose proof (analysis_complexity query dc) as Hcx.
  fold analysis words in Hsel, Hcx.
  split; [|split; [exact Hcx|split; [|split; [|split; [|split]]]]].
  - intros a. unfold _select_strategy. rewrite Hauto.
    destruct (decide (AUTO ≠ AUTO)) as [?|_]; [done|]. cbv zeta.
    destruct (a_complexity a), (a_requires_synthesis a),
      (a_requires_expertise a); simpl;
      repeat split; intros; try done; try tauto; try (destruct H0; done).
  - rewrite Hcx. repeat case_match; done.
  - rewrite Hsel. repeat case_match; done.
  - unfold selected, _select_strategy. rewrite Hauto.
    destruct (decide (AUTO ≠ AUTO)) as [?|_]; [done|]. by vm_compute.
  - intros Hw Hc _. rewrite Hsel.
    assert (a_requires_synthesis analysis = true) as ->; [|done].
    apply (any_indicator_intro _ "compare"); [set_solver|].
    by apply PyStrFacts.contains_lower.
  - intros Hw Hc.
    assert (a_requires_expertise analysis = true) as Hexp.
    { apply (any_indicator_intro _ "comprehensive"); [set_solver|].
      apply PyStrFacts.contains_lower; [done|].
      by apply (PyStrFacts.contains_shorter "comprehensive" " analysis"). }
    split; [done|]. rewrite Hsel, Hw.
    change (15 <=? 20)%nat with true. cbv iota.
    split; [done|]. by destruct (a_requires_synthesis analysis).
Qed.

Lemma auto_selection_witness :
  strategy default_config = AUTO /\
  (length (PyStr.split Scenarios.query_15_words) = 15%nat ->
   PyStr.contains "comprehensive analysis" Scenarios.query_15_words = true ->
   selected Scenarios.query_15_words None default_config <> CHAIN).
Proof.
  split; [reflexivity|].
  intros Hw Hc.
  pose proof (auto_selection Scenarios.query_15_words None default_config
                eq_refl) as H.
  cbv zeta in H. destruct H as (_ & _ & _ & _ & _ & _ & H).
  exact (proj2 (proj2 (H Hw Hc))).
Defined.

(** A 15-word query containing "comprehensive analysis" for which the
    automatic selection is the ensemble, not the chain. *)
Lemma auto_selection_15_words_is_ensemble :
  length (PyStr.split Scenarios.query_15_words) = 15%nat /\
  PyStr.contains "comprehensive analysis" Scenarios.query_15_words = true /\
  selected Scenarios.query_15_words None default_config = ENSEMBLE /\
  selected Scenarios.query_15_words None default_config <> CHAIN.
Proof. by vm_compute. Qed.
End OrchestratorSelection.

(** ** Orchestrator: [process_query] returns a result *)
Module OrchestratorTotality.
Import Py Orchestrator.

(** The statistics count every strategy, as they do from construction on. *)
Definition stats_ok (s : OState) : Prop :=
  forall st : PipelineStrategy,
    is_Some (strategy_usage (stats s) !! strategy_value st).

(** A computation that completes, by returning or by raising, and keeps the
    statistics well formed. *)
Definition completes {A} (m : M OState A) : Prop :=
  forall s, stats_ok s -> fst (m s) <> Hang /\ stats_ok (snd (m s)).

(** A computation that returns a value. *)
Definition returns {A} (m : M OState A) : Prop :=
  forall s, stats_ok s -> exists a s', m s = (Done a, s') /\ stats_ok s'.

Lemma initial_state_ok : stats_ok initial_state.
Proof. intros []; eexists; vm_compute; reflexivity. Qed.

Lemma returns_completes {A} (m : M OState A) : returns m -> completes m.
Proof. intros Hm s Hs. destruct (Hm s Hs) as (a & s' & -> & Hs'). by split. Qed.

Lemma completes_ret {A} (a : A) : completes (mret a : M OState A).
Proof. intros s Hs. by split. Qed.

Lemma returns_ret {A} (a : A) : returns (mret a : M OState A).
Proof. intros s Hs. by exists a, s. Qed.

Lemma completes_raise {A} (e : exn) : completes (raise e : M OState A).
Proof. intros s Hs. by split. Qed.

Lemma completes_bind {A C} (m : M OState A) (k : A -> M OState C) :
  completes m -> (forall a, completes (k a)) -> completes (m ≫= k).
Proof.
  intros Hm Hk s Hs. unfold mbind, M_bind, bind.
  destruct (Hm s Hs) as [Hr Hs']. destruct (m s) as [[a|e|] s']; simpl in *;
    [by apply Hk|done|done].
Qed.

Lemma returns_bind {A C} (m : M OState A) (k : A -> M OState C) :
  returns m -> (forall a, returns (k a)) -> returns (m ≫= k).
Proof.
  intros Hm Hk s Hs. unfold mbind, M_bind, bind.
  destruct (Hm s Hs) as (a & s' & -> & Hs'). by apply Hk.
Qed.

(** A handler that returns turns a computation that completes into one
    that returns. *)
Lemma returns_try_except {A} (m : M OState A) (h : exn -> M OState A) :
  completes m -> (forall e, returns (h e)) -> returns (try_except m h).
Proof.
  intros Hm Hh s Hs. unfold try_except.
  destruct (Hm s Hs) as [Hr Hs']. destruct (m s) as [[a|e|] s']; simpl in *.
  - by exists a, s'.
  - by apply Hh.
  - done.
Qed.

Section totality.
Variable clock : nat -> Q.
Variable format_2f : Q -> string.
Variable execute_ensemble execute_moe execute_chain :
  nat -> string -> Analysis -> PipelineConfig -> result ExecDict.
Variable consensus_mix :
  nat -> list string -> list Q -> list (gmap string pyval) -> result ExecDict.
(** Every component run ends: it returns or it raises. *)
Hypothesis ensemble_ends : forall n q a c, execute_ensemble n q a c <> Hang.
Hypothesis moe_ends : forall n q a c, execute_moe n q a c <> Hang.
Hypothesis chain_ends : forall n q a c, execute_chain n q a c <> Hang.
Hypothesis consensus_ends : forall n r c m, consensus_mix n r c m <> Hang.

Lemma returns_now : returns (now clock).
Proof. intros s Hs. unfold now. do 2 eexists. split; [reflexivity|exact Hs]. Qed.

Lemma completes_component {A} (c : call) (run : nat -> result A) :
  (forall n, run n <> Hang) -> completes (component c run).
Proof. intros Hrun s Hs. unfold component. split; [apply Hrun|exact Hs]. Qed.

Lemma returns_update_stats (st : PipelineStrategy) (t : Q) (success : bool) :
  returns (_update_stats st t success).
Proof.
  intros s Hs. unfold _update_stats, mbind, M_bind, bind, get, put. simpl.
  destruct (Hs st) as [n Hn]. rewrite Hn. simpl.
  do 2 eexists. split; [done|].
  intros st'. simpl.
  destruct (decide (strategy_value st = strategy_value st')) as [->|Hne].
  - rewrite lookup_insert_eq. by eexists.
  - rewrite lookup_insert_ne by done. apply Hs.
Qed.

Lemma completes_execute_pipeline query st analysis config :
  completes (_execute_pipeline execute_ensemble execute_moe execute_chain
               consensus_mix query st analysis config).
Proof.
  unfold _execute_pipeline, _execute_hybrid, _execute_ensemble, _execute_moe,
    _execute_chain.
  destruct st; try (by apply completes_component); [apply completes_raise|].
  apply completes_bind; [by apply completes_component|]. intros ens.
  destruct (Qlt_le_dec _ _); [|apply completes_ret].
  apply completes_bind; [by apply completes_component|]. intros moe.
  apply completes_bind; [by apply completes_component|]. intros mixed.
  apply completes_ret.
Qed.

Lemma completes_enhance_result result analysis config :
  completes (_enhance_result clock format_2f result analysis config).
Proof.
  unfold _enhance_result.
  apply completes_bind.
  - destruct (enable_explanation config); [|apply completes_ret].
    apply completes_bind; [|intros; apply completes_ret].
    unfold _generate_explanation.
    destruct (x_metadata result !! "strategy") as [[]|];
      first [apply completes_ret|apply completes_raise].
  - intros explanation. apply completes_bind; [|intros; apply completes_ret].
    destruct (enable_metadata config); [|apply completes_ret].
    apply completes_bind; [apply returns_completes, returns_now|].
    intros; apply completes_ret.
Qed.

(** One level of [process_query]: it returns as soon as the call it makes
    for the fallback strategy, if it makes one, returns. *)
Lemma process_query_level (fuel : nat) (query : string)
    (dc : option string) (config : option PipelineConfig) :
  (forall fb,
      fallback_strategy (default default_config config) = Some fb ->
      fb <> strategy (default default_config config) ->
      returns (process_query clock format_2f execute_ensemble execute_moe
                 execute_chain consensus_mix fuel query dc
                 (Some (config_with_strategy fb)))) ->
  returns (process_query clock format_2f execute_ensemble execute_moe
             execute_chain consensus_mix (S fuel) query dc config).
Proof.
  intros Hrec. cbn [process_query].
  apply returns_bind; [apply returns_now|]. intros start_time.
  apply returns_try_except.
  - apply completes_bind; [apply completes_execute_pipeline|]. intros result.
    apply completes_bind; [apply completes_enhance_result|]. intros enhanced.
    apply completes_bind; [apply returns_completes, returns_now|]. intros t.
    apply completes_bind; [apply returns_completes, returns_update_stats|].
    intros _. apply completes_ret.
  - intros e.
    apply returns_bind; [apply returns_now|]. intros t.
    apply returns_bind; [apply returns_update_stats|]. intros _.
    apply returns_bind.
    + destruct (fallback_strategy (default default_config config)) as [fb|]
        eqn:Hfb; [|apply returns_ret].
      destruct (decide (fb <> strategy (default default_config config)))
        as [Hne|_]; [|apply returns_ret].
      apply returns_try_except; [|intros; apply returns_ret].
      apply returns_completes, returns_bind; [by apply Hrec|].
      intros r. apply returns_ret.
    + intros [r|]; apply returns_ret.
Qed.

(** Whatever the query, the context and the configuration, and whichever
    components fail, [process_query] returns a result and raises nothing;
    three levels of the recursion are all it ever needs. *)
Lemma process_query_returns (fuel : nat) (query : string)
    (dc : option string) (config : option PipelineConfig) :
  (3 <= fuel)%nat ->
  returns (process_query clock format_2f execute_ensemble execute_moe
             execute_chain consensus_mix fuel query dc config).
Proof.
  intros Hfuel.
  destruct fuel as [|[|[|fuel]]]; try lia.
  apply process_query_level. intros fb _ _.
  apply process_query_level. intros fb' Hfb' _.
  simpl in Hfb'. injection Hfb' as <-.
  apply process_query_level. intros fb'' Hfb'' Hne.
  simpl in Hfb'', Hne. by injection Hfb'' as <-.
Qed.

(** The fallback strategy is not tried when it is the configured one. *)
Lemma no_fallback_to_same_strategy (fuel : nat) (query : string)
    (dc : option string) (config : PipelineConfig) (s : OState) :
  fallback_strategy config = Some (strategy config) ->
  (length (calls (snd (process_query clock format_2f execute_ensemble
                         execute_moe execute_chain consensus_mix (S fuel)
                         query dc (Some config) s)))
   <= length (calls s) + 3)%nat.
Proof.
  intros Hsame. cbn [process_query]. simpl default.
  unfold mbind, M_bind, bind, try_except, now. simpl.
  rewrite Hsame.
  destruct (decide (strategy config <> strategy config)) as [?|_]; [done|].
  set (s0 := mk_ostate (stats s) (calls s) (S (clock_reads s))).
  assert (Hexec : forall st,
    (length (calls (snd (_execute_pipeline execute_ensemble execute_moe
                           execute_chain consensus_mix query st
                           (_analyze_query query dc) config s0)))
     <= length (calls s) + 3)%nat).
  { intros st. unfold _execute_pipeline, _execute_hybrid, _execute_ensemble,
      _execute_moe, _execute_chain, component, mbind, M_bind, bind, raise.
    destruct st; simpl; rewrite ?length_app; simpl; try lia.
    destruct (execute_ensemble _ _ _ _) as [ens|?|]; simpl;
      rewrite ?length_app; simpl; try lia.
    destruct (Qlt_le_dec _ _); simpl; rewrite ?length_app; simpl; try lia.
    destruct (execute_moe _ _ _ _) as [moe|?|]; simpl;
      rewrite ?length_app; simpl; try lia.
    destruct (consensus_mix _ _ _ _); simpl; rewrite ?length_app; simpl; lia. }
  specialize (Hexec (_select_strategy (_analyze_query query dc) config)).
  destruct (_execute_pipeline _ _ _ _ _ _ _ _ s0) as [[result|e|] s1];
    simpl in *.
  - assert (Henh : calls (snd (_enhance_result clock format_2f result
                                 (_analyze_query query dc) config s1))
                   = calls s1).
    { unfold _enhance_result, _generate_explanation, mbind, M_bind, bind, now,
        raise.
      destruct (enable_explanation config); simpl;
        [destruct (x_metadata result !! "strategy") as [[]|]; simpl|];
        try done; by destruct (enable_metadata config). }
    destruct (_enhance_result _ _ _ _ _ s1) as [[enh|e|] s2]; simpl in *;
      try (rewrite Henh; lia).
    + unfold _update_stats, mbind, M_bind, bind, get, put, raise. simpl.
      destruct (strategy_usage (stats s2) !! _); simpl; rewrite ?Henh;
        try lia.
      destruct (strategy_usage _ !! _); simpl; rewrite ?Henh; lia.
    + unfold _update_stats, mbind, M_bind, bind, get, put, raise. simpl.
      destruct (strategy_usage (stats s2) !! _); simpl; rewrite ?Henh; lia.
  - unfold _update_stats, mbind, M_bind, bind, get, put, raise. simpl.
    destruct (strategy_usage (stats s1) !! _); simpl; lia.
  - lia.
Qed.
End totality.
End OrchestratorTotality.

(** ** Orchestrator: failure handling of [process_query] *)
Module OrchestratorFallback.
Import Py Orchestrator.

Definition run_failing (fuel : nat) (config : PipelineConfig)
    : result PipelineResult * OState :=
  process_query Scenarios.tick_clock Scenarios.plain_format
    Scenarios.failing_executor Scenarios.failing_executor
    Scenarios.failing_executor Scenarios.failing_consensus_mix
    fuel "What is VO2 max?" None (Some config) initial_state.

(** C1 at the failing input: with the chain pinned, the mixture of experts
    configured as fallback and every component failing, one call of
    [process_query] runs three strategies in turn (the chain, the configured
    fallback, and then the ensemble, which is the fallback of the
    configuration built for the recursive call), records three queries in
    the statistics, and returns the error result of the innermost call. *)
Theorem process_query_runs_two_fallbacks :
  exists (r : PipelineResult) (s : OState),
    run_failing 3 Scenarios.chain_with_moe_fallback = (Done r, s) /\
    calls s = [CallChain; CallMoE; CallEnsemble] /\
    total_queries (stats s) = 3 /\
    strategy_used r = ENSEMBLE /\
    (confidence r == 0)%Q /\
    metadata r !! "error" = Some (VStr "backend unavailable").
Proof.
  do 2 eexists. split; [vm_compute; reflexivity|].
  by vm_compute.
Qed.
End OrchestratorFallback.

(* ================================================================== *)
(** * Part III: further properties of the code *)
(* ================================================================== *)

(** ** Ordered dictionaries: keys and deletion *)
Module OdictKeys.
Import Py.

Lemma od_get_none {V} (k : string) (d : odict V) :
  od_get k d = None <-> k ∉ od_keys d.
Proof.
  unfold od_keys. induction d as [|[k' v'] d IH]; simpl.
  - split; [intros _; apply not_elem_of_nil|done].
  - rewrite not_elem_of_cons.
    destruct (decide (k = k')) as [->|Hne]; [split; [done|by intros [? _]]|].
    rewrite IH. tauto.
Qed.

Lemma od_mem_keys {V} (k : string) (d : odict V) :
  od_mem k d = true <-> k ∈ od_keys d.
Proof.
  unfold od_mem. destruct (od_get k d) eqn:Hget.
  - split; [intros _|done].
    destruct (decide (k ∈ od_keys d)) as [|Hn]; [done|].
    apply od_get_none in Hn. congruence.
  - split; [done|]. intros Hin. by apply od_get_none in Hget.
Qed.

Lemma od_mem_same_keys {V W} (k : string) (d : odict V) (d' : odict W) :
  od_keys d = od_keys d' -> od_mem k d = od_mem k d'.
Proof.
  intros Hkeys.
  destruct (od_mem k d) eqn:H1; destruct (od_mem k d') eqn:H2; try done.
  - apply od_mem_keys in H1. rewrite Hkeys in H1. apply od_mem_keys in H1.
    congruence.
  - apply od_mem_keys in H2. rewrite <- Hkeys in H2. apply od_mem_keys in H2.
    congruence.
Qed.

Lemma od_keys_set {V} (k : string) (v : V) (d : odict V) :
  od_keys (od_set k v d) = if od_mem k d then od_keys d else od_keys d ++ [k].
Proof.
  destruct (od_mem k d) eqn:Hmem.
  - by apply OdictFacts.od_keys_set_mem.
  - by apply OdictFacts.od_keys_set_fresh.
Qed.

Lemma od_keys_set_NoDup {V} (k : string) (v : V) (d : odict V) :
  NoDup (od_keys d) -> NoDup (od_keys (od_set k v d)).
Proof.
  intros Hnd. rewrite od_keys_set. destruct (od_mem k d) eqn:Hmem; [done|].
  apply NoDup_app. split; [done|]. split; [|apply NoDup_singleton].
  intros x Hx Hk. apply list_elem_of_singleton in Hk as ->.
  apply od_mem_keys in Hx. congruence.
Qed.

Lemma od_get_del_ne {V} (k k' : string) (d : odict V) :
  k <> k' -> od_get k' (od_del k d) = od_get k' d.
Proof.
  intros Hne. induction d as [|[k0 v0] d IH]; simpl; [done|].
  destruct (decide (k = k0)) as [->|Hk]; simpl.
  - by destruct (decide (k' = k0)); [congruence|].
  - by destruct (decide (k' = k0)).
Qed.

(** Deleting a key removes it from the keys and keeps the others in order. *)
Lemma od_keys_del {V} (k : string) (d : odict V) :
  NoDup (od_keys d) ->
  od_keys (od_del k d)
  = List.filter (fun n => negb (bool_decide (n = k))) (od_keys d).
Proof.
  unfold od_keys. induction d as [|[k0 v0] d IH]; simpl; [done|].
  intros Hnd. apply NoDup_cons in Hnd as [Hk0 Hnd].
  destruct (decide (k = k0)) as [->|Hk]; simpl.
  - rewrite bool_decide_eq_true_2 by done. simpl.
    symmetry. apply forallb_filter_id, forallb_forall.
    intros x Hx. apply negb_true_iff, bool_decide_eq_false_2.
    intros ->. by apply Hk0, list_elem_of_In.
  - rewrite bool_decide_eq_false_2 by congruence. simpl. f_equal. by apply IH.
Qed.

Lemma od_keys_del_NoDup {V} (k : string) (d : odict V) :
  NoDup (od_keys d) -> NoDup (od_keys (od_del k d)).
Proof.
  intros Hnd. rewrite od_keys_del by done.
  induction Hnd as [|x l Hx Hnd IH]; simpl; [constructor|].
  destruct (negb (bool_decide (x = k))); [|done].
  constructor; [|done].
  intros Hin. apply Hx.
  apply list_elem_of_In, filter_In in Hin as [Hin _]. by apply list_elem_of_In.
Qed.

Lemma od_get_del_eq {V} (k : string) (d : odict V) :
  NoDup (od_keys d) -> od_get k (od_del k d) = None.
Proof.
  intros Hnd. apply od_get_none. rewrite od_keys_del by done.
  intros Hin. apply list_elem_of_In, filter_In in Hin as [_ Hk].
  by rewrite bool_decide_eq_true_2 in Hk.
Qed.
Lemma od_set_fresh {V} (k : string) (v : V) (d : odict V) :
  od_mem k d = false -> od_set k v d = d ++ [(k, v)].
Proof.
  unfold od_mem. induction d as [|[k' v'] d IH]; simpl; [done|].
  destruct (decide (k = k')) as [->|Hne]; [done|].
  intros H. f_equal. by apply IH.
Qed.

Lemma od_get_elem {V} (k : string) (v : V) (d : odict V) :
  od_get k d = Some v -> (k, v) ∈ d.
Proof.
  induction d as [|[k' v'] d IH]; simpl; [done|].
  destruct (decide (k = k')) as [->|Hne].
  - intros [= ->]. apply list_elem_of_here.
  - intros H. apply list_elem_of_further. by apply IH.
Qed.

Lemma od_get_NoDup_elem {V} (k : string) (v : V) (d : odict V) :
  NoDup (od_keys d) -> (k, v) ∈ d -> od_get k d = Some v.
Proof.
  unfold od_keys. induction d as [|[k' v'] d IH]; simpl.
  - intros _ H. by apply elem_of_nil in H.
  - intros Hnd Hin. apply NoDup_cons in Hnd as [Hk' Hnd].
    apply elem_of_cons in Hin as [[= -> ->]|Hin].
    + by rewrite decide_True.
    + destruct (decide (k = k')) as [->|Hne]; [|by apply IH].
      exfalso. apply Hk'. apply list_elem_of_fmap. by exists (k', v).
Qed.
End OdictKeys.

(** ** The registry over its whole life *)
Module RegistryLifecycle.
Import Py Models Registry OdictKeys.

(** What holds of a registry that was only ever changed through its own
    methods: the names are unique, the two dictionaries list the same names
    in the same order, and under every name the configuration carries that
    name and a supported engine, the model being the one built from it. *)
Definition coherent (r : ModelRegistry) : Prop :=
  NoDup (list_models r) /\
  od_keys (configs r) = list_models r /\
  forall name config,
    od_get name (configs r) = Some config ->
    Models.name config = name /\
    exists cls,
      engine_map (Models.engine config) = Some cls /\
      od_get name (models r) = Some (EngineModel cls config).

(** The calls that change a registry. *)
Inductive op :=
| AddModel (name engine model_name : string) (api_key base_url : option string)
    (temperature : Q) (max_tokens timeout : Z) (kwargs : list (string * pyval))
| RemoveModel (name : string)
| Clear.

Definition apply_op (B : Backend) (o : op) : M ModelRegistry unit :=
  match o with
  | AddModel name engine model_name api_key base_url temperature max_tokens
      timeout kwargs =>
      add_model B name engine model_name api_key base_url temperature
        max_tokens timeout kwargs
  | RemoveModel name => remove_model name
  | Clear => clear
  end.

(** The registry after a sequence of calls, each of which may have raised. *)
Definition after (B : Backend) (ops : list op) (r : ModelRegistry)
    : ModelRegistry :=
  fold_left (fun r o => snd (apply_op B o r)) ops r.

Lemma coherent_empty : coherent empty.
Proof. split; [constructor|]. split; [done|]. intros name config H. done. Qed.

Lemma coherent_add_model (B : Backend) (r : ModelRegistry)
    (name engine model_name : string) (api_key base_url : option string)
    (temperature : Q) (max_tokens timeout : Z) (kwargs : list (string * pyval)) :
  coherent r ->
  coherent (snd (add_model B name engine model_name api_key base_url
                   temperature max_tokens timeout kwargs r)).
Proof.
  intros (Hnd & Hkeys & Hcfg).
  unfold add_model, try_except, mbind, M_bind, bind, lift, modify, create_model.
  simpl.
  destruct (engine_map engine) as [cls|] eqn:Hengine; simpl; [|done].
  destruct (construct_outcome B cls _); simpl; [done|].
  split; [|split].
  - by apply od_keys_set_NoDup.
  - unfold list_models in *. simpl. rewrite !od_keys_set, Hkeys.
    by rewrite (od_mem_same_keys name (configs r) (models r)).
  - simpl. intros name' config'.
    destruct (decide (name = name')) as [<-|Hne].
    + rewrite !OdictFacts.od_get_set_eq. intros [= <-]. simpl.
      split; [done|]. by exists cls.
    + rewrite !OdictFacts.od_get_set_ne by done. apply Hcfg.
Qed.

Lemma coherent_remove_model (r : ModelRegistry) (name : string) :
  coherent r -> coherent (snd (remove_model name r)).
Proof.
  intros (Hnd & Hkeys & Hcfg).
  unfold remove_model, mbind, M_bind, bind, Py.get, put, raise. simpl.
  destruct (od_mem name (models r)) eqn:Hmem; simpl; [|done].
  rewrite (od_mem_same_keys name (configs r) (models r) Hkeys), Hmem. simpl.
  assert (Hndc : NoDup (od_keys (configs r))) by by rewrite Hkeys.
  split; [|split].
  - by apply od_keys_del_NoDup.
  - unfold list_models in *. simpl. rewrite !od_keys_del by done.
    by rewrite Hkeys.
  - simpl. intros name' config'.
    destruct (decide (name = name')) as [<-|Hne].
    + by rewrite od_get_del_eq.
    + rewrite !od_get_del_ne by done. apply Hcfg.
Qed.

Lemma coherent_apply_op (B : Backend) (o : op) (r : ModelRegistry) :
  coherent r -> coherent (snd (apply_op B o r)).
Proof.
  destruct o; simpl.
  - apply coherent_add_model.
  - apply coherent_remove_model.
  - intros _. apply coherent_empty.
Qed.

(** X1: a registry that starts empty and is changed only by [add_model],
    [remove_model] and [clear], in any number and order and whether or not
    the calls raise, keeps its names unique, keeps [models] and [configs] on
    the same names in the same order, and holds under every name a
    configuration with that name and a supported engine together with the
    model built from that configuration. *)
Theorem registry_stays_coherent (B : Backend) (ops : list op) :
  coherent (after B ops empty).
Proof.
  unfold after. generalize coherent_empty. generalize empty.
  induction ops as [|o ops IH]; intros r Hr; simpl; [done|].
  by apply IH, coherent_apply_op.
Qed.

(** X2: [remove_model] of a name that is not registered raises [KeyError]
    and leaves the registry as it was. For a registered name the model is
    removed: [get] of that name raises [KeyError] afterwards, every other
    name is looked up as before and the remaining names keep their order.
    The call returns when the name has a configuration, which is removed
    too; when it has none (a registry filled from a dictionary of models)
    the call raises [KeyError(name)] after the model was removed, and the
    configurations stay as they were. *)
Theorem remove_model_forgets (r : ModelRegistry) (name : string) :
  NoDup (list_models r) ->
  if contains r name
  then
    (if od_mem name (configs r)
     then fst (remove_model name r) = Done tt /\
          configs (snd (remove_model name r)) = od_del name (configs r)
     else fst (remove_model name r) = Raise (key_error name) /\
          configs (snd (remove_model name r)) = configs r) /\
    Registry.get (snd (remove_model name r)) name
    = Raise (key_error ("Model '" +:+ name +:+ "' not found in registry")) /\
    contains (snd (remove_model name r)) name = false /\
    (forall other, other <> name ->
       Registry.get (snd (remove_model name r)) other = Registry.get r other) /\
    list_models (snd (remove_model name r))
    = List.filter (fun n => negb (bool_decide (n = name))) (list_models r)
  else
    remove_model name r
    = (Raise (key_error ("Model '" +:+ name +:+ "' not found in registry")), r).
Proof.
  intros Hnd. unfold contains, remove_model, mbind, M_bind, bind, Py.get, put,
    raise. simpl.
  destruct (od_mem name (models r)) eqn:Hmem; simpl; [|done].
  unfold Registry.get, list_models in *.
  destruct (od_mem name (configs r)); simpl; unfold od_mem;
    rewrite od_get_del_eq by done.
  - repeat split.
    + intros other Hne. by rewrite od_get_del_ne.
    + by apply od_keys_del.
  - repeat split.
    + intros other Hne. by rewrite od_get_del_ne.
    + by apply od_keys_del.
Qed.

Lemma remove_model_forgets_witness :
  NoDup (list_models Scenarios.registry_with_nutrition) /\
  remove_model "nutrition" Scenarios.registry_with_nutrition
  = (Done tt, Registry.empty) /\
  NoDup (list_models Scenarios.one_expert_registry) /\
  remove_model "physiology" Scenarios.one_expert_registry
  = (Raise (key_error "physiology"), Registry.empty) /\
  Registry.get
    (snd (remove_model "physiology" Scenarios.one_expert_registry))
    "physiology"
  = Raise (key_error "Model 'physiology' not found in registry").
Proof.
  assert (Hnd : NoDup (list_models Scenarios.registry_with_nutrition))
    by apply NoDup_singleton.
  assert (Hnd' : NoDup (list_models Scenarios.one_expert_registry))
    by apply NoDup_singleton.
  split; [exact Hnd|]. split; [reflexivity|].
  split; [exact Hnd'|]. split; [reflexivity|].
  pose proof (remove_model_forgets Scenarios.one_expert_registry
                "physiology" Hnd') as H.
  change (contains Scenarios.one_expert_registry "physiology") with true in H.
  destruct H as (_ & H & _). exact H.
Defined.

(** X3: when the model can be created, [add_model] returns and the registry
    then answers [get] and [get_config] for the name with the new model and
    its configuration; every other name is looked up as before; a name that
    was not registered is appended to [list_models], which grows by one. *)
Theorem add_model_registers (B : Backend) (r : ModelRegistry)
    (name engine model_name : string) (api_key base_url : option string)
    (temperature : Q) (max_tokens timeout : Z) (kwargs : list (string * pyval))
    (model : Model) :
  create_model B
    (mk_model_config name engine model_name api_key base_url temperature
       max_tokens timeout kwargs)
  = Done model ->
  fst (add_model B name engine model_name api_key base_url temperature
         max_tokens timeout kwargs r) = Done tt /\
  Registry.get
    (snd (add_model B name engine model_name api_key base_url temperature
            max_tokens timeout kwargs r)) name = Done model /\
  get_config
    (snd (add_model B name engine model_name api_key base_url temperature
            max_tokens timeout kwargs r)) name
  = Done (mk_model_config name engine model_name api_key base_url temperature
            max_tokens timeout kwargs) /\
  (forall other, other <> name ->
     Registry.get
       (snd (add_model B name engine model_name api_key base_url temperature
               max_tokens timeout kwargs r)) other = Registry.get r other /\
     get_config
       (snd (add_model B name engine model_name api_key base_url temperature
               max_tokens timeout kwargs r)) other = get_config r other) /\
  (contains r name = false ->
     list_models
       (snd (add_model B name engine model_name api_key base_url temperature
               max_tokens timeout kwargs r)) = list_models r ++ [name] /\
     len (snd (add_model B name engine model_name api_key base_url temperature
                 max_tokens timeout kwargs r)) = S (len r)).
Proof.
  intros Hcreate.
  unfold add_model, try_except, mbind, M_bind, bind, lift, modify.
  rewrite Hcreate. simpl.
  unfold Registry.get, get_config, list_models, len, od_len, contains. simpl.
  rewrite !OdictFacts.od_get_set_eq.
  split; [done|]. split; [done|]. split; [done|]. split.
  - intros other Hne. by rewrite !OdictFacts.od_get_set_ne.
  - intros Hfresh.
    assert (Hkeys := OdictFacts.od_keys_set_fresh name model (models r) Hfresh).
    split; [done|].
    unfold od_keys in Hkeys.
    rewrite <- (length_map fst (od_set name model (models r))), Hkeys.
    rewrite length_app, length_map. simpl. lia.
Qed.

Lemma add_model_registers_witness :
  create_model Scenarios.healthy_backend
    (mk_model_config "physiology" "ollama" "llama2" None None (7 # 10) 1000 30 [])
  = Done (EngineModel OllamaModel
            (mk_model_config "physiology" "ollama" "llama2" None None (7 # 10)
               1000 30 [])) /\
  list_models
    (snd (add_model Scenarios.healthy_backend "physiology" "ollama" "llama2"
            None None (7 # 10) 1000 30 [] Scenarios.registry_with_nutrition))
  = ["nutrition"; "physiology"].
Proof.
  split; [reflexivity|].
  pose proof (add_model_registers Scenarios.healthy_backend
                Scenarios.registry_with_nutrition "physiology" "ollama"
                "llama2" None None (7 # 10) 1000 30 [] _ eq_refl) as H.
  destruct H as (_ & _ & _ & _ & H).
  destruct (H eq_refl) as [Hlist _]. exact Hlist.
Defined.

(** X4: [add_model] with an engine other than "ollama", "openai",
    "anthropic" and "huggingface" raises [ValueError] naming the engine and
    registers nothing, whether or not the name was registered before. *)
Theorem add_model_rejects_unknown_engine (B : Backend) (r : ModelRegistry)
    (name engine model_name : string) (api_key base_url : option string)
    (temperature : Q) (max_tokens timeout : Z) (kwargs : list (string * pyval)) :
  engine ∉ ["ollama"; "openai"; "anthropic"; "huggingface"] ->
  add_model B name engine model_name api_key base_url temperature max_tokens
    timeout kwargs r
  = (Raise (value_error ("Unsupported engine: " +:+ engine)), r).
Proof.
  intros Hengine. rewrite !not_elem_of_cons in Hengine.
  destruct Hengine as (H1 & H2 & H3 & H4 & _).
  unfold add_model, try_except, mbind, M_bind, bind, lift, create_model,
    engine_map. simpl.
  by rewrite !decide_False.
Qed.

Lemma add_model_rejects_unknown_engine_witness :
  ("custom" ∉ ["ollama"; "openai"; "anthropic"; "huggingface"]) /\
  add_model Scenarios.healthy_backend "nutrition" "custom" "gpt-4" None None
    (7 # 10) 1000 30 [] Scenarios.registry_with_nutrition
  = (Raise (value_error "Unsupported engine: custom"),
     Scenarios.registry_with_nutrition).
Proof.
  assert (H : "custom" ∉ ["ollama"; "openai"; "anthropic"; "huggingface"])
    by (apply (bool_decide_unpack _); vm_compute; reflexivity).
  split; [exact H|].
  exact (add_model_rejects_unknown_engine Scenarios.healthy_backend
           Scenarios.registry_with_nutrition "nutrition" "custom" "gpt-4"
           None None (7 # 10) 1000 30 [] H).
Defined.

(** The outcomes of the probes of [items], the first of which is made when
    the trace holds [n] events; a probe that raises counts as [False]. *)
Fixpoint probed (B : Backend) (n : nat) (items : list (string * Model))
    : list (string * bool) :=
  match items with
  | [] => []
  | (name, model) :: rest =>
      (name,
       match is_available_outcome B n model with
       | Done a => a
       | _ => false
       end) :: probed B (S n) rest
  end.

Lemma check_availability_loop_probed {O} (B : Backend)
    (items : list (string * Model)) (acc : odict bool) (w : World O) :
  (forall n m, is_available_outcome B n m <> Hang) ->
  NoDup (od_keys acc ++ od_keys items) ->
  check_availability_loop B items acc w
  = (Done (acc ++ probed B (length (trace w)) items),
     mk_world (trace w ++ map (fun nm => EvIsAvailable (snd nm)) items) (self w)).
Proof.
  intros Hends. revert acc w.
  induction items as [|[name model] rest IH]; intros acc w Hnd.
  - simpl. rewrite !app_nil_r. by destruct w.
  - cbn [check_availability_loop probed map snd].
    assert (Hfresh : od_mem name acc = false).
    { destruct (od_mem name acc) eqn:Hmem; [|done].
      apply od_mem_keys in Hmem. apply NoDup_app in Hnd as (_ & Hdisj & _).
      exfalso. apply (Hdisj name Hmem). apply list_elem_of_here. }
    assert (Hnd' : forall a,
               NoDup (od_keys (acc ++ [(name, a)]) ++ od_keys rest)).
    { intros a. unfold od_keys in *. rewrite map_app. simpl.
      by rewrite <- app_assoc. }
    unfold mbind, M_bind, bind, try_except, is_available, external.
    specialize (Hends (length (trace w)) model).
    destruct (is_available_outcome B (length (trace w)) model) as [a|e|];
      [| |done]; simpl; rewrite od_set_fresh by done;
      rewrite IH by apply Hnd'; simpl;
      rewrite length_app, Nat.add_1_r, <- !app_assoc; done.
Qed.

(** X5: when no availability probe hangs, [get_available_models] returns,
    raises nothing, and lists in registration order exactly the names whose
    probe answered [True]: a probe that raises counts as unavailable. It
    probes every registered model once, in order, and does nothing else. *)
Theorem get_available_models_lists_answering {O} (B : Backend)
    (r : ModelRegistry) (w : World O) :
  NoDup (list_models r) ->
  (forall n m, is_available_outcome B n m <> Hang) ->
  get_available_models B r w
  = (Done (map fst (List.filter snd (probed B (length (trace w)) (models r)))),
     mk_world (trace w ++ map (fun nm => EvIsAvailable (snd nm)) (models r))
       (self w)).
Proof.
  intros Hnd Hends.
  unfold get_available_models, check_availability, mbind, M_bind, bind.
  by rewrite check_availability_loop_probed.
Qed.

Lemma get_available_models_lists_answering_witness :
  NoDup (list_models Scenarios.two_expert_registry) /\
  (forall n m, is_available_outcome Scenarios.healthy_backend n m <> Hang) /\
  fst (get_available_models Scenarios.healthy_backend
         Scenarios.two_expert_registry
         (Scenarios.fresh Ensemble.initial_stats))
  = Done ["physiology"; "nutrition"].
Proof.
  assert (Hnd : NoDup (list_models Scenarios.two_expert_registry))
    by (apply (bool_decide_unpack _); vm_compute; reflexivity).
  assert (Hends : forall n m,
             is_available_outcome Scenarios.healthy_backend n m <> Hang)
    by (intros n m; simpl; discriminate).
  split; [exact Hnd|]. split; [exact Hends|].
  by rewrite (get_available_models_lists_answering Scenarios.healthy_backend
                Scenarios.two_expert_registry
                (Scenarios.fresh Ensemble.initial_stats) Hnd Hends).
Defined.

(** X6: in a registry that was only changed through its own methods,
    [get_models_by_engine] lists exactly the registered names whose model
    was built for that engine. *)
Theorem get_models_by_engine_lists_engine_models (r : ModelRegistry)
    (engine name : string) :
  coherent r ->
  name ∈ get_models_by_engine r engine <->
  exists cls config,
    Registry.get r name = Done (EngineModel cls config) /\
    Models.engine config = engine.
Proof.
  intros (Hnd & Hkeys & Hcfg). unfold get_models_by_engine, Registry.get.
  assert (Hndc : NoDup (od_keys (configs r))) by by rewrite Hkeys.
  split.
  - intros Hin. apply list_elem_of_fmap in Hin as ([n config] & -> & Hin).
    apply list_elem_of_In, filter_In in Hin as [Hin Heng].
    apply bool_decide_eq_true in Heng. simpl in *.
    apply list_elem_of_In, od_get_NoDup_elem in Hin; [|done].
    destruct (Hcfg _ _ Hin) as (_ & cls & _ & Hmodel).
    exists cls, config. by rewrite Hmodel.
  - intros (cls & config & Hget & Heng).
    destruct (od_get name (models r)) as [m|] eqn:Hmodel; [|done].
    injection Hget as ->.
    assert (Hmem : od_mem name (configs r) = true).
    { rewrite (od_mem_same_keys name (configs r) (models r)) by done.
      unfold od_mem. by rewrite Hmodel. }
    unfold od_mem in Hmem.
    destruct (od_get name (configs r)) as [config'|] eqn:Hconfig; [|done].
    destruct (Hcfg _ _ Hconfig) as (_ & cls' & _ & Hmodel').
    rewrite Hmodel in Hmodel'. injection Hmodel' as -> ->.
    apply list_elem_of_fmap. exists (name, config'). split; [done|].
    apply list_elem_of_In, filter_In. split.
    + by apply list_elem_of_In, od_get_elem.
    + by apply bool_decide_eq_true.
Qed.

Lemma get_models_by_engine_lists_engine_models_witness :
  coherent Scenarios.registry_with_nutrition /\
  "nutrition" ∈ get_models_by_engine Scenarios.registry_with_nutrition "openai".
Proof.
  assert (H : coherent Scenarios.registry_with_nutrition).
  { exact (coherent_add_model Scenarios.healthy_backend empty "nutrition"
             "openai" "gpt-4" None None (7 # 10) 1000 30 [] coherent_empty). }
  split; [exact H|].
  apply (get_models_by_engine_lists_engine_models
           Scenarios.registry_with_nutrition "openai" "nutrition" H).
  by eexists _, _.
Defined.
End RegistryLifecycle.

(** ** Strings: append, length and join *)
Module StringFacts.

Lemma append_assoc (s t u : string) : (s +:+ t) +:+ u = s +:+ (t +:+ u).
Proof.
  induction s as [|c s IH]; [done|].
  change (String c ((s +:+ t) +:+ u) = String c (s +:+ (t +:+ u))).
  by f_equal.
Qed.

Lemma append_nil_r (s : string) : s +:+ "" = s.
Proof.
  induction s as [|c s IH]; [done|].
  change (String c (s +:+ "") = String c s). by f_equal.
Qed.

Lemma len_append (s t : string) :
  PyStr.len (s +:+ t) = (PyStr.len s + PyStr.len t)%nat.
Proof.
  unfold PyStr.len. induction s as [|c s IH]; simpl; [done|by rewrite IH].
Qed.

Lemma len_take (n : nat) (s : string) :
  PyStr.len (PyStr.take n s) = Nat.min n (PyStr.len s).
Proof.
  unfold PyStr.len, PyStr.take. revert n.
  induction s as [|c s IH]; intros [|n]; simpl; try done.
  f_equal. apply IH.
Qed.

Lemma join_cons (sep x : string) (l : list string) :
  l <> [] -> PyStr.join sep (x :: l) = x +:+ sep +:+ PyStr.join sep l.
Proof. by destruct l. Qed.

Lemma join_app (sep : string) (l1 l2 : list string) :
  l1 <> [] -> l2 <> [] ->
  PyStr.join sep (l1 ++ l2)
  = PyStr.join sep l1 +:+ sep +:+ PyStr.join sep l2.
Proof.
  intros H1 H2. induction l1 as [|x l1 IH]; [done|].
  destruct l1 as [|y l1].
  - simpl app. by rewrite join_cons.
  - change ((x :: y :: l1) ++ l2) with (x :: ((y :: l1) ++ l2)).
    rewrite join_cons by done. rewrite IH by done.
    rewrite (join_cons sep x (y :: l1)) by done.
    by rewrite !append_assoc.
Qed.
End StringFacts.

(** ** Mixers: truncation and segmentation *)
Module MixerText.
Import Py Models Mixers StringFacts.

(** X7: for a limit of at least 10 characters, what [_truncate_responses]
    returns is never longer than the limit; a text that fits is returned
    as it is. *)
Theorem truncate_responses_fits (formatted_responses : string) (max_length : Z) :
  (10 <= max_length)%Z ->
  (Z.of_nat (PyStr.len (_truncate_responses formatted_responses max_length))
   <= max_length)%Z /\
  ((Z.of_nat (PyStr.len formatted_responses) <= max_length)%Z ->
   _truncate_responses formatted_responses max_length = formatted_responses).
Proof.
  intros Hmax. unfold _truncate_responses.
  destruct (Z.of_nat (PyStr.len formatted_responses) <=? max_length)%Z eqn:Hfits.
  - split; [by apply Z.leb_le|done].
  - apply Z.leb_gt in Hfits. split; [|lia].
    unfold PyStr.slice_to.
    destruct (0 <=? max_length - 10)%Z eqn:Hpos; [|apply Z.leb_gt in Hpos; lia].
    rewrite len_append, len_take.
    change (PyStr.len (String "010" (String "010" "[...]"))) with 7%nat.
    lia.
Qed.

Lemma truncate_responses_fits_witness :
  (10 <= 100)%Z /\
  (Z.of_nat (PyStr.len (_truncate_responses Scenarios.long_text 100)) <= 100)%Z.
Proof.
  assert (H : (10 <= 100)%Z) by lia.
  split; [exact H|].
  exact (proj1 (truncate_responses_fits Scenarios.long_text 100 H)).
Defined.

Lemma split_segments_loop_nonempty (segment_length : Z) (words : list string)
    (current_segment : list string) (current_length : Z) :
  current_segment <> [] \/ words <> [] ->
  split_segments_loop segment_length words current_segment current_length <> [].
Proof.
  revert current_segment current_length.
  induction words as [|word rest IH]; intros cur len Hne; simpl.
  - destruct Hne as [Hne|Hne]; [|done]. by destruct cur.
  - destruct (_ <=? _)%Z.
    + apply IH. left. by destruct cur.
    + intros Happ. apply app_eq_nil in Happ as [_ Hrest].
      revert Hrest. apply IH. by left.
Qed.

Lemma split_segments_loop_join (segment_length : Z) (words : list string)
    (current_segment : list string) (current_length : Z) :
  PyStr.join " "
    (split_segments_loop segment_length words current_segment current_length)
  = PyStr.join " " (current_segment ++ words).
Proof.
  revert current_segment current_length.
  induction words as [|word rest IH]; intros cur len;
    cbn [split_segments_loop].
  - rewrite app_nil_r. by destruct cur.
  - destruct (_ <=? _)%Z.
    + rewrite IH. by rewrite <- app_assoc.
    + destruct cur as [|c cur].
      * change (flush []) with (@nil string). simpl app. by rewrite IH.
      * change (flush (c :: cur)) with [PyStr.join " " (c :: cur)].
        change ([PyStr.join " " (c :: cur)] ++ ?l)
          with (PyStr.join " " (c :: cur) :: l).
        rewrite join_cons
          by (apply split_segments_loop_nonempty; by left).
        rewrite IH. change ([word] ++ rest) with (word :: rest).
        by rewrite (join_app " " (c :: cur) (word :: rest)).
Qed.

(** X8: [_split_into_segments] loses and reorders nothing: joining its
    segments with single spaces gives the words of the text joined with
    single spaces, whatever the segment length. *)
Theorem split_into_segments_keeps_words (text : string) (segment_length : Z) :
  PyStr.join " " (_split_into_segments text segment_length)
  = PyStr.join " " (PyStr.split text).
Proof.
  unfold _split_into_segments. by rewrite split_segments_loop_join.
Qed.
End MixerText.

(** ** Maxima and descending order *)
Module OrderFacts.
Import Py.

Lemma Qgtb_true (a b : Q) : Qgtb a b = true -> (b < a)%Q.
Proof.
  unfold Qgtb. intros H. apply negb_true_iff in H.
  apply Qnot_le_lt. intros Hle. apply Qle_bool_iff in Hle. congruence.
Qed.

Lemma Qgtb_false (a b : Q) : Qgtb a b = false -> (a <= b)%Q.
Proof.
  unfold Qgtb. intros H. apply negb_false_iff in H. by apply Qle_bool_iff.
Qed.

Lemma max_by_fold {A} (key : A -> Q) (l : list A) (best : A) :
  (fold_left (fun best y => if Qgtb (key y) (key best) then y else best) l best
   = best \/
   fold_left (fun best y => if Qgtb (key y) (key best) then y else best) l best
   ∈ l) /\
  (key best
   <= key (fold_left (fun best y => if Qgtb (key y) (key best) then y else best)
             l best))%Q /\
  forall x, x ∈ l ->
    (key x
     <= key (fold_left (fun best y => if Qgtb (key y) (key best) then y else best)
               l best))%Q.
Proof.
  revert best. induction l as [|y l IH]; intros best; simpl.
  - split; [by left|]. split; [apply Qle_refl|].
    intros x Hx. by apply elem_of_nil in Hx.
  - destruct (Qgtb (key y) (key best)) eqn:Hgt.
    + destruct (IH y) as (Hin & Hle & Hall). apply Qgtb_true in Hgt.
      split; [right; destruct Hin as [->|Hin];
              [apply list_elem_of_here|by apply list_elem_of_further]|].
      split; [eapply Qle_trans; [apply Qlt_le_weak, Hgt|apply Hle]|].
      intros x Hx. apply elem_of_cons in Hx as [->|Hx]; [done|by apply Hall].
    + destruct (IH best) as (Hin & Hle & Hall). apply Qgtb_false in Hgt.
      split; [destruct Hin as [->|Hin];
              [by left|right; by apply list_elem_of_further]|].
      split; [done|].
      intros x Hx. apply elem_of_cons in Hx as [->|Hx]; [|by apply Hall].
      eapply Qle_trans; [apply Hgt|apply Hle].
Qed.

(** [max(l, key=key)] is an element of [l] that no element exceeds. *)
Lemma max_by_spec {A} (key : A -> Q) (l : list A) (b : A) :
  max_by key l = Some b ->
  b ∈ l /\ forall x, x ∈ l -> (key x <= key b)%Q.
Proof.
  destruct l as [|x0 l]; [done|]. simpl. intros [= <-].
  destruct (max_by_fold key l x0) as (Hin & Hle & Hall).
  split.
  - destruct Hin as [->|Hin];
      [apply list_elem_of_here|by apply list_elem_of_further].
  - intros x Hx. apply elem_of_cons in Hx as [->|Hx]; [done|by apply Hall].
Qed.

(** A list whose keys never increase. *)
Fixpoint descending {A} (key : A -> Q) (l : list A) : Prop :=
  match l with
  | [] => True
  | x :: l' => Forall (fun y => key y <= key x)%Q l' /\ descending key l'
  end.

Lemma insert_desc_elem {A} (key : A -> Q) (x y : A) (l : list A) :
  y ∈ insert_desc key x l <-> y = x \/ y ∈ l.
Proof.
  induction l as [|z l IH]; simpl.
  - rewrite list_elem_of_singleton, elem_of_nil. tauto.
  - destruct (Qgtb (key z) (key x)); rewrite !elem_of_cons, ?IH; tauto.
Qed.

Lemma insert_desc_descending {A} (key : A -> Q) (x : A) (l : list A) :
  descending key l -> descending key (insert_desc key x l).
Proof.
  induction l as [|z l IH]; simpl; [done|].
  intros [Hall Hdesc].
  destruct (Qgtb (key z) (key x)) eqn:Hgt; simpl.
  - split; [|by apply IH].
    apply Forall_forall. intros y Hy. apply insert_desc_elem in Hy as [->|Hy].
    + apply Qlt_le_weak. by apply Qgtb_true.
    + rewrite Forall_forall in Hall. by apply Hall.
  - apply Qgtb_false in Hgt. split; [|done].
    constructor; [done|].
    eapply Forall_impl; [exact Hall|]. simpl. intros y Hy.
    by eapply Qle_trans.
Qed.

(** [sorted(l, key=key, reverse=True)] is in descending order. *)
Lemma sort_desc_descending {A} (key : A -> Q) (l : list A) :
  descending key (sort_desc key l).
Proof.
  induction l as [|x l IH]; simpl; [done|]. by apply insert_desc_descending.
Qed.

Lemma sort_desc_elem {A} (key : A -> Q) (x : A) (l : list A) :
  x ∈ sort_desc key l <-> x ∈ l.
Proof.
  induction l as [|y l IH]; simpl; [done|].
  rewrite insert_desc_elem, elem_of_cons, IH. tauto.
Qed.

Lemma descending_firstn {A} (key : A -> Q) (n : nat) (l : list A) :
  descending key l -> descending key (firstn n l).
Proof.
  revert n. induction l as [|x l IH]; intros [|n]; simpl; try done.
  intros [Hall Hdesc]. split; [|by apply IH].
  apply Forall_forall. intros y Hy. rewrite Forall_forall in Hall.
  apply Hall. by apply (subseteq_take n l).
Qed.

Lemma descending_filter {A} (key : A -> Q) (P : A -> bool) (l : list A) :
  descending key l -> descending key (List.filter P l).
Proof.
  induction l as [|x l IH]; simpl; [done|].
  intros [Hall Hdesc]. destruct (P x); simpl; [|by apply IH].
  split; [|by apply IH].
  apply Forall_forall. intros y Hy. rewrite Forall_forall in Hall.
  apply Hall. apply list_elem_of_In. apply list_elem_of_In, filter_In in Hy.
  tauto.
Qed.
End OrderFacts.

(** ** Mixers: which response is returned *)
Module MixerChoice.
Import Py Models Mixers OdictKeys OrderFacts.

Lemma od_get_value {V} (k : string) (v : V) (d : odict V) :
  od_get k d = Some v -> v ∈ od_values d.
Proof.
  intros H. apply od_get_elem in H. unfold od_values.
  apply list_elem_of_fmap. by exists (k, v).
Qed.

(** X9: [DefaultMixer.mix] of at least one response returns one of the
    responses and touches nothing. Without weights it is the first response.
    With weights, it is the response of a source whose weight no weighted
    source exceeds, or the first response when that source gave no
    response. *)
Theorem default_mixer_returns_top_weighted {O} (query source0 first : string)
    (rest : odict string) (weights : option (odict Q)) (w : World O) :
  exists r,
    DefaultMixer_mix query ((source0, first) :: rest) weights w = (Done r, w) /\
    r ∈ od_values ((source0, first) :: rest) /\
    (given weights = false -> r = first) /\
    (given weights = true ->
     exists best_source,
       best_source ∈ od_keys (weights_dict weights) /\
       (forall k, k ∈ od_keys (weights_dict weights) ->
          (weight_of weights k 0 <= weight_of weights best_source 0)%Q) /\
       r = od_get_default best_source first ((source0, first) :: rest)).
Proof.
  unfold DefaultMixer_mix.
  destruct (given weights) eqn:Hgiven; simpl negb; cbv iota.
  - destruct (max_by (fun k => weight_of weights k 0)
                (od_keys (weights_dict weights))) as [best|] eqn:Hmax.
    + apply max_by_spec in Hmax as [Hin Hmax].
      unfold od_get_default.
      destruct (od_get best ((source0, first) :: rest)) as [r|] eqn:Hget.
      * exists r. split; [done|]. split; [by eapply od_get_value|].
        split; [done|]. intros _. exists best. by rewrite Hget.
      * exists first. split; [done|]. split; [apply list_elem_of_here|].
        split; [done|]. intros _. exists best. by rewrite Hget.
    + destruct weights as [[|kv d]|]; done.
  - exists first. split; [done|]. split; [apply list_elem_of_here|].
    split; done.
Qed.

Lemma format_template_ends (args : string -> option string) (t : template) :
  format_template args t <> Hang.
Proof.
  induction t as [|[text|name] t IH]; simpl; [done| |].
  - by destruct (format_template args t).
  - destruct (args name); [|done]. by destruct (format_template args t).
Qed.

(** X10: when the synthesis model raises whenever it is asked,
    [SynthesisMixer.mix] of two or more responses raises nothing and returns
    what [ConcatenationMixer()] returns for the same responses and weights. *)
Theorem synthesis_mixer_falls_back {O} (format_pct : Q -> string) (B : Backend)
    (mixer : SynthesisMixer) (query : string) (r1 r2 : string * string)
    (rest : odict string) (weights : option (odict Q)) (w : World O) :
  (forall n prompt,
     exists e, generate_outcome B n (synthesis_model mixer) prompt = Raise e) ->
  fst (SynthesisMixer_mix format_pct B mixer query (r1 :: r2 :: rest) weights w)
  = fst (ConcatenationMixer_mix format_pct default_concatenation query
           (r1 :: r2 :: rest) weights w).
Proof.
  intros Hfail. destruct r1 as [source1 text1].
  unfold SynthesisMixer_mix, try_except, mbind, M_bind, bind, lift.
  destruct (format_template _ (prompt_template mixer)) as [prompt|e|] eqn:Hfmt.
  - unfold generate, external.
    destruct (Hfail (length (trace w)) prompt) as [e He]. by rewrite He.
  - done.
  - by apply format_template_ends in Hfmt.
Qed.

Lemma synthesis_mixer_falls_back_witness :
  (forall n prompt,
     exists e,
       generate_outcome Scenarios.summarizer_down n
         (Scenarios.expert "summarizer") prompt = Raise e) /\
  fst (SynthesisMixer_mix Scenarios.plain_percent Scenarios.summarizer_down
         (mk_synthesis (Scenarios.expert "summarizer")
            _default_prompt_template None)
         "How do I raise my VO2 max?"
         (("physiology", Scenarios.aerobic_point)
          :: ("nutrition", Scenarios.fuel_point) :: [])
         None (Scenarios.fresh tt))
  = fst (ConcatenationMixer_mix Scenarios.plain_percent default_concatenation
           "How do I raise my VO2 max?"
           (("physiology", Scenarios.aerobic_point)
            :: ("nutrition", Scenarios.fuel_point) :: [])
           None (Scenarios.fresh tt)).
Proof.
  assert (H : forall n prompt,
             exists e,
               generate_outcome Scenarios.summarizer_down n
                 (Scenarios.expert "summarizer") prompt = Raise e)
    by (intros n prompt; eexists; reflexivity).
  split; [exact H|].
  exact (synthesis_mixer_falls_back Scenarios.plain_percent
           Scenarios.summarizer_down
           (mk_synthesis (Scenarios.expert "summarizer")
              _default_prompt_template None)
           "How do I raise my VO2 max?"
           ("physiology", Scenarios.aerobic_point)
           ("nutrition", Scenarios.fuel_point) [] None (Scenarios.fresh tt) H).
Defined.
End MixerChoice.

(** ** The consensus mixer: where its points come from *)
Module MixerPoints.
Import Py Models Mixers OdictKeys OrderFacts.

(** [_extract_key_points] returns at most five points; each of them is
    longer than 20 characters and is a piece of the response between two
    full stops, stripped of surrounding white space. *)
Lemma extract_key_points_bounds (response : string) :
  (length (_extract_key_points response) <= 5)%nat /\
  Forall (fun point =>
            (20 < PyStr.len point)%nat /\
            exists piece,
              piece ∈ PyStr.split_on "." response /\
              point = PyStr.strip piece)
    (_extract_key_points response).
Proof.
  unfold _extract_key_points. split; [apply firstn_le_length|].
  apply Forall_forall. intros point Hpoint.
  apply (subseteq_take 5) in Hpoint.
  apply list_elem_of_In, filter_In in Hpoint as [Hin Hlong].
  split; [by apply Nat.ltb_lt|].
  apply in_map_iff in Hin as (piece & <- & Hin).
  apply filter_In in Hin as [Hin _].
  exists piece. split; [by apply list_elem_of_In|done].
Qed.

Lemma collect_group_elem (point1 : string) (later : list (nat * weighted))
    (group : list weighted) (used : list nat) (x : weighted) :
  x ∈ fst (collect_group point1 later group used) ->
  x ∈ group \/ x ∈ map snd later.
Proof.
  revert group used. induction later as [|[j p2] rest IH]; intros group used;
    simpl; [by left|].
  destruct (bool_decide (j ∈ used)).
  - intros H. apply IH in H as [H|H]; [by left|right].
    by apply list_elem_of_further.
  - destruct (_points_similar _ _ _).
    + intros H. apply IH in H as [H|H].
      * apply elem_of_app in H as [H|H]; [by left|right].
        apply list_elem_of_singleton in H as ->. apply list_elem_of_here.
      * right. by apply list_elem_of_further.
    + intros H. apply IH in H as [H|H]; [by left|right].
      by apply list_elem_of_further.
Qed.

Lemma collect_group_keeps (point1 : string) (later : list (nat * weighted))
    (group : list weighted) (used : list nat) (x : weighted) :
  x ∈ group -> x ∈ fst (collect_group point1 later group used).
Proof.
  revert group used. induction later as [|[j p2] rest IH]; intros group used;
    simpl; [done|].
  destruct (bool_decide (j ∈ used)); [apply IH|].
  destruct (_points_similar _ _ _); [|apply IH].
  intros H. apply IH. apply elem_of_app. by left.
Qed.

(** Every group holds the point it was opened for, and holds points of the
    list only. *)
Lemma point_groups_elem (points : list (nat * weighted)) (used : list nat)
    (group : list weighted) :
  group ∈ MixerConsensus.point_groups points used ->
  group <> [] /\ forall x, x ∈ group -> x ∈ map snd points.
Proof.
  revert used. induction points as [|[i p1] rest IH]; intros used; simpl.
  - intros H. by apply elem_of_nil in H.
  - destruct (bool_decide (i ∈ used)).
    + intros H. apply IH in H as [Hne Hsub]. split; [done|].
      intros x Hx. apply list_elem_of_further. by apply Hsub.
    + destruct (collect_group (w_text p1) rest [p1] (used ++ [i]))
        as [g used'] eqn:Hcollect.
      intros H. apply elem_of_cons in H as [->|H].
      * assert (Hg : g = fst (collect_group (w_text p1) rest [p1] (used ++ [i])))
          by by rewrite Hcollect.
        split.
        -- intros ->.
           assert (Hp1 : p1 ∈ fst (collect_group (w_text p1) rest [p1]
                                     (used ++ [i])))
             by apply collect_group_keeps, list_elem_of_here.
           rewrite <- Hg in Hp1. by apply elem_of_nil in Hp1.
        -- intros x Hx. rewrite Hg in Hx.
           apply collect_group_elem in Hx as [Hx|Hx].
           ++ apply list_elem_of_singleton in Hx as ->. apply list_elem_of_here.
           ++ by apply list_elem_of_further.
      * apply IH in H as [Hne Hsub]. split; [done|].
        intros x Hx. apply list_elem_of_further. by apply Hsub.
Qed.

Lemma best_point_elem (group : list weighted) :
  group <> [] -> exists x, x ∈ group /\ best_point group = w_text x.
Proof.
  intros Hne. unfold best_point.
  destruct (max_by w_weight group) as [p|] eqn:Hmax.
  - apply max_by_spec in Hmax as [Hin _]. by exists p.
  - by destruct group.
Qed.

Lemma enumerate_from_snd {A} (start : nat) (l : list A) :
  map snd (enumerate_from start l) = l.
Proof.
  revert start. induction l as [|x l IH]; intros start; simpl; [done|].
  by rewrite IH.
Qed.

Lemma all_points_elem (key_points : odict (list string)) (weights : odict Q)
    (x : weighted) :
  x ∈ all_points key_points weights ->
  exists source points, (source, points) ∈ key_points /\ w_text x ∈ points.
Proof.
  unfold all_points. intros H.
  apply list_elem_of_In, in_flat_map in H as ([source points] & Hsp & Hx).
  apply in_map_iff in Hx as (point & <- & Hpoint).
  exists source, points. split; by apply list_elem_of_In.
Qed.

(** X11: [_find_consensus] invents nothing: every consensus point it
    returns is one of the key points of one of the sources. *)
Theorem consensus_points_are_key_points (mixer : ConsensusBasedMixer)
    (key_points : odict (list string)) (weights : odict Q) :
  Forall (fun point =>
            exists source points,
              (source, points) ∈ key_points /\ point ∈ points)
    (_find_consensus mixer key_points weights).
Proof.
  unfold _find_consensus. rewrite MixerConsensus.consensus_loop_groups.
  simpl app. apply Forall_forall. intros point Hpoint.
  apply list_elem_of_In, in_map_iff in Hpoint as (group & <- & Hgroup).
  apply filter_In in Hgroup as [Hgroup _].
  apply list_elem_of_In, point_groups_elem in Hgroup as [Hne Hsub].
  destruct (best_point_elem group Hne) as (x & Hx & ->).
  apply Hsub in Hx. rewrite enumerate_from_snd in Hx.
  by apply all_points_elem in Hx.
Qed.

Lemma flat_map_length_le {A C} (f : A -> list C) (n : nat) (l : list A) :
  (forall x, length (f x) <= n)%nat ->
  (length (flat_map f l) <= n * length l)%nat.
Proof.
  intros Hf. induction l as [|x l IH]; simpl; [lia|].
  rewrite length_app. specialize (Hf x). lia.
Qed.

(** [_resolve_conflicts] returns at most four points, each among the
    first two key points of a source that has a weight; it returns none
    when the resolution method is not "weight_based". *)
Lemma resolve_conflicts_bounds (mixer : ConsensusBasedMixer)
    (key_points : odict (list string)) (weights : odict Q) :
  (length (_resolve_conflicts mixer key_points weights) <= 4)%nat /\
  Forall (fun point =>
            exists source weight points,
              (source, weight) ∈ weights /\
              od_get source key_points = Some points /\
              point ∈ firstn 2 points)
    (_resolve_conflicts mixer key_points weights) /\
  (conflict_resolution mixer <> "weight_based" ->
   _resolve_conflicts mixer key_points weights = []).
Proof.
  unfold _resolve_conflicts.
  destruct (decide (conflict_resolution mixer = "weight_based")) as [Heq|Hne];
    [|split; [simpl; lia|split; [constructor|done]]].
  split; [|split; [|done]].
  - etransitivity.
    + apply (flat_map_length_le _ 2). intros [source weight]. simpl.
      destruct (od_get source key_points); [apply firstn_le_length|simpl; lia].
    + pose proof (firstn_le_length 2 (sort_desc snd weights)). lia.
  - apply Forall_forall. intros point Hpoint.
    apply list_elem_of_In, in_flat_map in Hpoint as ([source weight] & Hsw & Hp).
    apply list_elem_of_In, (subseteq_take 2), sort_desc_elem in Hsw.
    simpl in Hp.
    destruct (od_get source key_points) as [points|] eqn:Hget; [|done].
    exists source, weight, points. split; [done|]. split; [done|].
    by apply list_elem_of_In.
Qed.
End MixerPoints.

(** ** The weighted mixer: sentence selection *)
Module MixerSentences.
Import Py Models Mixers OrderFacts.

(** The form in which a sentence is compared with the ones already used. *)
Definition normalized (sentence : string) : string :=
  PyStr.strip (PyStr.lower sentence).

(** The sentences that [_sentence_selection_combination] joins. *)
Definition selected_sentences (responses : odict string) (weights : odict Q)
    : list string :=
  select_sentences
    (sort_desc w_weight
       (flat_map
          (fun sr =>
             map (fun sentence =>
                    (sentence, od_get_default (fst sr) 0%Q weights, fst sr))
                 (_split_into_sentences (snd sr)))
          responses))
    [].

Lemma set_add_elem {A} `{EqDecision A} (x y : A) (s : list A) :
  y ∈ set_add x s <-> y = x \/ y ∈ s.
Proof.
  unfold set_add. destruct (bool_decide (x ∈ s)) eqn:Hx.
  - apply bool_decide_eq_true in Hx. split; [by right|]. by intros [->|].
  - rewrite elem_of_app, list_elem_of_singleton. tauto.
Qed.

Lemma select_sentences_spec (sentences : list weighted) (used : list string) :
  (forall s, s ∈ select_sentences sentences used ->
     (exists x, x ∈ sentences /\ s = w_text x) /\
     forall u, u ∈ used ->
       _sentences_similar (normalized s) u (7 # 10) = false) /\
  (forall i j si sj, (i < j)%nat ->
     select_sentences sentences used !! i = Some si ->
     select_sentences sentences used !! j = Some sj ->
     _sentences_similar (normalized sj) (normalized si) (7 # 10) = false).
Proof.
  revert used. induction sentences as [|x rest IH]; intros used.
  - split; [intros s H; by apply elem_of_nil in H|by intros [|i] [|j]].
  - cbn [select_sentences]. fold (normalized (w_text x)).
    destruct (existsb (fun u => _sentences_similar (normalized (w_text x)) u
                                  (7 # 10)) used) eqn:Hdup; simpl negb;
      cbv iota.
    + destruct (IH used) as [Hin Hpair]. split; [|done].
      intros s Hs. destruct (Hin s Hs) as [(y & Hy & ->) Hused].
      split; [|done]. exists y. split; [by apply list_elem_of_further|done].
    + destruct (IH (set_add (normalized (w_text x)) used)) as [Hin Hpair].
      assert (Hnew : forall u, u ∈ used ->
                _sentences_similar (normalized (w_text x)) u (7 # 10) = false).
      { intros u Hu.
        destruct (_sentences_similar (normalized (w_text x)) u (7 # 10))
          eqn:Hsim; [|done].
        assert (Hex : existsb
                        (fun u => _sentences_similar (normalized (w_text x)) u
                                    (7 # 10)) used = true).
        { apply existsb_exists. exists u. split; [by apply list_elem_of_In|done]. }
        congruence. }
      split.
      * intros s Hs. apply elem_of_cons in Hs as [->|Hs].
        -- split; [|done]. exists x. split; [apply list_elem_of_here|done].
        -- destruct (Hin s Hs) as [(y & Hy & ->) Hused]. split.
           ++ exists y. split; [by apply list_elem_of_further|done].
           ++ intros u Hu. apply Hused, set_add_elem. by right.
      * intros [|i] [|j] si sj Hlt Hi Hj; try lia.
        -- simpl in Hi, Hj. injection Hi as <-.
           apply list_elem_of_lookup_2 in Hj.
           destruct (Hin sj Hj) as [_ Hused].
           apply Hused, set_add_elem. by left.
        -- simpl in Hi, Hj. apply (Hpair i j); [lia|done..].
Qed.

(** X12: the sentences that [_sentence_selection_combination] joins are
    sentences of the responses, and no selected sentence is similar (Jaccard
    similarity of the word sets at least 0.7, after lower-casing and
    stripping) to a sentence selected before it. *)
Theorem sentence_selection_drops_near_duplicates (responses : odict string)
    (weights : odict Q) :
  _sentence_selection_combination responses weights
  = PyStr.join " " (selected_sentences responses weights) /\
  Forall (fun s =>
            exists source response,
              (source, response) ∈ responses /\
              s ∈ _split_into_sentences response)
    (selected_sentences responses weights) /\
  forall i j si sj, (i < j)%nat ->
    selected_sentences responses weights !! i = Some si ->
    selected_sentences responses weights !! j = Some sj ->
    _sentences_similar (normalized sj) (normalized si) (7 # 10) = false.
Proof.
  split; [done|]. unfold selected_sentences.
  destruct (select_sentences_spec
              (sort_desc w_weight
                 (flat_map
                    (fun sr =>
                       map (fun sentence =>
                              (sentence, od_get_default (fst sr) 0%Q weights,
                               fst sr))
                           (_split_into_sentences (snd sr)))
                    responses)) []) as [Hin Hpair].
  split; [|exact Hpair].
  apply Forall_forall. intros s Hs.
  destruct (Hin s Hs) as [(x & Hx & ->) _].
  apply sort_desc_elem, list_elem_of_In, in_flat_map in Hx
    as ([source response] & Hsr & Hx).
  apply in_map_iff in Hx as (sentence & <- & Hsentence).
  exists source, response. split; by apply list_elem_of_In.
Qed.
End MixerSentences.

(** ** The embedding router: what it may select *)
Module EmbeddingRouterSelection.
Import Py PyFloat Routers OdictKeys OrderFacts FloatFacts.

(** The scores are given to available models with a known domain only, one
    score for each name. *)
Lemma scores_loop_keys (fl : Q -> Q) (dot_product : list Q -> list Q -> Q)
    (np_norm : list Q -> Q) (router : EmbeddingRouter)
    (query_embedding : list Q) (available_models : list string)
    (scores out : odict pyfloat) :
  scores_loop fl dot_product np_norm router query_embedding available_models
    scores = Some out ->
  (NoDup (od_keys scores) -> NoDup (od_keys out)) /\
  forall name, name ∈ od_keys out ->
    name ∈ od_keys scores \/
    (name ∈ available_models /\ od_mem name (domains router) = true).
Proof.
  revert scores. induction available_models as [|model rest IH];
    intros scores; simpl.
  - intros [= <-]. split; [done|]. intros name Hname. by left.
  - assert (Hskip :
      scores_loop fl dot_product np_norm router query_embedding rest scores
      = Some out ->
      (NoDup (od_keys scores) -> NoDup (od_keys out)) /\
      forall name, name ∈ od_keys out ->
        name ∈ od_keys scores \/
        (name ∈ model :: rest /\ od_mem name (domains router) = true)).
    { intros H. apply IH in H as [Hnd Hkeys]. split; [done|].
      intros name Hname. destruct (Hkeys name Hname) as [?|[? ?]];
        [by left|right]. split; [by apply list_elem_of_further|done]. }
    destruct (od_get model (domains router)) as [[n d kw ex [[|x xs]|]]|]
      eqn:Hdomain; try done.
    destruct (np_dot dot_product query_embedding (x :: xs)) as [dot| |];
      try done.
    intros H. apply IH in H as [Hnd Hkeys]. split.
    + intros Hscores. by apply Hnd, od_keys_set_NoDup.
    + intros name Hname. destruct (Hkeys name Hname) as [Hin|[Hin Hmem]].
      * rewrite od_keys_set in Hin.
        destruct (od_mem model scores); [by left|].
        apply elem_of_app in Hin as [Hin|Hin]; [by left|right].
        apply list_elem_of_singleton in Hin as ->.
        split; [apply list_elem_of_here|]. unfold od_mem. by rewrite Hdomain.
      * right. split; [by apply list_elem_of_further|done].
Qed.

Lemma calculate_scores_keys (fl : Q -> Q)
    (dot_product : list Q -> list Q -> Q) (np_norm : list Q -> Q)
    (encode : string -> result (list Q)) (router : EmbeddingRouter)
    (query : string) (available_models : list string)
    (scores : odict pyfloat) :
  _calculate_scores fl dot_product np_norm encode router query
    available_models = Done scores ->
  NoDup (od_keys scores) /\
  forall name, name ∈ od_keys scores ->
    name ∈ available_models /\ od_mem name (domains router) = true.
Proof.
  unfold _calculate_scores.
  assert (Hnil : NoDup (od_keys (@nil (string * pyfloat))) /\
                 forall name, name ∈ od_keys (@nil (string * pyfloat)) ->
                   name ∈ available_models /\
                   od_mem name (domains router) = true).
  { split; [constructor|]. intros name H. by apply elem_of_nil in H. }
  destruct (negb (embedding_model router)); [by intros [= <-]|].
  destruct (encode query) as [query_embedding|e|]; [|by intros [= <-]|done].
  destruct (scores_loop fl dot_product np_norm router query_embedding
              available_models [])
    as [out|] eqn:Hloop; [|by intros [= <-]].
  intros [= <-]. apply scores_loop_keys in Hloop as [Hnd Hkeys].
  split; [apply Hnd; constructor|].
  intros name Hname. destruct (Hkeys name Hname) as [Hin|?]; [|done].
  by apply elem_of_nil in Hin.
Qed.

Lemma combine_fst_elem {A C} (l : list A) (l' : list C) (x : A * C) :
  x ∈ combine l l' -> fst x ∈ l.
Proof.
  destruct x as [a c]. intros H. apply list_elem_of_In, in_combine_l in H.
  by apply list_elem_of_In.
Qed.

Lemma slice_to_subseteq {A} (k : Z) (l : list A) (x : A) :
  x ∈ slice_to k l -> x ∈ l.
Proof.
  destruct (QsumFacts.slice_to_firstn k l) as [n ->]. apply (subseteq_take n l).
Qed.

Lemma NoDup_fst_sublist {A C} (P : A * C -> bool) (n : nat)
    (l : list (A * C)) :
  NoDup (map fst l) -> NoDup (map fst (List.filter P (firstn n l))).
Proof.
  revert n. induction l as [|x l IH]; intros n Hnd.
  - destruct n; simpl; constructor.
  - destruct n as [|n]; simpl; [constructor|].
    simpl in Hnd. apply NoDup_cons in Hnd as [Hx Hnd].
    destruct (P x); simpl; [|by apply IH].
    constructor; [|by apply IH].
    intros Hin. apply Hx.
    apply list_elem_of_fmap in Hin as (y & Hy & Hin).
    apply list_elem_of_fmap. exists y. split; [done|].
    apply list_elem_of_In, filter_In in Hin as [Hin _].
    by apply (subseteq_take n l), list_elem_of_In.
Qed.

Lemma NoDup_fst_perm {A C} (l l' : list (A * C)) :
  l ≡ₚ l' -> NoDup (map fst l') -> NoDup (map fst l).
Proof.
  intros Hperm Hnd. eapply NoDup_Permutation_proper; [|exact Hnd].
  by apply fmap_Permutation.
Qed.

Lemma combine_fst_NoDup {A C} (l : list A) (l' : list C) :
  NoDup l -> NoDup (map fst (combine l l')).
Proof.
  revert l'. induction l as [|a l IH]; intros [|c l'] Hnd; simpl;
    try constructor.
  - apply NoDup_cons in Hnd as [Ha Hnd]. intros Hin. apply Ha.
    apply list_elem_of_fmap in Hin as (y & -> & Hin).
    by apply combine_fst_elem in Hin.
  - apply NoDup_cons in Hnd as [_ Hnd]. by apply IH.
Qed.

Lemma combine_snd_elem {A C} (l : list A) (l' : list C) (x : A * C) :
  x ∈ combine l l' -> snd x ∈ l'.
Proof.
  destruct x as [a c]. intros H. apply list_elem_of_In, in_combine_r in H.
  by apply list_elem_of_In.
Qed.

(** A list whose float keys never increase: every key is at least as great
    as the keys after it. *)
Fixpoint fdescending {A} (key : A -> pyfloat) (l : list A) : Prop :=
  match l with
  | [] => True
  | x :: l' =>
      Forall (fun y => fge (key x) (key y) = true) l' /\ fdescending key l'
  end.

Lemma insert_desc_f_elem {A} (key : A -> pyfloat) (x y : A) (l : list A) :
  y ∈ insert_desc_f key x l <-> y = x \/ y ∈ l.
Proof. rewrite insert_desc_f_perm. apply elem_of_cons. Qed.

Lemma insert_desc_f_descending {A} (key : A -> pyfloat) (x : A) (l : list A) :
  is_nan (key x) = false ->
  Forall (fun y => is_nan (key y) = false) l ->
  fdescending key l -> fdescending key (insert_desc_f key x l).
Proof.
  intros Hx. induction l as [|z l IH]; simpl; [done|].
  intros Hclean [Hall Hdesc].
  apply Forall_cons in Hclean as [Hz Hclean].
  destruct (fgt (key z) (key x)) eqn:Hgt; simpl.
  - split; [|by apply IH].
    apply Forall_forall. intros y Hy. apply insert_desc_f_elem in Hy as [->|Hy].
    + by apply fgt_fge.
    + rewrite Forall_forall in Hall. by apply Hall.
  - apply not_fgt_fge in Hgt; [|done..]. split; [|done].
    constructor; [done|].
    eapply Forall_impl; [exact Hall|]. simpl. intros y Hy.
    by eapply fge_trans.
Qed.

(** Sorting an array without nan puts it in descending order. *)
Lemma sort_desc_f_descending {A} (key : A -> pyfloat) (l : list A) :
  Forall (fun y => is_nan (key y) = false) l ->
  fdescending key (sort_desc_f key l).
Proof.
  induction 1 as [|x l Hx Hl IH]; simpl; [done|].
  apply insert_desc_f_descending; [done| |done].
  apply Forall_forall. intros y Hy. apply sort_desc_f_elem in Hy.
  by apply (proj1 (Forall_forall _ _) Hl).
Qed.

Lemma fdescending_firstn {A} (key : A -> pyfloat) (n : nat) (l : list A) :
  fdescending key l -> fdescending key (firstn n l).
Proof.
  revert n. induction l as [|x l IH]; intros [|n]; simpl; try done.
  intros [Hall Hdesc]. split; [|by apply IH].
  apply Forall_forall. intros y Hy. rewrite Forall_forall in Hall.
  apply Hall. by apply (subseteq_take n l).
Qed.

Lemma fdescending_filter {A} (key : A -> pyfloat) (P : A -> bool) (l : list A) :
  fdescending key l -> fdescending key (List.filter P l).
Proof.
  induction l as [|x l IH]; simpl; [done|].
  intros [Hall Hdesc]. destruct (P x); simpl; [|by apply IH].
  split; [|by apply IH].
  apply Forall_forall. intros y Hy. rewrite Forall_forall in Hall.
  apply Hall. apply list_elem_of_In. apply list_elem_of_In, filter_In in Hy.
  tauto.
Qed.

(** A list whose keys are all the same float, which is not nan. *)
Lemma fdescending_constant {A} (key : A -> pyfloat) (c : pyfloat) (l : list A) :
  is_nan c = false -> Forall (fun x => key x = c) l -> fdescending key l.
Proof.
  intros Hc. induction 1 as [|x l Hx Hl IH]; simpl; [done|].
  split; [|done]. rewrite Hx.
  eapply Forall_impl; [exact Hl|]. simpl. intros y ->. by apply fge_refl.
Qed.

Lemma existsb_false {A} (P : A -> bool) (l : list A) (x : A) :
  existsb P l = false -> x ∈ l -> P x = false.
Proof.
  intros Hex Hx. destruct (P x) eqn:HP; [|done].
  assert (existsb P l = true); [|congruence].
  apply existsb_exists. exists x. split; [by apply list_elem_of_In|done].
Qed.

(** An array whose sum is finite holds finite values only. *)
Lemma fsum_finite_inv (np_sum : list Q -> Q) (values : list pyfloat) (s : Q) :
  fsum np_sum values = Fin s -> Forall (fun x => exists q, x = Fin q) values.
Proof.
  unfold fsum. destruct (existsb is_nan values) eqn:Hnan; [done|].
  destruct (existsb (is_inf true) values) eqn:Hpos;
    destruct (existsb (is_inf false) values) eqn:Hneg; try done.
  intros _. apply Forall_forall. intros x Hx.
  pose proof (existsb_false _ _ _ Hnan Hx) as H1.
  pose proof (existsb_false _ _ _ Hpos Hx) as H2.
  pose proof (existsb_false _ _ _ Hneg Hx) as H3.
  destruct x as [q|[|]|]; by eauto.
Qed.

(** The softmax scores hold no nan, or else those of them that reach a
    threshold are all the same float. *)
Lemma softmax_shape (fl np_exp : Q -> Q) (np_sum : list Q -> Q)
    (router : EmbeddingRouter) (values : list pyfloat) (bound : Q) :
  Forall (fun x => is_nan x = false)
    (softmax fl np_exp np_sum router values) \/
  exists c,
    Forall (fun x => fge x (Fin bound) = true -> x = c)
      (softmax fl np_exp np_sum router values).
Proof.
  unfold softmax.
  set (score_values := if negb _ then _ else values).
  set (exp_scores := map _ score_values).
  destruct (fsum np_sum exp_scores) as [total|p|] eqn:Htotal.
  - apply fsum_finite_inv in Htotal.
    destruct (Qeq_bool total 0) eqn:Hzero.
    + right. exists (Inf true). apply Forall_map.
      eapply Forall_impl; [exact Htotal|]. simpl. intros e [q ->]. simpl.
      rewrite Hzero. destruct (Qeq_bool q 0); [done|].
      by destruct (Qle_bool 0 q).
    + left. apply Forall_map.
      eapply Forall_impl; [exact Htotal|]. simpl. intros e [q ->]. simpl.
      by rewrite Hzero.
  - right. exists (Fin 0). apply Forall_map, Forall_true.
    intros [q|p'|]; by simpl.
  - right. exists NaN. apply Forall_map, Forall_true.
    intros [q|p'|]; by simpl.
Qed.

(** X13: whatever [route_multiple] of the embedding router returns, every
    selected name is one of the available models and has a domain
    description, no name is selected twice, every returned score reaches the
    threshold, the scores never increase along the list, and for [k >= 0] at
    most [k] models are returned. *)
Theorem route_multiple_selects_known_models (fl np_exp : Q -> Q)
    (np_sum : list Q -> Q) (dot_product : list Q -> list Q -> Q)
    (np_norm : list Q -> Q) (encode : string -> result (list Q))
    (router : EmbeddingRouter) (query : string)
    (available_models : list string) (k : Z)
    (selected : list (string * pyfloat)) :
  route_multiple fl np_exp np_sum dot_product np_norm encode router query
    available_models k
  = Done selected ->
  Forall (fun ms =>
            fst ms ∈ available_models /\
            od_mem (fst ms) (domains router) = true /\
            fge (snd ms) (Fin (threshold router)) = true) selected /\
  NoDup (map fst selected) /\
  fdescending snd selected /\
  ((0 <= k)%Z -> (Z.of_nat (length selected) <= k)%Z).
Proof.
  unfold route_multiple.
  destruct (_calculate_scores fl dot_product np_norm encode router query
              available_models)
    as [scores|e|] eqn:Hscores; [|done..].
  intros [= <-]. apply calculate_scores_keys in Hscores as [Hnd Hkeys].
  unfold route_multiple_scores.
  destruct scores as [|s scores];
    [split; [constructor|split; [constructor|split; [done|simpl; lia]]]|].
  set (scored := combine (od_keys (s :: scores))
                   (softmax fl np_exp np_sum router (od_values (s :: scores)))).
  set (ranked := sort_desc_f snd scored).
  split; [|split; [|split]].
  - apply Forall_forall. intros ms Hms.
    apply list_elem_of_In, filter_In in Hms as [Hms Hthr].
    apply list_elem_of_In, slice_to_subseteq, sort_desc_f_elem in Hms.
    apply combine_fst_elem in Hms. destruct (Hkeys _ Hms) as [Hin Hmem].
    by repeat split.
  - destruct (QsumFacts.slice_to_firstn k ranked) as [n ->].
    apply NoDup_fst_sublist.
    eapply NoDup_fst_perm; [apply sort_desc_f_perm|].
    by apply combine_fst_NoDup.
  - destruct (QsumFacts.slice_to_firstn k ranked) as [n ->].
    destruct (softmax_shape fl np_exp np_sum router (od_values (s :: scores))
                (threshold router)) as [Hclean|[c Hsame]].
    + apply fdescending_filter, fdescending_firstn, sort_desc_f_descending.
      apply Forall_forall. intros ms Hms. apply combine_snd_elem in Hms.
      by apply (proj1 (Forall_forall _ _) Hclean).
    + set (kept := List.filter _ (firstn n ranked)).
      assert (Hkept : Forall (fun ms : string * pyfloat =>
                                snd ms = c /\
                                fge (snd ms) (Fin (threshold router)) = true)
                        kept).
      { apply Forall_forall. intros ms Hms.
        apply list_elem_of_In, filter_In in Hms as [Hms Hthr].
        split; [|done].
        apply list_elem_of_In, (subseteq_take n ranked), sort_desc_f_elem,
          combine_snd_elem in Hms.
        by apply (proj1 (Forall_forall _ _) Hsame). }
      destruct kept as [|ms kept]; [done|].
      pose proof (Forall_inv Hkept) as [Hc Hthr]. rewrite Hc in Hthr.
      apply fge_not_nan in Hthr as [Hnan _].
      apply (fdescending_constant snd c); [exact Hnan|].
      eapply Forall_impl; [exact Hkept|]. by intros ? [? _].
  - intros Hk. unfold slice_to. rewrite (proj2 (Z.leb_le 0 k) Hk).
    pose proof (filter_length_le
                  (fun ms : string * pyfloat =>
                     fge (snd ms) (Fin (threshold router)))
                  (firstn (Z.to_nat k) ranked)).
    pose proof (firstn_le_length (Z.to_nat k) ranked). lia.
Qed.

Lemma route_multiple_selects_known_models_witness :
  route_multiple Scenarios.fixed_point Scenarios.exp_at_zero
    Scenarios.exact_sum Scenarios.unit_dot Scenarios.unit_norm
    Scenarios.unit_encode Scenarios.lenient_router
    "How do I raise my VO2 max?" ["physiology"; "nutrition"] 3
  = Done [("physiology", Fin (1 # 2)); ("nutrition", Fin (1 # 2))] /\
  NoDup (map fst [("physiology", Fin (1 # 2)); ("nutrition", Fin (1 # 2))]).
Proof.
  assert (H : route_multiple Scenarios.fixed_point Scenarios.exp_at_zero
                Scenarios.exact_sum Scenarios.unit_dot Scenarios.unit_norm
                Scenarios.unit_encode Scenarios.lenient_router
                "How do I raise my VO2 max?" ["physiology"; "nutrition"] 3
              = Done [("physiology", Fin (1 # 2)); ("nutrition", Fin (1 # 2))])
    by (vm_compute; reflexivity).
  split; [exact H|].
  exact (proj1 (proj2
    (route_multiple_selects_known_models Scenarios.fixed_point
       Scenarios.exp_at_zero Scenarios.exact_sum Scenarios.unit_dot
       Scenarios.unit_norm Scenarios.unit_encode Scenarios.lenient_router
       "How do I raise my VO2 max?" ["physiology"; "nutrition"] 3 _ H))).
Defined.

(** [max(l, key=key)] is an element of [l]; when its key is not nan, no
    element has a greater key. *)
Lemma max_by_f_fold {A} (key : A -> pyfloat) (l : list A) (best : A) :
  let found :=
    fold_left (fun best y => if fgt (key y) (key best) then y else best) l best in
  (found = best \/ found ∈ l) /\
  (is_nan (key found) = false ->
   is_nan (key best) = false /\
   fgt (key best) (key found) = false /\
   forall x, x ∈ l -> fgt (key x) (key found) = false).
Proof.
  revert best. induction l as [|y l IH]; intros best; simpl.
  - split; [by left|]. intros Hnan. split; [done|].
    split; [by apply fge_not_fgt, fge_refl|].
    intros x Hx. by apply elem_of_nil in Hx.
  - destruct (fgt (key y) (key best)) eqn:Hgt.
    + destruct (IH y) as (Hin & Hmax).
      split; [right; destruct Hin as [->|Hin];
              [apply list_elem_of_here|by apply list_elem_of_further]|].
      intros Hnan. destruct (Hmax Hnan) as (Hy & Hyf & Hall).
      pose proof (fgt_not_nan _ _ Hgt) as [_ Hbest].
      split; [done|]. split.
      * destruct (fgt (key best) _) eqn:Hbf; [|done].
        pose proof (fgt_trans _ _ _ Hgt Hbf). congruence.
      * intros x Hx. apply elem_of_cons in Hx as [->|Hx]; [done|by apply Hall].
    + destruct (IH best) as (Hin & Hmax).
      split; [destruct Hin as [->|Hin];
              [by left|right; by apply list_elem_of_further]|].
      intros Hnan. destruct (Hmax Hnan) as (Hbest & Hbf & Hall).
      split; [done|]. split; [done|].
      intros x Hx. apply elem_of_cons in Hx as [->|Hx]; [|by apply Hall].
      destruct (is_nan (key y)) eqn:Hy; [by destruct (key y)|].
      apply fge_not_fgt. apply (fge_trans _ (key best)); by apply not_fgt_fge.
Qed.

Lemma max_by_f_spec {A} (key : A -> pyfloat) (l : list A) (b : A) :
  max_by_f key l = Some b ->
  b ∈ l /\
  (is_nan (key b) = false -> forall x, x ∈ l -> fgt (key x) (key b) = false).
Proof.
  destruct l as [|x0 l]; [done|]. simpl. intros [= <-].
  destruct (max_by_f_fold key l x0) as (Hin & Hmax).
  split.
  - destruct Hin as [->|Hin];
      [apply list_elem_of_here|by apply list_elem_of_further].
  - intros Hnan x Hx. destruct (Hmax Hnan) as (_ & H0 & Hall).
    apply elem_of_cons in Hx as [->|Hx]; [done|by apply Hall].
Qed.

(** X14: when [route] of the embedding router selects a model, that model
    is one of the available models and has a domain description, its
    similarity to the query reaches the threshold, and no scored model has
    a greater similarity. *)
Theorem route_selects_best_available (fl : Q -> Q)
    (dot_product : list Q -> list Q -> Q) (np_norm : list Q -> Q)
    (encode : string -> result (list Q)) (router : EmbeddingRouter)
    (query : string) (available_models : list string) (selected : string) :
  route fl dot_product np_norm encode router query available_models
  = Done (Some selected) ->
  selected ∈ available_models /\
  od_mem selected (domains router) = true /\
  exists scores best_score,
    _calculate_scores fl dot_product np_norm encode router query
      available_models
    = Done scores /\
    (selected, best_score) ∈ scores /\
    fge best_score (Fin (threshold router)) = true /\
    forall ms, ms ∈ scores -> fgt (snd ms) best_score = false.
Proof.
  unfold route. destruct (negb (embedding_model router)); [done|].
  destruct (_calculate_scores fl dot_product np_norm encode router query
              available_models)
    as [scores|e|] eqn:Hscores; [|done..].
  destruct (max_by_f snd scores) as [[best_model best_score]|] eqn:Hmax;
    [|done].
  destruct (fge best_score (Fin (threshold router))) eqn:Hthr; [|done].
  intros [= <-]. apply max_by_f_spec in Hmax as [Hin Hmax].
  pose proof (fge_not_nan _ _ Hthr) as [Hnan _].
  destruct (calculate_scores_keys _ _ _ _ _ _ _ _ Hscores) as [_ Hkeys].
  destruct (Hkeys best_model) as [Havail Hmem].
  { unfold od_keys. apply list_elem_of_fmap. by exists (best_model, best_score). }
  split; [done|]. split; [done|]. exists scores, best_score.
  repeat split; [done..|]. by apply Hmax.
Qed.

Lemma route_selects_best_available_witness :
  route Scenarios.fixed_point Scenarios.unit_dot Scenarios.unit_norm
    Scenarios.unit_encode Scenarios.lenient_router
    "How do I raise my VO2 max?" ["physiology"; "nutrition"]
  = Done (Some "physiology") /\
  "physiology" ∈ ["physiology"; "nutrition"].
Proof.
  assert (H : route Scenarios.fixed_point Scenarios.unit_dot
                Scenarios.unit_norm Scenarios.unit_encode
                Scenarios.lenient_router "How do I raise my VO2 max?"
                ["physiology"; "nutrition"]
              = Done (Some "physiology"))
    by (vm_compute; reflexivity).
  split; [exact H|].
  exact (proj1
    (route_selects_best_available Scenarios.fixed_point Scenarios.unit_dot
       Scenarios.unit_norm Scenarios.unit_encode Scenarios.lenient_router
       "How do I raise my VO2 max?" ["physiology"; "nutrition"]
       "physiology" H)).
Defined.
End EmbeddingRouterSelection.

(** ** Chains: which models a run asks *)
Module ChainRuns.
Import Py Models Chains.

(** The models that a sequence of events asked to generate, in order. *)
Definition asked (events : list event) : list Model :=
  omap (fun ev => match ev with EvGenerate m _ => Some m | _ => None end)
    events.

(** The entries of a chain that are models. *)
Definition model_items (items : list chain_item) : list Model :=
  omap (fun item => match item with
                    | ModelItem m => Some m
                    | NameItem _ => None
                    end) items.

(** The name under which step [i] records the response of [model]. *)
Definition step_name (i : nat) (model : Model) : string :=
  getattr_name model ("model_" +:+ pretty i).

(** The prompt that step [i] of [Chain.generate] sends to [model]. *)
Definition step_prompt (chain : Chain) (i : nat) (model : Model)
    (context : ChainContext) : string :=
  let prompt :=
    _format_prompt chain context (step_name i model) i (length (models chain)) in
  match max_context_length chain with
  | Some n =>
      if negb (n =? 0)%Z && (n <? Z.of_nat (PyStr.len prompt))%Z
      then _truncate_prompt prompt n else prompt
  | None => prompt
  end.

Lemma asked_app (a b : list event) : asked (a ++ b) = asked a ++ asked b.
Proof. apply omap_app. Qed.

Lemma chain_step_model (B : Backend) (chain : Chain) (i : nat) (model : Model)
    (w : World ChainContext) :
  chain_step B chain i (ModelItem model) w
  = match generate_outcome B (length (trace w)) model
            (step_prompt chain i model (self w)) with
    | Done response =>
        (Done tt,
         mk_world
           (trace w ++ [EvGenerate model (step_prompt chain i model (self w))])
           (add_response response (step_name i model) (self w)))
    | Raise e =>
        if stop_on_error chain
        then
          (Raise e,
           mk_world
             (trace w ++ [EvGenerate model (step_prompt chain i model (self w))])
             (self w))
        else
          (Done tt,
           mk_world
             (trace w ++ [EvGenerate model (step_prompt chain i model (self w))])
             (add_response (error_placeholder (step_name i model) e)
                (step_name i model) (self w)))
    | Hang =>
        (Hang,
         mk_world
           (trace w ++ [EvGenerate model (step_prompt chain i model (self w))])
           (self w))
    end.
Proof.
  unfold chain_step, try_except, mbind, M_bind, bind, get_self, generate,
    external, record_response, update_self, raise.
  fold (step_name i model). cbn beta iota zeta. fold (step_prompt chain i model (self w)).
  destruct (generate_outcome B (length (trace w)) model
              (step_prompt chain i model (self w))) as [response|e|];
    [done| |done].
  by destruct (stop_on_error chain).
Qed.

Lemma length_responses_add (response name : string) (context : ChainContext) :
  length (responses (add_response response name context))
  = S (length (responses context)).
Proof. unfold add_response. simpl. rewrite length_app. simpl. lia. Qed.

(** What a run of the steps of [Chain.generate] does: when it ends normally
    every model was asked once, in order, and left one response; when it
    raises, the exception is the one that the model asked last raised. *)
Lemma run_steps_outcome (B : Backend) (chain : Chain)
    (items : list (nat * chain_item)) (w : World ChainContext) :
  exists events context r,
    run_steps (chain_step B chain) items w
    = (r, mk_world (trace w ++ events) context) /\
    match r with
    | Done _ =>
        asked events = model_items (map snd items) /\
        length (responses context)
        = (length (responses (self w))
           + length (model_items (map snd items)))%nat
    | Raise e =>
        stop_on_error chain = true /\
        exists before m prompt,
          events = before ++ [EvGenerate m prompt] /\
          generate_outcome B (length (trace w ++ before)) m prompt = Raise e /\
          asked events `prefix_of` model_items (map snd items)
    | Hang =>
        exists before m prompt,
          events = before ++ [EvGenerate m prompt] /\
          generate_outcome B (length (trace w ++ before)) m prompt = Hang
    end.
Proof.
  revert w. induction items as [|[i [model|name]] rest IH]; intros w.
  - exists [], (self w), (Done tt). simpl. rewrite app_nil_r.
    split; [by destruct w|]. split; [done|lia].
  - cbn [run_steps]. unfold mbind, M_bind, bind. rewrite chain_step_model.
    set (ev := EvGenerate model (step_prompt chain i model (self w))).
    assert (Hnext : forall context,
      exists events context' r,
        run_steps (chain_step B chain) rest
          (mk_world (trace w ++ [ev]) context)
        = (r, mk_world (trace w ++ events) context') /\
        match r with
        | Done _ =>
            asked events = model :: model_items (map snd rest) /\
            length (responses context')
            = (length (responses context)
               + length (model_items (map snd rest)))%nat
        | Raise e =>
            stop_on_error chain = true /\
            exists before m prompt,
              events = before ++ [EvGenerate m prompt] /\
              generate_outcome B (length (trace w ++ before)) m prompt
              = Raise e /\
              asked events `prefix_of` model :: model_items (map snd rest)
        | Hang =>
            exists before m prompt,
              events = before ++ [EvGenerate m prompt] /\
              generate_outcome B (length (trace w ++ before)) m prompt = Hang
        end).
    { intros context.
      destruct (IH (mk_world (trace w ++ [ev]) context))
        as (events & context' & r & Hrun & Hr).
      exists (ev :: events), context', r. simpl in Hrun.
      rewrite <- app_assoc in Hrun. split; [exact Hrun|].
      destruct r as [u|e|].
      - destruct Hr as [Hasked Hlen]. simpl in Hlen. split; [|done].
        change (asked (ev :: events)) with (model :: asked events).
        by rewrite Hasked.
      - destruct Hr as (Hstop & before & m & prompt & -> & Hout & Hpre).
        split; [done|]. exists (ev :: before), m, prompt.
        split; [done|]. simpl in Hout. rewrite <- app_assoc in Hout.
        split; [exact Hout|].
        change (asked (ev :: before ++ [EvGenerate m prompt]))
          with (model :: asked (before ++ [EvGenerate m prompt])).
        by apply prefix_cons.
      - destruct Hr as (before & m & prompt & -> & Hout).
        exists (ev :: before), m, prompt. split; [done|].
        simpl in Hout. by rewrite <- app_assoc in Hout. }
    change (model_items (map snd ((i, ModelItem model) :: rest)))
      with (model :: model_items (map snd rest)).
    destruct (generate_outcome B (length (trace w)) model
                (step_prompt chain i model (self w))) as [response|e|] eqn:Hout.
    + destruct (Hnext (add_response response (step_name i model) (self w)))
        as (events & context' & r & Hrun & Hr).
      exists events, context', r. split; [exact Hrun|].
      destruct r as [u|e|]; [|done..].
      destruct Hr as [Hasked Hlen]. split; [done|].
      rewrite Hlen, length_responses_add. simpl. lia.
    + destruct (stop_on_error chain) eqn:Hstop.
      * exists [ev], (self w), (Raise e). split; [done|]. split; [done|].
        exists [], model, (step_prompt chain i model (self w)).
        split; [done|]. rewrite app_nil_r. split; [done|].
        by apply prefix_cons, prefix_nil.
      * destruct (Hnext (add_response (error_placeholder (step_name i model) e)
                           (step_name i model) (self w)))
          as (events & context' & r & Hrun & Hr).
        exists events, context', r. split; [exact Hrun|].
        destruct r as [u|e'|]; [|done..].
        destruct Hr as [Hasked Hlen]. split; [done|].
        rewrite Hlen, length_responses_add. simpl. lia.
    + exists [ev], (self w), Hang. split; [done|].
      exists [], model, (step_prompt chain i model (self w)).
      split; [done|]. by rewrite app_nil_r.
  - cbn [run_steps chain_step]. unfold mbind, M_bind, bind. simpl.
    destruct (IH w) as (events & context' & r & Hrun & Hr).
    exists events, context', r. by split.
Qed.

(** X15: a chain that does not stop on errors always answers. When no
    model hangs and the chain holds at least one model, [Chain.generate]
    returns the last recorded response; every model of the chain was asked
    exactly once, in order, and left exactly one response (its text, or the
    error placeholder). The prompt templates are format strings with named
    fields, as everywhere in this development. *)
Theorem chain_without_stop_always_answers (B : Backend) (chain : Chain)
    (query : string) (w : World ChainContext) :
  stop_on_error chain = false ->
  (forall n m prompt, generate_outcome B n m prompt <> Hang) ->
  model_items (models chain) <> [] ->
  exists response events context,
    Chain_generate B chain query w
    = (Done response, mk_world (trace w ++ events) context) /\
    asked events = model_items (models chain) /\
    length (responses context) = length (model_items (models chain)) /\
    last (responses context) = Some response.
Proof.
  intros Hstop Hends Hmodels.
  unfold Chain_generate, mbind, M_bind, bind, set_self, get_self.
  destruct (run_steps_outcome B chain (enumerate_from 0 (models chain))
              (mk_world (trace w) (new_context query)))
    as (events & context & r & Hrun & Hr).
  rewrite Hrun. simpl in Hr. rewrite MixerPoints.enumerate_from_snd in Hr.
  destruct r as [u|e|].
  - destruct Hr as [Hasked Hlen]. simpl.
    destruct (last (responses context)) as [response|] eqn:Hlast.
    + by exists response, events, context.
    + apply last_None in Hlast. rewrite Hlast in Hlen. simpl in Hlen.
      by destruct (model_items (models chain)).
  - destruct Hr as [Hr _]. congruence.
  - destruct Hr as (before & m & prompt & _ & Hout). by apply Hends in Hout.
Qed.

Lemma chain_without_stop_always_answers_witness :
  stop_on_error Scenarios.tolerant_chain = false /\
  (forall n m prompt,
     generate_outcome Scenarios.summarizer_down n m prompt <> Hang) /\
  model_items (models Scenarios.tolerant_chain) <> [] /\
  exists response events context,
    Chain_generate Scenarios.summarizer_down Scenarios.tolerant_chain
      "How do I raise my VO2 max?"
      (Scenarios.fresh (new_context ""))
    = (Done response, mk_world ([] ++ events) context) /\
    asked events = model_items (models Scenarios.tolerant_chain) /\
    length (responses context)
    = length (model_items (models Scenarios.tolerant_chain)) /\
    last (responses context) = Some response.
Proof.
  assert (Hends : forall n m prompt,
             generate_outcome Scenarios.summarizer_down n m prompt <> Hang).
  { intros n [cls config|ident attr] prompt; simpl; [discriminate|].
    destruct (decide (ident = "summarizer")); discriminate. }
  assert (Hmodels : model_items (models Scenarios.tolerant_chain) <> [])
    by discriminate.
  split; [reflexivity|]. split; [exact Hends|]. split; [exact Hmodels|].
  exact (chain_without_stop_always_answers Scenarios.summarizer_down
           Scenarios.tolerant_chain "How do I raise my VO2 max?"
           (Scenarios.fresh (new_context "")) eq_refl Hends Hmodels).
Defined.

(** X16: [Chain.generate] raises in two ways only. Either the chain holds
    no model and the exception is the [RuntimeError] "Chain produced no
    responses"; or the chain stops on errors and the exception is the one
    raised by the model that was asked last: the models before it were
    asked in order and no model after it was asked. The prompt templates
    are format strings with named fields, as everywhere in this
    development. *)
Theorem chain_stops_at_first_error (B : Backend) (chain : Chain)
    (query : string) (w w' : World ChainContext) (e : exn) :
  Chain_generate B chain query w = (Raise e, w') ->
  (model_items (models chain) = [] /\
   e = runtime_error "Chain produced no responses") \/
  (stop_on_error chain = true /\
   exists before m prompt,
     trace w' = trace w ++ before ++ [EvGenerate m prompt] /\
     generate_outcome B (length (trace w ++ before)) m prompt = Raise e /\
     asked (before ++ [EvGenerate m prompt])
       `prefix_of` model_items (models chain)).
Proof.
  unfold Chain_generate, mbind, M_bind, bind, set_self, get_self.
  destruct (run_steps_outcome B chain (enumerate_from 0 (models chain))
              (mk_world (trace w) (new_context query)))
    as (events & context & r & Hrun & Hr).
  rewrite Hrun. simpl in Hr. rewrite MixerPoints.enumerate_from_snd in Hr.
  destruct r as [u|e'|]; simpl.
  - destruct Hr as [_ Hlen].
    destruct (last (responses context)) as [response|] eqn:Hlast; [done|].
    intros [= <- <-]. left. split; [|done].
    apply last_None in Hlast. rewrite Hlast in Hlen. simpl in Hlen.
    by destruct (model_items (models chain)).
  - intros [= <- <-]. right.
    destruct Hr as (Hstop & before & m & prompt & -> & Hout & Hpre).
    split; [done|]. by exists before, m, prompt.
  - done.
Qed.

Lemma chain_stops_at_first_error_witness :
  Chain_generate Scenarios.summarizer_down Scenarios.chain_through_summarizer
    "How do I raise my VO2 max?" (Scenarios.fresh (new_context ""))
  = (Raise (runtime_error "summarizer unavailable"),
     snd (Chain_generate Scenarios.summarizer_down
            Scenarios.chain_through_summarizer "How do I raise my VO2 max?"
            (Scenarios.fresh (new_context "")))) /\
  exists before m prompt,
    generate_outcome Scenarios.summarizer_down (length ([] ++ before)) m prompt
    = Raise (runtime_error "summarizer unavailable") /\
    asked (before ++ [EvGenerate m prompt])
      `prefix_of` model_items (models Scenarios.chain_through_summarizer).
Proof.
  assert (Hrun :
    Chain_generate Scenarios.summarizer_down Scenarios.chain_through_summarizer
      "How do I raise my VO2 max?" (Scenarios.fresh (new_context ""))
    = (Raise (runtime_error "summarizer unavailable"),
       snd (Chain_generate Scenarios.summarizer_down
              Scenarios.chain_through_summarizer
              "How do I raise my VO2 max?"
              (Scenarios.fresh (new_context "")))))
    by (vm_compute; reflexivity).
  split; [exact Hrun|].
  destruct (chain_stops_at_first_error _ _ _ _ _ _ Hrun)
    as [[Hno _]|(_ & before & m & prompt & _ & Hout & Hpre)];
    [discriminate Hno|].
  by exists before, m, prompt.
Defined.

Lemma run_steps_names (step : nat -> chain_item -> M (World ChainContext) unit)
    (items : list (nat * chain_item)) (w : World ChainContext) :
  (forall i name w, step i (NameItem name) w = (Done tt, w)) ->
  model_items (map snd items) = [] ->
  run_steps step items w = (Done tt, w).
Proof.
  intros Hstep. induction items as [|[i [model|name]] rest IH]; intros Hnone.
  - done.
  - discriminate Hnone.
  - cbn [run_steps]. unfold mbind, M_bind, bind. rewrite Hstep. by apply IH.
Qed.

Lemma conditional_steps_names (B : Backend) (chain : ConditionalChain)
    (query : string) (items : list (nat * chain_item))
    (selected_models : list chain_item) (w : World ChainContext) :
  model_items (map snd items) = [] ->
  conditional_steps B chain query items selected_models w = (Done tt, w).
Proof.
  induction items as [|[i [model|name]] rest IH]; intros Hnone.
  - done.
  - discriminate Hnone.
  - cbn [conditional_steps conditional_step]. unfold mbind, M_bind, bind.
    simpl. by apply IH.
Qed.

(** X17: on a chain that holds no model (no entries, or model names only)
    the three chain classes differ: [Chain.generate] raises the
    [RuntimeError] "Chain produced no responses", while
    [SummarizingChain.generate] and [ConditionalChain.generate] (without
    conditions) return the empty string. None of them asks any model. *)
Theorem chains_without_models (B : Backend) (chain : Chain) (query : string)
    (w : World ChainContext) :
  model_items (models chain) = [] ->
  Chain_generate B chain query w
  = (Raise (runtime_error "Chain produced no responses"),
     mk_world (trace w) (new_context query)) /\
  (forall summarizer threshold target,
     SummarizingChain_generate B
       (mk_summarizing chain summarizer threshold target) query w
     = (Done "", mk_world (trace w) (new_context query))) /\
  (forall branches,
     ConditionalChain_generate B (mk_conditional chain [] branches) query w
     = (Done "", mk_world (trace w) (new_context query))).
Proof.
  intros Hnone.
  assert (Hitems : model_items (map snd (enumerate_from 0 (models chain))) = [])
    by by rewrite MixerPoints.enumerate_from_snd.
  split; [|split].
  - unfold Chain_generate, mbind, M_bind, bind, set_self, get_self.
    by rewrite run_steps_names.
  - intros summarizer threshold target.
    unfold SummarizingChain_generate, mbind, M_bind, bind, set_self, get_self.
    simpl base. by rewrite run_steps_names.
  - intros branches.
    unfold ConditionalChain_generate, mbind, M_bind, bind, set_self, get_self,
      lift, _select_branch, _check_conditions.
    simpl. by rewrite conditional_steps_names.
Qed.

Lemma chains_without_models_witness :
  model_items (models Scenarios.chain_of_names) = [] /\
  Chain_generate Scenarios.healthy_backend Scenarios.chain_of_names
    "How do I raise my VO2 max?" (Scenarios.fresh (new_context ""))
  = (Raise (runtime_error "Chain produced no responses"),
     mk_world [] (new_context "How do I raise my VO2 max?")).
Proof.
  split; [reflexivity|].
  exact (proj1 (chains_without_models Scenarios.healthy_backend
                  Scenarios.chain_of_names "How do I raise my VO2 max?"
                  (Scenarios.fresh (new_context "")) eq_refl)).
Defined.




End ChainRuns.

(** ** The ensemble: retries of a single model *)
Module EnsembleRetry.
Import Py Models Registry Ensemble.

(** The events of [k] failed attempts numbered from [a]: every one of them
    is followed by a sleep of [retry_delay * (attempt + 1)] seconds. *)
Definition failed_attempts (cfg : EnsembleConfig) (model : Model)
    (query : string) (a k : nat) : list event :=
  flat_map
    (fun j =>
       [EvGenerate model query;
        EvSleep (retry_delay cfg * inject_Z (Z.of_nat j + 1))%Q])
    (seq a k).

Section retry.
Context {O : Type}.
Variable B : Backend.

Lemma attempt_loop_succeeds (cfg : EnsembleConfig) (model : Model)
    (name query response : string) (k : nat) :
  forall (e : nat -> exn) (a len : nat) (w : World O),
    (k < len)%nat ->
    (Z.of_nat (a + len) <= max_retries cfg)%Z ->
    (forall j, (j < k)%nat ->
       generate_outcome B (length (trace w) + 2 * j) model query = Raise (e j)) ->
    generate_outcome B (length (trace w) + 2 * k) model query = Done response ->
    attempt_loop B cfg model name query (map Z.of_nat (seq a len)) w
    = (Done response,
       mk_world
         (trace w ++ failed_attempts cfg model query a k
          ++ [EvGenerate model query])
         (self w)).
Proof.
  induction k as [|k IH]; intros e a len w Hlen Hmax Hfail Hdone.
  - destruct len as [|len]; [lia|].
    cbn [seq map attempt_loop].
    unfold try_except, generate, external.
    rewrite Nat.mul_0_r, Nat.add_0_r in Hdone. by rewrite Hdone.
  - destruct len as [|len]; [lia|].
    cbn [seq map attempt_loop].
    unfold try_except, generate, external.
    pose proof (Hfail 0%nat ltac:(lia)) as Hfirst.
    rewrite Nat.mul_0_r, Nat.add_0_r in Hfirst. rewrite Hfirst.
    rewrite (proj2 (Z.eqb_neq (Z.of_nat a) (max_retries cfg - 1))) by lia.
    unfold mbind, M_bind, bind, sleep, emit. cbn [trace self].
    rewrite (IH (fun j => e (S j)) (S a) len); cbn [trace self].
    + unfold failed_attempts. cbn [seq flat_map]. by rewrite <- !app_assoc.
    + lia.
    + lia.
    + intros j Hj. rewrite !length_app. cbn [length].
      replace (length (trace w) + 1 + 1 + 2 * j)%nat
        with (length (trace w) + 2 * S j)%nat by lia.
      apply Hfail. lia.
    + rewrite !length_app. cbn [length].
      replace (length (trace w) + 1 + 1 + 2 * k)%nat
        with (length (trace w) + 2 * S k)%nat by lia.
      exact Hdone.
Qed.

Lemma attempt_loop_gives_up (cfg : EnsembleConfig) (model : Model)
    (name query : string) (len : nat) :
  forall (e : nat -> exn) (a : nat) (w : World O),
    Z.of_nat (a + S len) = max_retries cfg ->
    (forall j, (j <= len)%nat ->
       generate_outcome B (length (trace w) + 2 * j) model query = Raise (e j)) ->
    attempt_loop B cfg model name query (map Z.of_nat (seq a (S len))) w
    = (Raise (e len),
       mk_world
         (trace w ++ failed_attempts cfg model query a len
          ++ [EvGenerate model query])
         (self w)).
Proof.
  induction len as [|len IH]; intros e a w Hmax Hfail.
  - cbn [seq map attempt_loop].
    unfold try_except, generate, external.
    pose proof (Hfail 0%nat ltac:(lia)) as Hfirst.
    rewrite Nat.mul_0_r, Nat.add_0_r in Hfirst. rewrite Hfirst.
    by rewrite (proj2 (Z.eqb_eq (Z.of_nat a) (max_retries cfg - 1))) by lia.
  - change (seq a (S (S len))) with (a :: seq (S a) (S len)).
    cbn [map]. cbn [attempt_loop].
    unfold try_except, generate, external.
    pose proof (Hfail 0%nat ltac:(lia)) as Hfirst.
    rewrite Nat.mul_0_r, Nat.add_0_r in Hfirst. rewrite Hfirst.
    rewrite (proj2 (Z.eqb_neq (Z.of_nat a) (max_retries cfg - 1))) by lia.
    unfold mbind, M_bind, bind, sleep, emit. cbn [trace self].
    rewrite (IH (fun j => e (S j)) (S a)); cbn [trace self].
    + unfold failed_attempts. cbn [seq flat_map]. by rewrite <- !app_assoc.
    + lia.
    + intros j Hj. rewrite !length_app. cbn [length].
      replace (length (trace w) + 1 + 1 + 2 * j)%nat
        with (length (trace w) + 2 * S j)%nat by lia.
      apply Hfail. lia.
Qed.
End retry.

(** X19: when the model is registered, its first [k] attempts raise and
    attempt [k + 1] answers, with [k] less than [max_retries],
    [_generate_single_response] returns that answer; it asked the model
    [k + 1] times with the same query and slept after the failed attempt
    number [j] for [retry_delay * j] seconds, and did nothing else. *)
Theorem retry_succeeds_after_failures {O} (B : Backend) (cfg : EnsembleConfig)
    (reg : ModelRegistry) (name query response : string) (model : Model)
    (e : nat -> exn) (k : nat) (w : World O) :
  Registry.get reg name = Done model ->
  (Z.of_nat k < max_retries cfg)%Z ->
  (forall j, (j < k)%nat ->
     generate_outcome B (length (trace w) + 2 * j) model query = Raise (e j)) ->
  generate_outcome B (length (trace w) + 2 * k) model query = Done response ->
  _generate_single_response B cfg reg name query w
  = (Done response,
     mk_world
       (trace w ++ failed_attempts cfg model query 0 k
        ++ [EvGenerate model query])
       (self w)).
Proof.
  intros Hget Hk Hfail Hdone.
  unfold _generate_single_response, mbind, M_bind, bind, lift, range.
  rewrite Hget.
  apply (attempt_loop_succeeds B cfg model name query response k e); try done;
    lia.
Qed.

Lemma retry_succeeds_after_failures_witness :
  Registry.get Scenarios.one_expert_registry "physiology"
  = Done (Scenarios.expert "physiology") /\
  (Z.of_nat 1 < max_retries default_config)%Z /\
  _generate_single_response Scenarios.busy_once default_config
    Scenarios.one_expert_registry "physiology" "How do I raise my VO2 max?"
    (Scenarios.fresh tt)
  = (Done "answer",
     mk_world
       [EvGenerate (Scenarios.expert "physiology") "How do I raise my VO2 max?";
        EvSleep (1 * inject_Z (Z.of_nat 0 + 1))%Q;
        EvGenerate (Scenarios.expert "physiology") "How do I raise my VO2 max?"]
       tt).
Proof.
  assert (Hk : (Z.of_nat 1 < max_retries default_config)%Z) by (simpl; lia).
  split; [reflexivity|]. split; [exact Hk|].
  refine (retry_succeeds_after_failures Scenarios.busy_once default_config
            Scenarios.one_expert_registry "physiology"
            "How do I raise my VO2 max?" "answer" _
            (fun _ => runtime_error "busy") 1 (Scenarios.fresh tt)
            eq_refl Hk _ eq_refl).
  intros [|j] Hj; [reflexivity|lia].
Defined.

(** X20: when the model is registered, [max_retries] is positive and every
    attempt raises, [_generate_single_response] raises the exception of the
    last attempt, after asking the model exactly [max_retries] times and
    sleeping between the attempts, never after the last one. *)
Theorem retry_gives_up_with_last_error {O} (B : Backend)
    (cfg : EnsembleConfig) (reg : ModelRegistry) (name query : string)
    (model : Model) (e : nat -> exn) (w : World O) :
  Registry.get reg name = Done model ->
  (0 < max_retries cfg)%Z ->
  (forall j, (Z.of_nat j < max_retries cfg)%Z ->
     generate_outcome B (length (trace w) + 2 * j) model query = Raise (e j)) ->
  _generate_single_response B cfg reg name query w
  = (Raise (e (Z.to_nat (max_retries cfg) - 1)%nat),
     mk_world
       (trace w
        ++ failed_attempts cfg model query 0 (Z.to_nat (max_retries cfg) - 1)
        ++ [EvGenerate model query])
       (self w)).
Proof.
  intros Hget Hpos Hfail.
  unfold _generate_single_response, mbind, M_bind, bind, lift, range.
  rewrite Hget.
  destruct (Z.to_nat (max_retries cfg)) as [|len] eqn:Hlen; [lia|].
  replace (S len - 1)%nat with len by lia.
  apply (attempt_loop_gives_up B cfg model name query len e); [lia|].
  intros j Hj. apply Hfail. lia.
Qed.

Lemma retry_gives_up_with_last_error_witness :
  Registry.get Scenarios.summarizer_registry "summarizer"
  = Done (Scenarios.expert "summarizer") /\
  (0 < max_retries default_config)%Z /\
  fst (_generate_single_response Scenarios.summarizer_down default_config
         Scenarios.summarizer_registry "summarizer"
         "How do I raise my VO2 max?" (Scenarios.fresh tt))
  = Raise (runtime_error "summarizer unavailable").
Proof.
  assert (Hpos : (0 < max_retries default_config)%Z) by (simpl; lia).
  split; [reflexivity|]. split; [exact Hpos|].
  by rewrite (retry_gives_up_with_last_error Scenarios.summarizer_down
                default_config Scenarios.summarizer_registry "summarizer"
                "How do I raise my VO2 max?" (Scenarios.expert "summarizer")
                (fun _ => runtime_error "summarizer unavailable")
                (Scenarios.fresh tt) eq_refl Hpos
                (fun j _ => eq_refl)).
Defined.

Lemma attempt_loop_bounded {O} (B : Backend) (cfg : EnsembleConfig)
    (model : Model) (name query : string) (attempts : list Z) (w : World O) :
  exists events r,
    attempt_loop B cfg model name query attempts w
    = (r, mk_world (trace w ++ events) (self w)) /\
    (length (ChainRuns.asked events) <= length attempts)%nat /\
    Forall (fun ev =>
              ev = EvGenerate model query \/ exists seconds, ev = EvSleep seconds)
      events.
Proof.
  revert w. induction attempts as [|attempt rest IH]; intros w.
  - exists [], (Raise (runtime_error ("All attempts failed for model " +:+ name))).
    simpl. rewrite app_nil_r. split; [by destruct w|]. split; [lia|constructor].
  - cbn [attempt_loop]. unfold try_except, generate, external.
    assert (Hone : forall r : result string,
      exists events r',
        (r, mk_world (trace w ++ [EvGenerate model query]) (self w))
        = (r', mk_world (trace w ++ events) (self w)) /\
        (length (ChainRuns.asked events) <= length (attempt :: rest))%nat /\
        Forall (fun ev =>
                  ev = EvGenerate model query \/
                  exists seconds, ev = EvSleep seconds) events).
    { intros r. exists [EvGenerate model query], r.
      split; [done|]. split; [simpl; lia|]. constructor; [by left|constructor]. }
    destruct (generate_outcome B (length (trace w)) model query) as [r|e|];
      [apply Hone| |apply Hone].
    destruct (attempt =? max_retries cfg - 1)%Z; [apply Hone|].
    unfold mbind, M_bind, bind, sleep, emit. cbn [trace self].
    destruct (IH (mk_world
                    ((trace w ++ [EvGenerate model query])
                     ++ [EvSleep (retry_delay cfg * inject_Z (attempt + 1))%Q])
                    (self w)))
      as (events & r & Hrun & Hlen & Hall).
    rewrite Hrun. cbn [trace self].
    exists (EvGenerate model query
            :: EvSleep (retry_delay cfg * inject_Z (attempt + 1))%Q :: events), r.
    split; [by rewrite <- !app_assoc|].
    split.
    + change (ChainRuns.asked
                (EvGenerate model query
                 :: EvSleep (retry_delay cfg * inject_Z (attempt + 1))%Q
                 :: events))
        with (model :: ChainRuns.asked events).
      simpl. lia.
    + constructor; [by left|]. constructor; [right; by eexists|done].
Qed.

(** X21: whatever the model does, [_generate_single_response] asks it at
    most [max_retries] times and otherwise only sleeps; it leaves the state
    of the object alone. With [max_retries] zero or negative it asks
    nothing at all, and for a registered model raises the [RuntimeError]
    "All attempts failed for model <name>". *)
Theorem single_response_attempts_bounded {O} (B : Backend)
    (cfg : EnsembleConfig) (reg : ModelRegistry) (name query : string)
    (w : World O) :
  exists events r,
    _generate_single_response B cfg reg name query w
    = (r, mk_world (trace w ++ events) (self w)) /\
    (Z.of_nat (length (ChainRuns.asked events)) <= Z.max 0 (max_retries cfg))%Z /\
    Forall (fun ev =>
              (exists model,
                 Registry.get reg name = Done model /\
                 ev = EvGenerate model query) \/
              exists seconds, ev = EvSleep seconds) events /\
    ((max_retries cfg <= 0)%Z ->
     events = [] /\
     (contains reg name = true ->
      r = Raise (runtime_error ("All attempts failed for model " +:+ name)))).
Proof.
  unfold _generate_single_response, mbind, M_bind, bind, lift.
  destruct (Registry.get reg name) as [model|e|] eqn:Hget.
  - destruct (attempt_loop_bounded B cfg model name query
                (range (max_retries cfg)) w)
      as (events & r & Hrun & Hlen & Hall).
    exists events, r. split; [exact Hrun|].
    unfold range in Hlen. rewrite length_map, length_seq in Hlen.
    split; [lia|]. split.
    + eapply Forall_impl; [exact Hall|]. simpl.
      intros ev [->|Hsleep]; [left; by exists model|by right].
    + intros Hmax. unfold range in Hrun.
      replace (Z.to_nat (max_retries cfg)) with 0%nat in Hrun by lia.
      simpl in Hrun. unfold raise in Hrun. injection Hrun as <- Htrace.
      split; [|done].
      apply (f_equal trace) in Htrace. cbn [trace] in Htrace.
      rewrite <- (app_nil_r (trace w)) in Htrace at 1.
      by apply app_inv_head in Htrace.
  - exists [], (Raise e). rewrite app_nil_r. split; [by destruct w|].
    split; [simpl; lia|]. split; [constructor|].
    intros _. split; [done|]. unfold contains, od_mem. unfold Registry.get in Hget.
    by destruct (od_get name (models reg)).
  - unfold Registry.get in Hget. by destruct (od_get name (models reg)).
Qed.
End EnsembleRetry.

(** ** The ensemble: fan-out and [generate] as a whole *)
Module EnsembleRuns.
Import Py Models Registry Ensemble OdictKeys.





Lemma try_except_never_raises {S A} (m : M S A) (h : exn -> M S A) (s : S) :
  (forall e s', exists a s'', h e s' = (Done a, s'')) ->
  forall ex, fst (try_except m h s) <> Raise ex.
Proof.
  intros Hh ex. unfold try_except.
  destruct (m s) as [[a|e|] s']; [done| |done].
  by destruct (Hh e s') as (a & s'' & ->).
Qed.

(** X23: [Ensemble.generate] and [MixtureOfExperts.generate] never raise:
    whatever the registry, the router or estimator, the experts and the
    mixer do, an exception raised inside is turned into an answer. *)
Theorem generate_never_raises (np_exp : Q -> Q) (format_2f : Q -> string)
    (fl : Q -> Q) (py_sum : list Q -> Q)
    (B : Backend) (e : Ensemble) (moe : MoE.MixtureOfExperts) (query : string)
    (top_k : Z) (moe_top_k : option Z) (confidence_threshold : option Q)
    (include_info : bool) (w : World Stats) (w' : World MoE.Stats) :
  (forall ex,
     fst (Ensemble_generate B e query top_k include_info w) <> Raise ex) /\
  (forall ex,
     fst (MoE.MoE_generate np_exp format_2f fl py_sum B moe query moe_top_k
            confidence_threshold include_info w') <> Raise ex).
Proof.
  split; intros ex.
  - unfold Ensemble_generate, time_time, external.
    unfold mbind at 1. unfold M_bind at 1. unfold bind at 1. cbn beta iota.
    apply try_except_never_raises. intros e0 s'.
    unfold mbind, M_bind, bind, update_self. cbn beta iota. by do 2 eexists.
  - unfold MoE.MoE_generate, time_time, external.
    unfold mbind at 1. unfold M_bind at 1. unfold bind at 1. cbn beta iota.
    apply try_except_never_raises. intros e0 s'.
    unfold mbind, M_bind, bind, update_self. cbn beta iota. by do 2 eexists.
Qed.

Lemma probed_none (B : Backend) (n : nat) (items : list (string * Model)) :
  (forall n m, is_available_outcome B n m <> Done true) ->
  map fst (List.filter snd (RegistryLifecycle.probed B n items)) = [].
Proof.
  intros Hnone. revert n. induction items as [|[name model] rest IH];
    intros n; simpl; [done|].
  specialize (Hnone n model).
  destruct (is_available_outcome B n model) as [[|]| |]; simpl; try apply IH.
  done.
Qed.

(** X24: when no registered model passes the availability probe (the probe
    answers [False] or raises), [Ensemble.generate] and
    [MixtureOfExperts.generate] return their "no models available" answers.
    They read the clock, probe every registered model once and call nothing
    else: neither router, estimator, expert nor mixer. The query is counted
    in [total_queries] and neither as a success nor as a failure. *)
Theorem no_available_model_short_circuits (np_exp : Q -> Q)
    (format_2f : Q -> string) (fl : Q -> Q) (py_sum : list Q -> Q)
    (B : Backend) (e : Ensemble)
    (moe : MoE.MixtureOfExperts) (query : string) (top_k : Z)
    (moe_top_k : option Z) (confidence_threshold : option Q)
    (include_info : bool) (w : World Stats) (w' : World MoE.Stats) :
  (forall n m,
     is_available_outcome B n m = Done false \/
     exists ex, is_available_outcome B n m = Raise ex) ->
  (NoDup (list_models (registry e)) ->
   Ensemble_generate B e query top_k include_info w
   = (Done (reply include_info "No models are currently available"
              (NoAvailableModel "No models are currently available")),
      mk_world
        (trace w ++ EvClock
         :: map (fun nm => EvIsAvailable (snd nm)) (models (registry e)))
        (count_query (self w)))) /\
  (NoDup (list_models (MoE.registry moe)) ->
   MoE.MoE_generate np_exp format_2f fl py_sum B moe query moe_top_k
     confidence_threshold include_info w'
   = (Done (MoE.reply include_info "No expert models are currently available"
              (MoE.NoExpertAvailable "No expert models are currently available")),
      mk_world
        (trace w' ++ EvClock
         :: map (fun nm => EvIsAvailable (snd nm)) (models (MoE.registry moe)))
        (MoE.count_query (self w')))).
Proof.
  intros Hdown.
  assert (Hends : forall n m, is_available_outcome B n m <> Hang).
  { intros n m. destruct (Hdown n m) as [->|[ex ->]]; done. }
  assert (Hnone : forall n m, is_available_outcome B n m <> Done true).
  { intros n m. destruct (Hdown n m) as [->|[ex ->]]; done. }
  split; intros Hnd.
  - unfold Ensemble_generate, get_available_models, check_availability,
      mbind, M_bind, bind, try_except, time_time, external, update_self.
    cbn [trace self].
    rewrite RegistryLifecycle.check_availability_loop_probed by done.
    cbn [app]. rewrite probed_none by done. cbn [trace self].
    by rewrite <- app_assoc.
  - unfold MoE.MoE_generate, get_available_models, check_availability,
      mbind, M_bind, bind, try_except, time_time, external, update_self.
    cbn [trace self].
    rewrite RegistryLifecycle.check_availability_loop_probed by done.
    cbn [app]. rewrite probed_none by done. cbn [trace self].
    by rewrite <- app_assoc.
Qed.

Lemma no_available_model_short_circuits_witness :
  (forall n m,
     is_available_outcome Scenarios.none_available n m = Done false \/
     exists ex, is_available_outcome Scenarios.none_available n m = Raise ex) /\
  NoDup (list_models (registry Scenarios.small_ensemble)) /\
  Ensemble_generate Scenarios.none_available Scenarios.small_ensemble
    "How do I raise my VO2 max?" 1 false (Scenarios.fresh initial_stats)
  = (Done (Text "No models are currently available"),
     mk_world [EvClock; EvIsAvailable (Scenarios.expert "physiology")]
       (count_query initial_stats)).
Proof.
  assert (Hdown : forall n m,
    is_available_outcome Scenarios.none_available n m = Done false \/
    exists ex, is_available_outcome Scenarios.none_available n m = Raise ex)
    by (intros n m; left; reflexivity).
  assert (Hnd : NoDup (list_models (registry Scenarios.small_ensemble)))
    by apply NoDup_singleton.
  split; [exact Hdown|]. split; [exact Hnd|].
  exact (proj1 (no_available_model_short_circuits Scenarios.exp_at_zero
                  Scenarios.plain_format Scenarios.fixed_point
              Scenarios.exact_sum Scenarios.none_available
                  Scenarios.small_ensemble Scenarios.plain_moe
                  "How do I raise my VO2 max?" 1 None None false
                  (Scenarios.fresh initial_stats)
                  (Scenarios.fresh MoE.initial_stats) Hdown) Hnd).
Defined.

Lemma filter_against_empty (selected : list (string * Q)) :
  List.filter (fun mw => od_mem (fst mw) (@nil (string * string))) selected = [].
Proof. induction selected as [|mw rest IH]; [done|apply IH]. Qed.

(** X25: when every selected model fails, so that the fan-out returns no
    response, [Ensemble.generate] does not fall back and reports no error:
    it calls the mixer with no responses and no weights, returns what the
    mixer returns, and counts the query as a success. *)
Theorem all_failed_is_counted_as_success (B : Backend) (e : Ensemble)
    (query : string) (top_k : Z) (include_routing_info : bool)
    (w w1 w2 w3 w4 : World Stats) (available_models : list string)
    (selected_models : list (string * Q)) (mixed : string) :
  get_available_models B (registry e) (LoneSurvivor.ensemble_started w)
  = (Done available_models, w1) ->
  available_models <> [] ->
  select_models e query available_models top_k w1 = (Done selected_models, w2) ->
  selected_models <> [] ->
  _generate_responses B (config e) (registry e) query selected_models w2
  = (Done [], w3) ->
  mixer e query [] (Some [])
    (mk_world (trace w3 ++ [EvMix query [] (Some [])]) (self w3))
  = (Done mixed, w4) ->
  exists response_time stats,
    Ensemble_generate B e query top_k include_routing_info w
    = (Done (reply include_routing_info mixed
               (Routed selected_models [] response_time)),
       mk_world (trace w4 ++ [EvClock]) stats) /\
    successful_queries stats = (successful_queries (self w4) + 1)%Z /\
    failed_queries stats = failed_queries (self w4).
Proof.
  intros Hav Hsome Hsel Hnonempty Hfan Hmix.
  unfold Ensemble_generate, mbind, M_bind, bind, try_except, time_time,
    external, update_self. cbn [trace self].
  fold (LoneSurvivor.ensemble_started w). rewrite Hav.
  destruct available_models as [|a rest]; [done|].
  rewrite Hsel. destruct selected_models as [|s srest]; [done|].
  rewrite Hfan. unfold combine_responses, call_mixer, mbind, M_bind, bind, emit.
  rewrite filter_against_empty. cbn [od_of_list fold_left trace self].
  match goal with
  | |- context [mixer e query ?r ?ws ?w0] =>
      replace (mixer e query r ws w0) with (Done mixed, w4)
        by (symmetry; exact Hmix)
  end.
  cbn [trace self]. by do 2 eexists.
Qed.

Lemma all_failed_is_counted_as_success_witness :
  let w0 := Scenarios.fresh initial_stats in
  let w1 :=
    snd (get_available_models Scenarios.all_down
           (registry Scenarios.small_ensemble)
           (LoneSurvivor.ensemble_started w0)) in
  let w2 :=
    snd (select_models Scenarios.small_ensemble "How do I raise my VO2 max?"
           ["physiology"] 1 w1) in
  let w3 :=
    snd (_generate_responses Scenarios.all_down
           (config Scenarios.small_ensemble)
           (registry Scenarios.small_ensemble) "How do I raise my VO2 max?"
           [("physiology", 1%Q)] w2) in
  get_available_models Scenarios.all_down (registry Scenarios.small_ensemble)
    (LoneSurvivor.ensemble_started w0)
  = (Done ["physiology"], w1) /\
  select_models Scenarios.small_ensemble "How do I raise my VO2 max?"
    ["physiology"] 1 w1
  = (Done [("physiology", 1%Q)], w2) /\
  _generate_responses Scenarios.all_down (config Scenarios.small_ensemble)
    (registry Scenarios.small_ensemble) "How do I raise my VO2 max?"
    [("physiology", 1%Q)] w2
  = (Done [], w3) /\
  fst (Ensemble_generate Scenarios.all_down Scenarios.small_ensemble
         "How do I raise my VO2 max?" 1 false w0)
  = Done (Text "MIXED").
Proof.
  intros w0 w1 w2 w3.
  assert (H1 : get_available_models Scenarios.all_down
                 (registry Scenarios.small_ensemble)
                 (LoneSurvivor.ensemble_started w0)
               = (Done ["physiology"], w1)) by (vm_compute; reflexivity).
  assert (H2 : select_models Scenarios.small_ensemble
                 "How do I raise my VO2 max?" ["physiology"] 1 w1
               = (Done [("physiology", 1%Q)], w2)) by (vm_compute; reflexivity).
  assert (H3 : _generate_responses Scenarios.all_down
                 (config Scenarios.small_ensemble)
                 (registry Scenarios.small_ensemble)
                 "How do I raise my VO2 max?" [("physiology", 1%Q)] w2
               = (Done [], w3)) by (vm_compute; reflexivity).
  split; [exact H1|]. split; [exact H2|]. split; [exact H3|].
  destruct (all_failed_is_counted_as_success Scenarios.all_down
              Scenarios.small_ensemble "How do I raise my VO2 max?" 1 false
              w0 w1 w2 w3 _ ["physiology"] [("physiology", 1%Q)] "MIXED"
              H1 ltac:(discriminate) H2 ltac:(discriminate) H3 eq_refl)
    as (response_time & stats & Hrun & _).
  by rewrite Hrun.
Defined.
End EnsembleRuns.

(** ** The mixture of experts: selection and weights *)
Module MoESelection.
Import Py Models Registry MoE OrderFacts.

Lemma qualified_elem (confidence_scores : odict Q) (threshold : Q)
    (ec : string * Q) :
  ec ∈ qualified confidence_scores threshold <->
  ec ∈ confidence_scores /\ (threshold <= snd ec)%Q.
Proof.
  unfold qualified. rewrite !list_elem_of_In, filter_In.
  by rewrite MixerConsensus.Qgeb_spec.
Qed.

Lemma Done_inj {A} (a b : A) : Done a = Done b -> a = b.
Proof. by intros [= ->]. Qed.

(** X26: whatever [_select_experts] returns, every selected expert has a
    confidence score that reaches the threshold, the returned values never
    increase along the list, and for [max_experts >= 0] at most
    [max_experts] experts are selected. With the "top_k" and "threshold"
    methods the returned pairs are entries of the confidence scores. *)
Theorem select_experts_bounded (np_exp : Q -> Q) (moe : MixtureOfExperts)
    (confidence_scores : odict Q) (max_experts : Z) (threshold : Q)
    (selected : list (string * Q)) :
  _select_experts np_exp moe confidence_scores max_experts threshold
  = Done selected ->
  Forall (fun ec =>
            exists confidence,
              (fst ec, confidence) ∈ confidence_scores /\
              (threshold <= confidence)%Q) selected /\
  descending snd selected /\
  ((0 <= max_experts)%Z -> (Z.of_nat (length selected) <= max_experts)%Z) /\
  (aggregation_method (config moe) <> "weighted" ->
   forall ec, ec ∈ selected -> ec ∈ confidence_scores).
Proof.
  unfold _select_experts.
  destruct (qualified confidence_scores threshold) as [|q0 qs] eqn:Hq.
  { intros [= <-]. split; [constructor|]. split; [done|].
    split; [simpl; lia|]. intros _ ec Hec. by apply elem_of_nil in Hec. }
  cbv beta iota.
  assert (Hq' : forall ec, ec ∈ q0 :: qs ->
                  ec ∈ confidence_scores /\ (threshold <= snd ec)%Q).
  { intros ec Hec. rewrite <- Hq in Hec. by apply qualified_elem in Hec. }
  clear Hq. remember (q0 :: qs) as qualified_experts eqn:Heq. clear Heq.
  assert (Hlen : forall (l : list (string * Q)),
            (0 <= max_experts)%Z ->
            (Z.of_nat (length (slice_to max_experts l)) <= max_experts)%Z).
  { intros l Hk. unfold slice_to. rewrite (proj2 (Z.leb_le 0 max_experts) Hk).
    pose proof (firstn_le_length (Z.to_nat max_experts) l). lia. }
  assert (Hdesc : forall (l : list (string * Q)),
            descending snd (slice_to max_experts (sort_desc snd l))).
  { intros l. destruct (QsumFacts.slice_to_firstn max_experts (sort_desc snd l))
      as [n ->]. apply descending_firstn, sort_desc_descending. }
  assert (Hplain : forall ec,
            ec ∈ slice_to max_experts (sort_desc snd qualified_experts) ->
            ec ∈ confidence_scores /\ (threshold <= snd ec)%Q).
  { intros ec Hec.
    apply EmbeddingRouterSelection.slice_to_subseteq, sort_desc_elem in Hec.
    by apply Hq'. }
  destruct (decide (aggregation_method (config moe) = "weighted")) as [Hw|Hw].
  - intros Hsel. apply Done_inj in Hsel. subst selected.
    split; [|split; [apply Hdesc|split; [apply Hlen|done]]].
    apply Forall_forall. intros ec Hec.
    apply EmbeddingRouterSelection.slice_to_subseteq, sort_desc_elem,
      EmbeddingRouterSelection.combine_fst_elem in Hec.
    apply list_elem_of_fmap in Hec as ([name confidence] & Hname & Hin).
    apply Hq' in Hin as [Hin Hthr].
    exists confidence. simpl in *. by rewrite Hname.
  - assert (Hboth :
      Forall (fun ec =>
                exists confidence,
                  (fst ec, confidence) ∈ confidence_scores /\
                  (threshold <= confidence)%Q)
        (slice_to max_experts (sort_desc snd qualified_experts))).
    { apply Forall_forall. intros [name confidence] Hec.
      apply Hplain in Hec as [Hin Hthr]. by exists confidence. }
    destruct (decide (aggregation_method (config moe) = "top_k")) as [Ht|Ht];
      [|destruct (decide (aggregation_method (config moe) = "threshold"))
          as [Hh|Hh]; [|done]];
      intros Hsel; apply Done_inj in Hsel; subst selected;
      (split; [exact Hboth|split; [apply Hdesc|split; [apply Hlen|]]]);
      intros _ ec Hec; by apply Hplain in Hec as [Hin _].
Qed.

Lemma select_experts_bounded_witness :
  _select_experts Scenarios.exp_at_zero Scenarios.moe_with_meta
    [("physiology", (1 # 2)%Q); ("nutrition", (3 # 4)%Q);
     ("recovery", (1 # 20)%Q)] 5 (1 # 10)%Q
  = Done [("nutrition", (3 # 4)%Q); ("physiology", (1 # 2)%Q)] /\
  descending snd [("nutrition", (3 # 4)%Q); ("physiology", (1 # 2)%Q)].
Proof.
  assert (H : _select_experts Scenarios.exp_at_zero Scenarios.moe_with_meta
                [("physiology", (1 # 2)%Q); ("nutrition", (3 # 4)%Q);
                 ("recovery", (1 # 20)%Q)] 5 (1 # 10)%Q
              = Done [("nutrition", (3 # 4)%Q); ("physiology", (1 # 2)%Q)])
    by (vm_compute; reflexivity).
  split; [exact H|].
  exact (proj1 (proj2
    (select_experts_bounded Scenarios.exp_at_zero Scenarios.moe_with_meta
       _ 5 (1 # 10)%Q _ H))).
Defined.

(** The weights of the selected experts that answered, as [generate] builds
    them before normalizing. *)
Definition surviving_weights (selected_experts : list (string * Q))
    (expert_responses : odict string) : odict Q :=
  od_of_list
    (List.filter (fun ec => od_mem (fst ec) expert_responses) selected_experts).

Lemma od_mem_false_keys {V} (k : string) (d : odict V) :
  od_mem k d = false <-> k ∉ od_keys d.
Proof.
  rewrite <- OdictKeys.od_mem_keys. by destruct (od_mem k d).
Qed.

(** Inserting pairs with distinct new keys appends them. *)
Lemma od_of_list_fresh {V} (l acc : odict V) :
  NoDup (map fst l) ->
  (forall k, k ∈ map fst l -> k ∉ od_keys acc) ->
  fold_left (fun d kv => od_set (fst kv) (snd kv) d) l acc = acc ++ l.
Proof.
  revert acc. induction l as [|[k v] l IH]; intros acc Hnd Hfresh; simpl.
  - by rewrite app_nil_r.
  - simpl in Hnd. apply NoDup_cons in Hnd as [Hk Hnd].
    rewrite OdictKeys.od_set_fresh.
    2:{ apply od_mem_false_keys, Hfresh, list_elem_of_here. }
    rewrite IH; [by rewrite <- app_assoc|done|].
    intros k' Hk'. unfold od_keys. rewrite map_app, elem_of_app. simpl.
    rewrite list_elem_of_singleton. intros [Hin| ->]; [|done].
    by apply (Hfresh k'); [apply list_elem_of_further|].
Qed.

Lemma od_of_list_NoDup {V} (l : odict V) :
  NoDup (map fst l) -> od_of_list l = l.
Proof.
  intros Hnd. unfold od_of_list. rewrite od_of_list_fresh; [done..|].
  intros k _. apply not_elem_of_nil.
Qed.

Lemma NoDup_fst_filter {V} (P : string * V -> bool) (l : list (string * V)) :
  NoDup (map fst l) -> NoDup (map fst (List.filter P l)).
Proof.
  induction l as [|x l IH]; simpl; [done|].
  intros [Hx Hnd]%NoDup_cons. destruct (P x); simpl; [|by apply IH].
  constructor; [|by apply IH].
  intros Hin. apply Hx.
  apply list_elem_of_fmap in Hin as (y & Hy & Hin).
  apply list_elem_of_fmap. exists y. split; [done|].
  apply list_elem_of_In, filter_In in Hin as [Hin _].
  by apply list_elem_of_In.
Qed.

(** One step of the fan-out leaves the responses alone or stores one
    response under the name of the expert. *)
Lemma ask_once_responses {O} (B : Backend) (timeout : Z) (reg : ModelRegistry)
    (query name : string) (responses : odict string) (w : World O) :
  fst (FanOutProps.ask_once B timeout reg query name (responses, w)) = responses \/
  exists response,
    fst (FanOutProps.ask_once B timeout reg query name (responses, w))
    = od_set name response responses.
Proof.
  unfold FanOutProps.ask_once.
  destruct (timeout <=? 0)%Z; [by left|].
  destruct (Registry.get reg name) as [model|e|]; [|by left..].
  destruct (Qle_bool _ _); [by left|].
  destruct (generate_outcome B _ model query) as [response|e|];
    [right; by eexists|by left..].
Qed.

(** The responses of the fan-out are keyed by the selected experts that
    answered, in the order of the selection. *)
Lemma fan_out_keys {O} (B : Backend) (timeout : Z) (reg : ModelRegistry)
    (query : string) (selected : list (string * Q)) :
  forall (acc : odict string) (w : World O),
    NoDup (map fst selected) ->
    (forall name, name ∈ map fst selected -> name ∉ od_keys acc) ->
    let out :=
      fst (FanOutProps.single_attempt_fan_out B timeout reg query selected
             (acc, w)) in
    od_keys out
    = od_keys acc
      ++ map fst (List.filter (fun ec => od_mem (fst ec) out) selected).
Proof.
  induction selected as [|[name conf] rest IH]; intros acc w Hnd Hfresh out.
  - subst out. simpl. by rewrite app_nil_r.
  - simpl in Hnd. apply NoDup_cons in Hnd as [Hname Hnd].
    subst out. unfold FanOutProps.single_attempt_fan_out. cbn [fold_left fst].
    destruct (FanOutProps.ask_once B timeout reg query name (acc, w))
      as [acc1 w1] eqn:Hstep.
    fold (FanOutProps.single_attempt_fan_out B timeout reg query rest (acc1, w1)).
    set (out := fst (FanOutProps.single_attempt_fan_out B timeout reg query
                       rest (acc1, w1))).
    assert (Hacc : name ∉ od_keys acc) by apply Hfresh, list_elem_of_here.
    pose proof (ask_once_responses B timeout reg query name acc w) as Hone.
    rewrite Hstep in Hone. simpl in Hone.
    assert (Hfresh1 : forall n, n ∈ map fst rest -> n ∉ od_keys acc1).
    { intros n Hn. destruct Hone as [->|[response ->]].
      - apply Hfresh. by apply list_elem_of_further.
      - rewrite OdictKeys.od_keys_set.
        destruct (od_mem name acc); [apply Hfresh; by apply list_elem_of_further|].
        rewrite elem_of_app, list_elem_of_singleton. intros [Hin| ->]; [|done].
        by apply (Hfresh n); [apply list_elem_of_further|]. }
    specialize (IH acc1 w1 Hnd Hfresh1). cbv zeta in IH. fold out in IH.
    cbn [List.filter fst].
    destruct Hone as [->|[response ->]].
    + assert (Hout : od_mem name out = false).
      { apply od_mem_false_keys. rewrite IH, elem_of_app. intros [Hin|Hin];
          [done|]. apply Hname.
        apply list_elem_of_fmap in Hin as (y & Hy & Hin).
        apply list_elem_of_fmap. exists y. split; [done|].
        apply list_elem_of_In, filter_In in Hin as [Hin _].
        by apply list_elem_of_In. }
      by rewrite Hout.
    + rewrite OdictKeys.od_set_fresh in IH by by apply od_mem_false_keys.
      assert (Hkeys : od_keys (acc ++ [(name, response)]) = od_keys acc ++ [name]).
      { unfold od_keys. by rewrite map_app. }
      rewrite Hkeys in IH.
      assert (Hout : od_mem name out = true).
      { apply OdictKeys.od_mem_keys. rewrite IH, !elem_of_app.
        left. right. apply list_elem_of_here. }
      rewrite Hout. cbn [map fst]. by rewrite IH, <- app_assoc.
Qed.

(** X27: the mixer gets one weight for every response. When the selected
    experts have distinct names, the weights that [generate] builds from
    the responses of the fan-out are keyed by exactly the experts that
    answered, in the order of their responses, and each weight is the one
    with which the expert was selected; normalizing, when it happens,
    replaces each weight by its quotient by the sum of the weights, both
    as the float arithmetic computes them, and changes no key. *)
Theorem mixer_gets_a_weight_per_response (fl : Q -> Q) (py_sum : list Q -> Q)
    (B : Backend) (moe : MixtureOfExperts)
    (query : string) (selected_experts : list (string * Q))
    (expert_responses : odict string) (w w' : World Stats) :
  NoDup (map fst selected_experts) ->
  _generate_expert_responses B (config moe) (registry moe) query
    selected_experts w
  = (Done expert_responses, w') ->
  let kept := surviving_weights selected_experts expert_responses in
  let total_weight := py_sum (od_values kept) in
  let weights :=
    if normalize_weights (config moe) && Qgtb total_weight 0
    then map (fun kv => (fst kv, fl (snd kv / total_weight)%Q)) kept
    else kept in
  od_keys kept = od_keys expert_responses /\
  od_keys weights = od_keys expert_responses /\
  (forall name weight, (name, weight) ∈ kept -> (name, weight) ∈ selected_experts) /\
  (length expert_responses <> 1%nat ->
   combine_responses fl py_sum moe query selected_experts expert_responses
   = call_mixer moe query expert_responses weights).
Proof.
  intros Hnd Hrun kept total_weight weights.
  assert (Hout : expert_responses
                 = fst (FanOutProps.single_attempt_fan_out B
                          (timeout (config moe)) (registry moe) query
                          selected_experts ([], w))).
  { assert (Hfan : _generate_expert_responses B (config moe) (registry moe)
                      query selected_experts w
                    = FanOutProps.moe_fan_out B (config moe) (registry moe)
                        query selected_experts w).
    { unfold _generate_expert_responses, FanOutProps.moe_fan_out.
      destruct (parallel_execution (config moe) && _);
        [rewrite FanOutProps.moe_tasks|]; apply FanOutProps.moe_in_turn. }
    rewrite Hfan in Hrun. unfold FanOutProps.moe_fan_out in Hrun.
    by injection Hrun as <- _. }
  assert (Hkept : kept
                  = List.filter (fun ec => od_mem (fst ec) expert_responses)
                      selected_experts).
  { subst kept. unfold surviving_weights.
    apply od_of_list_NoDup. by apply NoDup_fst_filter. }
  assert (Hkeys : od_keys kept = od_keys expert_responses).
  { rewrite Hkept.
    pose proof (fan_out_keys B (timeout (config moe)) (registry moe) query
                  selected_experts [] w Hnd
                  ltac:(intros; apply not_elem_of_nil)) as H.
    cbv zeta in H. clear Hkept. subst expert_responses. symmetry. exact H. }
  split; [exact Hkeys|]. split; [|split].
  - subst weights. destruct (_ && _); [|done].
    rewrite <- Hkeys. unfold od_keys. rewrite map_map. by apply map_ext.
  - intros name weight Hin. rewrite Hkept in Hin.
    apply list_elem_of_In, filter_In in Hin as [Hin _].
    by apply list_elem_of_In.
  - intros Hlen. unfold combine_responses.
    fold (surviving_weights selected_experts expert_responses). fold kept.
    fold total_weight.
    assert (Hweights :
      match kept with
      | [] => kept
      | _ :: _ =>
          if normalize_weights (config moe)
          then if Qgtb total_weight 0
               then map (fun kv => (fst kv, fl (snd kv / total_weight)%Q)) kept
               else kept
          else kept
      end = weights).
    { subst weights. destruct kept as [|kv kept']; [by destruct (_ && _)|].
      by destruct (normalize_weights (config moe)). }
    rewrite Hweights.
    destruct expert_responses as [|[n1 t1] [|r2 rest]]; done.
Qed.

Lemma mixer_gets_a_weight_per_response_witness :
  NoDup (map fst [("physiology", (3 # 4)%Q); ("nutrition", (1 # 4)%Q)]) /\
  _generate_expert_responses Scenarios.healthy_backend
    (config Scenarios.plain_moe) (registry Scenarios.plain_moe)
    "How do I raise my VO2 max?"
    [("physiology", (3 # 4)%Q); ("nutrition", (1 # 4)%Q)]
    (Scenarios.fresh initial_stats)
  = (Done [("physiology", "answer"); ("nutrition", "answer")],
     mk_world
       [EvGenerate (Scenarios.expert "physiology") "How do I raise my VO2 max?";
        EvGenerate (Scenarios.expert "nutrition") "How do I raise my VO2 max?"]
       initial_stats) /\
  combine_responses Scenarios.fixed_point Scenarios.exact_sum
    Scenarios.plain_moe "How do I raise my VO2 max?"
    [("physiology", (3 # 4)%Q); ("nutrition", (1 # 4)%Q)]
    [("physiology", "answer"); ("nutrition", "answer")]
  = call_mixer Scenarios.plain_moe "How do I raise my VO2 max?"
      [("physiology", "answer"); ("nutrition", "answer")]
      [("physiology", (3 # 4)%Q); ("nutrition", (1 # 4)%Q)].
Proof.
  assert (Hnd : NoDup (map fst [("physiology", (3 # 4)%Q);
                                ("nutrition", (1 # 4)%Q)])).
  { apply NoDup_cons. split; [|apply NoDup_singleton].
    intros Hin. apply list_elem_of_singleton in Hin. discriminate Hin. }
  assert (Hrun :
    _generate_expert_responses Scenarios.healthy_backend
      (config Scenarios.plain_moe) (registry Scenarios.plain_moe)
      "How do I raise my VO2 max?"
      [("physiology", (3 # 4)%Q); ("nutrition", (1 # 4)%Q)]
      (Scenarios.fresh initial_stats)
    = (Done [("physiology", "answer"); ("nutrition", "answer")],
       mk_world
         [EvGenerate (Scenarios.expert "physiology") "How do I raise my VO2 max?";
          EvGenerate (Scenarios.expert "nutrition") "How do I raise my VO2 max?"]
         initial_stats)) by (vm_compute; reflexivity).
  split; [exact Hnd|]. split; [exact Hrun|].
  exact (proj2 (proj2 (proj2
    (mixer_gets_a_weight_per_response Scenarios.fixed_point
       Scenarios.exact_sum Scenarios.healthy_backend
       Scenarios.plain_moe "How do I raise my VO2 max?"
       [("physiology", (3 # 4)%Q); ("nutrition", (1 # 4)%Q)] _ _ _ Hnd Hrun)))
    ltac:(discriminate)).
Defined.
End MoESelection.

(** ** The hybrid confidence estimator *)
Module HybridConfidenceProps.
Import Py Confidence OdictKeys.

(** The weights that the constructor starts from: the given ones, or equal
    weights when none are given. *)
Definition used_weights (estimators : list Estimator) (weights : option (list Q))
    : list Q :=
  match weights with
  | Some (w :: ws) => w :: ws
  | _ => repeat 1%Q (length estimators)
  end.

Lemma Qsum_repeat_one (n : nat) : (Qsum (repeat 1%Q n) == Qnat n)%Q.
Proof.
  induction n as [|n IH]; [reflexivity|].
  cbn [repeat Qsum fold_right]. fold (Qsum (repeat 1%Q n)). rewrite IH.
  unfold Qnat. rewrite Nat2Z.inj_succ, <- Z.add_1_l, inject_Z_plus. ring.
Qed.

Lemma Qgtb_spec (a b : Q) : Qgtb a b = true <-> (b < a)%Q.
Proof.
  split; [apply OrderFacts.Qgtb_true|].
  intros Hlt. unfold Qgtb. apply negb_true_iff.
  destruct (Qle_bool a b) eqn:Hle; [|done].
  apply Qle_bool_iff in Hle. exfalso. by apply (Qlt_not_le _ _ Hlt).
Qed.

(** X28: the constructor of [HybridConfidence] raises [ValueError] exactly
    when the number of weights differs from the number of estimators.
    Otherwise the object holds one weight for each estimator; when the
    weights it starts from (the given ones, or all 1 when none are given)
    are not negative, the stored weights are not negative, and when their
    sum is positive the stored weights sum to 1 up to the rounding errors
    of the float arithmetic: within [2u + 2delta + n eta] for an arithmetic
    of relative error [u] and absolute error [eta] and a summation of
    relative error [delta]. *)
Theorem hybrid_weights_are_normalized (fl : Q -> Q) (py_sum : list Q -> Q)
    (u eta delta : Q) (estimators : list Estimator)
    (weights : option (list Q)) (combination_method : string)
    (fl_mono : forall x y, (x <= y)%Q -> (fl x <= fl y)%Q)
    (fl_zero : (fl 0 == 0)%Q)
    (fl_err : forall x, (0 <= x)%Q ->
                ((1 - u) * x - eta <= fl x)%Q /\ (fl x <= (1 + u) * x + eta)%Q)
    (sum_err : forall l, Forall (fun x => 0 <= x)%Q l ->
                 ((1 - delta) * Qsum l <= py_sum l)%Q /\
                 (py_sum l <= (1 + delta) * Qsum l)%Q)
    (u_range : (0 <= u)%Q /\ (u <= 1)%Q)
    (eta_range : (0 <= eta)%Q)
    (delta_range : (0 <= delta)%Q /\ (delta <= 1 # 2)%Q)
    (Hweights : Forall (fun w => 0 <= w)%Q (used_weights estimators weights)) :
  let tolerance :=
    (2 * u + 2 * delta + Qnat (length estimators) * eta)%Q in
  match HybridConfidence_init fl py_sum estimators weights combination_method with
  | Done h =>
      Confidence.estimators h = estimators /\
      length (Confidence.weights h) = length estimators /\
      Forall (fun w => 0 <= w)%Q (Confidence.weights h) /\
      ((0 < Qsum (used_weights estimators weights))%Q ->
       (1 - tolerance <= Qsum (Confidence.weights h))%Q /\
       (Qsum (Confidence.weights h) <= 1 + tolerance)%Q) /\
      (estimators <> [] -> weights = None ->
       (1 - tolerance <= Qsum (Confidence.weights h))%Q /\
       (Qsum (Confidence.weights h) <= 1 + tolerance)%Q)
  | Raise e =>
      e = value_error "Number of weights must match number of estimators" /\
      length (used_weights estimators weights) <> length estimators
  | Hang => False
  end.
Proof.
  intros tolerance. unfold HybridConfidence_init.
  fold (used_weights estimators weights).
  set (used := used_weights estimators weights) in *.
  destruct (length used =? length estimators)%nat eqn:Hlen; simpl negb;
    cbv iota; [|apply Nat.eqb_neq in Hlen; by split].
  apply Nat.eqb_eq in Hlen.
  cbn [Confidence.estimators Confidence.weights].
  assert (Hnorm : (0 < Qsum used)%Q ->
    (1 - tolerance
     <= Qsum (if Qgtb (py_sum used) 0
              then map (fun w => fl (w / py_sum used)%Q) used else used))%Q /\
    (Qsum (if Qgtb (py_sum used) 0
           then map (fun w => fl (w / py_sum used)%Q) used else used)
     <= 1 + tolerance)%Q).
  { intros Hpos.
    destruct (RoundingFacts.normalized_sum fl py_sum u eta delta fl_mono
                fl_zero fl_err sum_err u_range eta_range delta_range used
                Hweights Hpos) as (Htotal & _ & Hlo & Hhi).
    rewrite (proj2 (Qgtb_spec _ _) Htotal). subst tolerance.
    rewrite <- Hlen. by split. }
  split; [done|]. split; [|split; [|split; [exact Hnorm|]]].
  - destruct (Qgtb _ _); [by rewrite length_map|done].
  - destruct (Qgtb (py_sum used) 0) eqn:Hgt; [|done].
    apply Qgtb_spec in Hgt. apply Forall_map.
    eapply Forall_impl; [exact Hweights|]. simpl. intros w Hw.
    apply (RoundingFacts.fl_nonneg fl fl_mono fl_zero).
    apply Qle_shift_div_l; [done|]. lra.
  - intros Hsome Hnone. apply Hnorm. subst used. rewrite Hnone. simpl.
    rewrite Qsum_repeat_one. unfold Qnat.
    change 0%Q with (inject_Z 0). rewrite <- Zlt_Qlt.
    destruct estimators; [done|]. simpl length. lia.
Qed.

Lemma hybrid_weights_are_normalized_witness :
  HybridConfidence_init Scenarios.fixed_point Scenarios.exact_sum
    [Scenarios.steady_estimator; Scenarios.broken_estimator]
    (Some [1%Q; 3%Q]) "weighted_average"
  = Done (mk_hybrid [Scenarios.steady_estimator; Scenarios.broken_estimator]
            [(1 # 4)%Q; (3 # 4)%Q] "weighted_average") /\
  (1 - (2 * 0 + 2 * 0 + Qnat 2 * (1 # 2147483648))
   <= Qsum [(1 # 4)%Q; (3 # 4)%Q])%Q.
Proof.
  pose proof
    (hybrid_weights_are_normalized Scenarios.fixed_point Scenarios.exact_sum
       0 (1 # 2147483648) 0
       [Scenarios.steady_estimator; Scenarios.broken_estimator]
       (Some [1%Q; 3%Q]) "weighted_average"
       RoundingFacts.fixed_point_mono (Qeq_refl 0)
       RoundingFacts.fixed_point_err RoundingFacts.exact_sum_err
       ltac:(split; discriminate) ltac:(discriminate)
       ltac:(split; discriminate)
       ltac:(repeat constructor; discriminate)) as H.
  split; [reflexivity|]. cbv zeta in H.
  change (HybridConfidence_init Scenarios.fixed_point Scenarios.exact_sum
            [Scenarios.steady_estimator; Scenarios.broken_estimator]
            (Some [1%Q; 3%Q]) "weighted_average")
    with (Done (mk_hybrid
                  [Scenarios.steady_estimator; Scenarios.broken_estimator]
                  [(1 # 4)%Q; (3 # 4)%Q] "weighted_average")) in H.
  destruct H as (_ & _ & _ & H & _).
  exact (proj1 (H ltac:(reflexivity))).
Defined.

(** Estimates that lie between 0 and a bound; confidence scores lie between
    0 and 1. *)
Definition within (bound : Q) (estimates : odict Q) : Prop :=
  Forall (fun dc => (0 <= snd dc <= bound)%Q) estimates.

Definition within_unit (estimates : odict Q) : Prop := within 1 estimates.

(** What the weighted average gives for a domain when every estimator is
    fully confident: the weights, accumulated one by one in float
    arithmetic. *)
Definition weight_total (fl : Q -> Q) (weights : list Q) : Q :=
  fold_left (fun total w => fl (total + fl (1 * w))%Q) weights 0%Q.

Lemma od_set_within (bound : Q) (k : string) (v : Q) (d : odict Q) :
  within bound d -> (0 <= v <= bound)%Q -> within bound (od_set k v d).
Proof.
  unfold within. intros Hd Hv.
  induction Hd as [|[k' v'] d Hkv Hd IH]; simpl.
  - constructor; [exact Hv|constructor].
  - destruct (decide (k = k')); constructor; done.
Qed.

Lemma od_get_default_within (domain : string) (estimates : odict Q) :
  within_unit estimates ->
  (0 <= od_get_default domain 0%Q estimates <= 1)%Q.
Proof.
  intros Hwithin. unfold od_get_default.
  destruct (od_get domain estimates) as [v|] eqn:Hget; [|split; discriminate].
  apply od_get_elem in Hget. unfold within_unit, within in Hwithin.
  rewrite Forall_forall in Hwithin. by apply (Hwithin (domain, v)).
Qed.

(** The dictionary built by assigning [value domain] to every domain in
    turn. *)
Lemma assign_within (bound : Q) (value : string -> Q) (domains : list string)
    (combined : odict Q) :
  (forall domain, (0 <= value domain <= bound)%Q) ->
  within bound combined ->
  within bound
    (fold_left (fun combined domain => od_set domain (value domain) combined)
       domains combined) /\
  forall domain,
    domain ∈ od_keys
               (fold_left
                  (fun combined domain => od_set domain (value domain) combined)
                  domains combined) <->
    domain ∈ od_keys combined \/ domain ∈ domains.
Proof.
  intros Hvalue. revert combined.
  induction domains as [|d domains IH]; intros combined Hwithin; simpl.
  - split; [done|]. intros domain. rewrite elem_of_nil. tauto.
  - destruct (IH (od_set d (value d) combined)) as [Hout Hkeys].
    { by apply od_set_within. }
    split; [done|]. intros domain. rewrite Hkeys, od_keys_set, elem_of_cons.
    destruct (od_mem d combined) eqn:Hmem.
    + apply od_mem_keys in Hmem. split; [tauto|].
      intros [?|[->|?]]; tauto.
    + rewrite elem_of_app, list_elem_of_singleton. tauto.
Qed.

Lemma zero_estimates_within (available_domains : list string) :
  within_unit (zero_estimates available_domains).
Proof.
  unfold zero_estimates, od_of_list.
  assert (H : forall acc, within_unit acc ->
            within_unit
              (fold_left (fun d kv => od_set (fst kv) (snd kv) d)
                 (map (fun domain => (domain, 0%Q)) available_domains) acc)).
  { induction available_domains as [|d rest IH]; intros acc Hacc; simpl;
      [done|].
    apply IH. apply od_set_within; [done|]. split; discriminate. }
  apply H. constructor.
Qed.

Lemma collect_estimates_within (estimators : list Estimator) (query : string)
    (available_domains : list string) (all_estimates : list (odict Q)) :
  (forall estimator estimates,
     estimator ∈ estimators ->
     estimator query available_domains = Done estimates ->
     within_unit estimates) ->
  collect_estimates estimators query available_domains = Done all_estimates ->
  Forall within_unit all_estimates /\
  length all_estimates = length estimators.
Proof.
  revert all_estimates.
  induction estimators as [|estimator rest IH]; intros all_estimates Hgood;
    simpl.
  - intros [= <-]. by split.
  - assert (Hrest : forall estimator' estimates,
              estimator' ∈ rest ->
              estimator' query available_domains = Done estimates ->
              within_unit estimates).
    { intros estimator' estimates Hin. apply Hgood.
      by apply list_elem_of_further. }
    destruct (estimator query available_domains) as [estimates|e|] eqn:Hout;
      [| |done];
      (destruct (collect_estimates rest query available_domains)
         as [all_rest|e'|]; [|done..]);
      intros [= <-]; destruct (IH all_rest Hrest eq_refl) as [Hall Hlen];
      (split; [constructor; [|done]|simpl; by rewrite Hlen]).
    + eapply Hgood; [apply list_elem_of_here|exact Hout].
    + apply zero_estimates_within.
Qed.

Section rounded.
Variable fl : Q -> Q.
Hypothesis fl_mono : forall x y, (x <= y)%Q -> (fl x <= fl y)%Q.
Hypothesis fl_zero : (fl 0 == 0)%Q.
Hypothesis fl_one : (fl 1 == 1)%Q.

(** The accumulated sum is never negative, and never more than what the
    same accumulation gives with every estimate replaced by 1. *)
Lemma weighted_sum_loop_bounds (domain : string)
    (all_estimates : list (odict Q)) :
  forall (weights : list Q) (weighted_sum full : Q),
    Forall within_unit all_estimates ->
    Forall (fun w => (0 <= w)%Q) weights ->
    length weights = length all_estimates ->
    (0 <= weighted_sum <= full)%Q ->
    exists total,
      weighted_sum_loop fl domain all_estimates weights weighted_sum
      = Done total /\
      (0 <= total
       <= fold_left (fun total w => fl (total + fl (1 * w))%Q) weights full)%Q.
Proof.
  induction all_estimates as [|estimates rest IH];
    intros weights weighted_sum full Hall Hweights Hlen Hsum.
  - destruct weights; [|done]. exists weighted_sum. by split.
  - destruct weights as [|w ws]; [done|].
    apply Forall_cons in Hall as [Hest Hall].
    apply Forall_cons in Hweights as [Hw Hws].
    cbn [weighted_sum_loop fold_left].
    pose proof (od_get_default_within domain estimates Hest) as [Hg0 Hg1].
    set (g := od_get_default domain 0%Q estimates) in *.
    assert (Hgw0 : (0 <= g * w)%Q) by by apply Qmult_le_0_compat.
    assert (Hgw1 : (g * w <= 1 * w)%Q) by by apply Qmult_le_compat_r.
    pose proof (RoundingFacts.fl_nonneg fl fl_mono fl_zero _ Hgw0) as Hp0.
    pose proof (fl_mono _ _ Hgw1) as Hp1.
    destruct Hsum as [Hs0 Hs1].
    apply IH; [done|done|by injection Hlen|]. split.
    + apply (RoundingFacts.fl_nonneg fl fl_mono fl_zero). lra.
    + apply fl_mono. lra.
Qed.

Lemma weighted_average_loop_within (weights : list Q)
    (all_estimates : list (odict Q)) (available_domains : list string) :
  forall combined,
    Forall within_unit all_estimates ->
    Forall (fun w => (0 <= w)%Q) weights ->
    length weights = length all_estimates ->
    within (weight_total fl weights) combined ->
    exists out,
      weighted_average_loop fl weights all_estimates available_domains combined
      = Done out /\
      within (weight_total fl weights) out /\
      forall domain,
        domain ∈ od_keys out <->
        domain ∈ od_keys combined \/ domain ∈ available_domains.
Proof.
  induction available_domains as [|d rest IH];
    intros combined Hall Hweights Hlen Hwithin.
  - exists combined. split; [done|]. split; [done|].
    intros domain. rewrite elem_of_nil. tauto.
  - cbn [weighted_average_loop].
    destruct (weighted_sum_loop_bounds d all_estimates weights 0%Q 0%Q
                Hall Hweights Hlen ltac:(split; apply Qle_refl))
      as (total & -> & Hbounds).
    destruct (IH (od_set d total combined) Hall Hweights Hlen)
      as (out & -> & Hout & Hkeys).
    { by apply od_set_within. }
    exists out. split; [done|]. split; [done|].
    intros domain. rewrite Hkeys, od_keys_set, elem_of_cons.
    destruct (od_mem d combined) eqn:Hmem.
    + apply od_mem_keys in Hmem. split; [tauto|].
      intros [?|[->|?]]; tauto.
    + rewrite elem_of_app, list_elem_of_singleton. tauto.
Qed.

Lemma vote_within (votes n : nat) :
  (votes <= n)%nat -> (0 < n)%nat -> (0 <= fl (Qnat votes / Qnat n) <= 1)%Q.
Proof.
  intros Hle Hpos. unfold Qnat.
  assert (Hn : (0 < inject_Z (Z.of_nat n))%Q).
  { change 0%Q with (inject_Z 0). rewrite <- Zlt_Qlt. lia. }
  split.
  - apply (RoundingFacts.fl_nonneg fl fl_mono fl_zero).
    apply Qle_shift_div_l; [done|]. rewrite Qmult_0_l.
    change 0%Q with (inject_Z 0). rewrite <- Zle_Qle. lia.
  - rewrite <- fl_one. apply fl_mono.
    apply Qle_shift_div_r; [done|]. rewrite Qmult_1_l.
    rewrite <- Zle_Qle. lia.
Qed.
End rounded.

Lemma max_fold_within (domain : string) (all_estimates : list (odict Q)) :
  Forall within_unit all_estimates ->
  forall max_confidence,
    (0 <= max_confidence <= 1)%Q ->
    (0 <= fold_left
            (fun max_confidence estimates =>
               py_max max_confidence (od_get_default domain 0%Q estimates))
            all_estimates max_confidence <= 1)%Q.
Proof.
  induction 1 as [|estimates rest Hest _ IH]; intros m Hm; simpl; [done|].
  apply IH. unfold py_max.
  destruct (Qgtb _ _); [by apply od_get_default_within|done].
Qed.

(** X29: when every estimator that answers returns scores between 0 and 1
    and the weights are not negative and as many as the estimators, no
    confidence that [HybridConfidence.estimate_confidence] returns is
    negative, with each of the three combination methods and also when
    estimators raise. With "max" and "vote" none exceeds 1; with
    "weighted_average" none exceeds what fully confident estimators would
    give, which is the sum of the weights as the float arithmetic
    accumulates it (1 for normalized weights, up to rounding). The domains
    scored are exactly the available domains. This holds for every float
    arithmetic that is monotone and keeps 0 and 1. *)
Theorem hybrid_confidence_is_bounded (fl : Q -> Q) (h : HybridConfidence)
    (query : string) (available_domains : list string) (combined : odict Q)
    (fl_mono : forall x y, (x <= y)%Q -> (fl x <= fl y)%Q)
    (fl_zero : (fl 0 == 0)%Q)
    (fl_one : (fl 1 == 1)%Q) :
  (forall estimator estimates,
     estimator ∈ estimators h ->
     estimator query available_domains = Done estimates ->
     within_unit estimates) ->
  Forall (fun w => (0 <= w)%Q) (weights h) ->
  length (weights h) = length (estimators h) ->
  estimate_confidence fl h query available_domains = Done combined ->
  within (if decide (combination_method h = "weighted_average")
          then weight_total fl (weights h) else 1%Q) combined /\
  forall domain, domain ∈ od_keys combined <-> domain ∈ available_domains.
Proof.
  intros Hgood Hweights Hlen. unfold estimate_confidence.
  destruct (collect_estimates (estimators h) query available_domains)
    as [all_estimates|e|] eqn:Hcollect; [|done..].
  apply collect_estimates_within in Hcollect as [Hall Hlen']; [|done].
  assert (Hnil : forall domain,
            domain ∈ od_keys (@nil (string * Q)) \/ domain ∈ available_domains
            <-> domain ∈ available_domains).
  { intros domain. simpl. rewrite elem_of_nil. tauto. }
  destruct (decide (combination_method h = "weighted_average")) as [_|_].
  - unfold _weighted_average_combination.
    destruct (weighted_average_loop_within fl fl_mono fl_zero (weights h)
                all_estimates available_domains [] Hall Hweights
                ltac:(by rewrite Hlen, Hlen') ltac:(constructor))
      as (out & -> & Hout & Hkeys).
    intros [= <-]. split; [done|]. intros domain. by rewrite Hkeys, Hnil.
  - destruct (decide (combination_method h = "max")) as [_|_];
      [|destruct (decide (combination_method h = "vote")) as [_|_]; [|done]];
      intros [= <-].
    + unfold _max_combination.
      destruct (assign_within 1
                  (fun domain =>
                     fold_left
                       (fun max_confidence estimates =>
                          py_max max_confidence
                            (od_get_default domain 0%Q estimates))
                       all_estimates 0%Q)
                  available_domains []) as [Hout Hkeys].
      * intros domain. apply max_fold_within; [done|]. split; discriminate.
      * constructor.
      * split; [done|]. intros domain. by rewrite Hkeys, Hnil.
    + unfold _vote_combination.
      destruct (assign_within 1
                  (fun domain =>
                     match all_estimates with
                     | [] => 0%Q
                     | _ =>
                         fl (Qnat (length
                                     (List.filter
                                        (fun estimates =>
                                           Qgeb (od_get_default domain 0%Q estimates)
                                             (1 # 2))
                                        all_estimates))
                             / Qnat (length all_estimates))%Q
                     end)
                  available_domains []) as [Hout Hkeys].
      * intros domain. destruct all_estimates as [|e0 rest];
          [split; discriminate|].
        apply vote_within; [done..|apply filter_length_le|simpl; lia].
      * constructor.
      * split; [done|]. intros domain. by rewrite Hkeys, Hnil.
Qed.

Lemma hybrid_confidence_is_bounded_witness :
  (forall estimator estimates,
     estimator ∈ estimators Scenarios.two_estimator_hybrid ->
     estimator "How do I raise my VO2 max?" ["physiology"; "nutrition"]
     = Done estimates ->
     within_unit estimates) /\
  Forall (fun w => (0 <= w)%Q) (weights Scenarios.two_estimator_hybrid) /\
  length (weights Scenarios.two_estimator_hybrid)
  = length (estimators Scenarios.two_estimator_hybrid) /\
  estimate_confidence Scenarios.fixed_point Scenarios.two_estimator_hybrid
    "How do I raise my VO2 max?" ["physiology"; "nutrition"]
  = Done [("physiology", (1 # 4)%Q); ("nutrition", (1 # 4)%Q)] /\
  weight_total Scenarios.fixed_point (weights Scenarios.two_estimator_hybrid)
  = 1%Q /\
  within 1 [("physiology", (1 # 4)%Q); ("nutrition", (1 # 4)%Q)].
Proof.
  assert (Hgood : forall estimator estimates,
    estimator ∈ estimators Scenarios.two_estimator_hybrid ->
    estimator "How do I raise my VO2 max?" ["physiology"; "nutrition"]
    = Done estimates ->
    within_unit estimates).
  { intros estimator estimates Hin Hout.
    apply elem_of_cons in Hin as [->|Hin].
    - injection Hout as <-. repeat constructor; discriminate.
    - apply list_elem_of_singleton in Hin as ->. discriminate Hout. }
  assert (Hweights : Forall (fun w => (0 <= w)%Q)
                       (weights Scenarios.two_estimator_hybrid))
    by (repeat constructor; discriminate).
  assert (Hrun : estimate_confidence Scenarios.fixed_point
                   Scenarios.two_estimator_hybrid
                   "How do I raise my VO2 max?" ["physiology"; "nutrition"]
                 = Done [("physiology", (1 # 4)%Q); ("nutrition", (1 # 4)%Q)])
    by (vm_compute; reflexivity).
  split; [exact Hgood|]. split; [exact Hweights|].
  split; [reflexivity|]. split; [exact Hrun|]. split; [reflexivity|].
  exact (proj1 (hybrid_confidence_is_bounded Scenarios.fixed_point
                  Scenarios.two_estimator_hybrid "How do I raise my VO2 max?"
                  ["physiology"; "nutrition"] _
                  RoundingFacts.fixed_point_mono (Qeq_refl 0) (Qeq_refl 1)
                  Hgood Hweights eq_refl Hrun)).
Defined.
End HybridConfidenceProps.

(** ** Orchestrator: the statistics stay sound *)
Module OrchestratorStatistics.
Import Py Orchestrator.

(** How often a strategy was counted. *)
Definition usage (st : Stats) (strategy : PipelineStrategy) : Z :=
  default 0 (strategy_usage st !! strategy_value strategy).

(** Sound statistics: every strategy has a counter, no counter is negative,
    the counters add up to the number of queries, and the success rate is a
    rate. *)
Definition sound (s : OState) : Prop :=
  (forall strategy,
     is_Some (strategy_usage (stats s) !! strategy_value strategy)) /\
  (forall strategy, 0 <= usage (stats s) strategy) /\
  (0 <= success_rate (stats s) <= 1)%Q /\
  usage (stats s) AUTO + usage (stats s) ENSEMBLE + usage (stats s) MOE
  + usage (stats s) CHAIN + usage (stats s) HYBRID
  = total_queries (stats s).

(** A computation that completes, by returning or by raising, and keeps the
    statistics sound. *)
Definition keeps {A} (m : M OState A) : Prop :=
  forall s, sound s -> fst (m s) <> Hang /\ sound (snd (m s)).

(** A computation that returns a value and keeps the statistics sound. *)
Definition answers {A} (m : M OState A) : Prop :=
  forall s, sound s -> exists a s', m s = (Done a, s') /\ sound s'.

Lemma sound_initial : sound initial_state.
Proof.
  split; [intros []; eexists; vm_compute; reflexivity|].
  split; [by intros []|]. split; [split; discriminate|reflexivity].
Qed.

Lemma answers_keeps {A} (m : M OState A) : answers m -> keeps m.
Proof. intros Hm s Hs. destruct (Hm s Hs) as (a & s' & -> & Hs'). by split. Qed.

Lemma keeps_ret {A} (a : A) : keeps (mret a : M OState A).
Proof. intros s Hs. by split. Qed.

Lemma answers_ret {A} (a : A) : answers (mret a : M OState A).
Proof. intros s Hs. by exists a, s. Qed.

Lemma keeps_raise {A} (e : exn) : keeps (raise e : M OState A).
Proof. intros s Hs. by split. Qed.

Lemma keeps_bind {A C} (m : M OState A) (k : A -> M OState C) :
  keeps m -> (forall a, keeps (k a)) -> keeps (m ≫= k).
Proof.
  intros Hm Hk s Hs. unfold mbind, M_bind, bind.
  destruct (Hm s Hs) as [Hr Hs']. destruct (m s) as [[a|e|] s']; simpl in *;
    [by apply Hk|done|done].
Qed.

Lemma answers_bind {A C} (m : M OState A) (k : A -> M OState C) :
  answers m -> (forall a, answers (k a)) -> answers (m ≫= k).
Proof.
  intros Hm Hk s Hs. unfold mbind, M_bind, bind.
  destruct (Hm s Hs) as (a & s' & -> & Hs'). by apply Hk.
Qed.

Lemma answers_try_except {A} (m : M OState A) (h : exn -> M OState A) :
  keeps m -> (forall e, answers (h e)) -> answers (try_except m h).
Proof.
  intros Hm Hh s Hs. unfold try_except.
  destruct (Hm s Hs) as [Hr Hs']. destruct (m s) as [[a|e|] s']; simpl in *.
  - by exists a, s'.
  - by apply Hh.
  - done.
Qed.

(** The success rate after one more query. *)
Lemma rate_stays_a_rate (rate : Q) (total : Z) (success : bool) :
  (0 <= rate <= 1)%Q -> 0 <= total ->
  (0 <= (if success
         then (rate * inject_Z (total + 1 - 1) + 1) / inject_Z (total + 1)
         else (rate * inject_Z (total + 1 - 1)) / inject_Z (total + 1)) <= 1)%Q.
Proof.
  intros [Hr0 Hr1] Htotal.
  replace (total + 1 - 1) with total by lia.
  assert (Hn : (0 <= inject_Z total)%Q).
  { change 0%Q with (inject_Z 0). by rewrite <- Zle_Qle. }
  assert (Hd : (0 < inject_Z (total + 1))%Q).
  { change 0%Q with (inject_Z 0). rewrite <- Zlt_Qlt. lia. }
  assert (Hd' : (inject_Z (total + 1) == inject_Z total + 1)%Q).
  { by rewrite inject_Z_plus. }
  assert (Hrn0 : (0 <= rate * inject_Z total)%Q) by by apply Qmult_le_0_compat.
  assert (Hrn1 : (rate * inject_Z total <= inject_Z total)%Q).
  { rewrite <- (Qmult_1_l (inject_Z total)) at 2.
    by apply Qmult_le_compat_r. }
  destruct success; split.
  - apply Qle_shift_div_l; [done|]. rewrite Qmult_0_l. lra.
  - apply Qle_shift_div_r; [done|]. rewrite Qmult_1_l, Hd'. lra.
  - apply Qle_shift_div_l; [done|]. by rewrite Qmult_0_l.
  - apply Qle_shift_div_r; [done|]. rewrite Qmult_1_l, Hd'. lra.
Qed.

Lemma strategy_value_inj (a b : PipelineStrategy) :
  strategy_value a = strategy_value b -> a = b.
Proof. by destruct a, b. Qed.

Lemma usage_after_count (st : Stats) (counted strategy : PipelineStrategy)
    (n : Z) (avg rate : Q) :
  strategy_usage st !! strategy_value counted = Some n ->
  usage (mk_stats (total_queries st + 1)
           (<[strategy_value counted := n + 1]> (strategy_usage st)) avg rate)
    strategy
  = usage st strategy + (if decide (counted = strategy) then 1 else 0).
Proof.
  intros Hn. unfold usage. simpl.
  destruct (decide (counted = strategy)) as [<-|Hne].
  - by rewrite lookup_insert_eq, Hn.
  - rewrite lookup_insert_ne; [lia|].
    intros Heq. by apply strategy_value_inj in Heq.
Qed.

Section statistics.
Variable clock : nat -> Q.
Variable format_2f : Q -> string.
Variable execute_ensemble execute_moe execute_chain :
  nat -> string -> Analysis -> PipelineConfig -> result ExecDict.
Variable consensus_mix :
  nat -> list string -> list Q -> list (gmap string pyval) -> result ExecDict.
(** Every component run ends: it returns or it raises. *)
Hypothesis ensemble_ends : forall n q a c, execute_ensemble n q a c <> Hang.
Hypothesis moe_ends : forall n q a c, execute_moe n q a c <> Hang.
Hypothesis chain_ends : forall n q a c, execute_chain n q a c <> Hang.
Hypothesis consensus_ends : forall n r c m, consensus_mix n r c m <> Hang.

Lemma answers_now : answers (now clock).
Proof. intros s Hs. unfold now. do 2 eexists. split; [reflexivity|exact Hs]. Qed.

Lemma keeps_component {A} (c : call) (run : nat -> result A) :
  (forall n, run n <> Hang) -> keeps (component c run).
Proof. intros Hrun s Hs. unfold component. split; [apply Hrun|exact Hs]. Qed.

(** [_update_stats] counts one query for one strategy. *)
Lemma answers_update_stats (strategy : PipelineStrategy) (t : Q)
    (success : bool) :
  answers (_update_stats strategy t success).
Proof.
  intros s (Hkeys & Hnonneg & Hrate & Hsum).
  unfold _update_stats, mbind, M_bind, bind, get, put. simpl.
  destruct (Hkeys strategy) as [n Hn]. rewrite Hn. simpl.
  do 2 eexists. split; [done|].
  assert (Hn0 : 0 <= n).
  { specialize (Hnonneg strategy). unfold usage in Hnonneg.
    by rewrite Hn in Hnonneg. }
  assert (Htotal : 0 <= total_queries (stats s)).
  { rewrite <- Hsum.
    pose proof (Hnonneg AUTO). pose proof (Hnonneg ENSEMBLE).
    pose proof (Hnonneg MOE). pose proof (Hnonneg CHAIN).
    pose proof (Hnonneg HYBRID). lia. }
  split; [|split; [|split]]; cbn [stats].
  - intros strategy'. cbn [strategy_usage].
    destruct (decide (strategy_value strategy = strategy_value strategy'))
      as [->|Hne].
    + rewrite lookup_insert_eq. by eexists.
    + rewrite lookup_insert_ne by done. apply Hkeys.
  - intros strategy'. rewrite (usage_after_count _ _ _ _ _ _ Hn).
    specialize (Hnonneg strategy'). destruct (decide _); lia.
  - cbn [success_rate]. by apply rate_stays_a_rate.
  - rewrite !(usage_after_count _ _ _ _ _ _ Hn). cbn [total_queries].
    rewrite <- Hsum. destruct strategy; simpl; lia.
Qed.

Lemma keeps_execute_pipeline query strategy analysis config :
  keeps (_execute_pipeline execute_ensemble execute_moe execute_chain
           consensus_mix query strategy analysis config).
Proof.
  unfold _execute_pipeline, _execute_hybrid, _execute_ensemble, _execute_moe,
    _execute_chain.
  destruct strategy; try (by apply keeps_component); [apply keeps_raise|].
  apply keeps_bind; [by apply keeps_component|]. intros ens.
  destruct (Qlt_le_dec _ _); [|apply keeps_ret].
  apply keeps_bind; [by apply keeps_component|]. intros moe.
  apply keeps_bind; [by apply keeps_component|]. intros mixed.
  apply keeps_ret.
Qed.

Lemma keeps_enhance_result result analysis config :
  keeps (_enhance_result clock format_2f result analysis config).
Proof.
  unfold _enhance_result.
  apply keeps_bind.
  - destruct (enable_explanation config); [|apply keeps_ret].
    apply keeps_bind; [|intros; apply keeps_ret].
    unfold _generate_explanation.
    destruct (x_metadata result !! "strategy") as [[]|];
      first [apply keeps_ret|apply keeps_raise].
  - intros explanation. apply keeps_bind; [|intros; apply keeps_ret].
    destruct (enable_metadata config); [|apply keeps_ret].
    apply keeps_bind; [apply answers_keeps, answers_now|].
    intros; apply keeps_ret.
Qed.

Lemma process_query_level_sound (fuel : nat) (query : string)
    (dc : option string) (config : option PipelineConfig) :
  (forall fb,
      fallback_strategy (default default_config config) = Some fb ->
      fb <> strategy (default default_config config) ->
      answers (process_query clock format_2f execute_ensemble execute_moe
                 execute_chain consensus_mix fuel query dc
                 (Some (config_with_strategy fb)))) ->
  answers (process_query clock format_2f execute_ensemble execute_moe
             execute_chain consensus_mix (S fuel) query dc config).
Proof.
  intros Hrec. cbn [process_query].
  apply answers_bind; [apply answers_now|]. intros start_time.
  apply answers_try_except.
  - apply keeps_bind; [apply keeps_execute_pipeline|]. intros result.
    apply keeps_bind; [apply keeps_enhance_result|]. intros enhanced.
    apply keeps_bind; [apply answers_keeps, answers_now|]. intros t.
    apply keeps_bind; [apply answers_keeps, answers_update_stats|].
    intros _. apply keeps_ret.
  - intros e.
    apply answers_bind; [apply answers_now|]. intros t.
    apply answers_bind; [apply answers_update_stats|]. intros _.
    apply answers_bind.
    + destruct (fallback_strategy (default default_config config)) as [fb|]
        eqn:Hfb; [|apply answers_ret].
      destruct (decide (fb <> strategy (default default_config config)))
        as [Hne|_]; [|apply answers_ret].
      apply answers_try_except; [|intros; apply answers_ret].
      apply answers_keeps, answers_bind; [by apply Hrec|].
      intros r. apply answers_ret.
    + intros [r|]; apply answers_ret.
Qed.

(** X30: as long as every component run ends, [process_query] returns a
    result and raises nothing, whatever the query, the context, the
    configuration and the failures of the components; three levels of its
    recursion are all it needs. It leaves the statistics sound: every
    strategy keeps its counter, the counters add up to [total_queries], and
    [success_rate] stays between 0 and 1. *)
Theorem process_query_keeps_statistics_sound (fuel : nat) (query : string)
    (dc : option string) (config : option PipelineConfig) (s : OState) :
  (3 <= fuel)%nat ->
  sound s ->
  exists result s',
    process_query clock format_2f execute_ensemble execute_moe execute_chain
      consensus_mix fuel query dc config s = (Done result, s') /\
    sound s'.
Proof.
  intros Hfuel Hs.
  destruct fuel as [|[|[|fuel]]]; try lia.
  revert s Hs. apply process_query_level_sound. intros fb _ _.
  apply process_query_level_sound. intros fb' Hfb' _.
  simpl in Hfb'. injection Hfb' as <-.
  apply process_query_level_sound. intros fb'' Hfb'' Hne.
  simpl in Hfb'', Hne. by injection Hfb'' as <-.
Qed.
End statistics.

Lemma process_query_keeps_statistics_sound_witness :
  (forall n q a c, Scenarios.failing_executor n q a c <> Hang) /\
  (forall n r c m, Scenarios.failing_consensus_mix n r c m <> Hang) /\
  sound initial_state /\
  exists result s',
    process_query Scenarios.tick_clock Scenarios.plain_format
      Scenarios.failing_executor Scenarios.failing_executor
      Scenarios.failing_executor Scenarios.failing_consensus_mix 3
      "What is VO2 max?" None (Some Scenarios.chain_with_moe_fallback)
      initial_state
    = (Done result, s') /\
    sound s'.
Proof.
  assert (He : forall n q a c, Scenarios.failing_executor n q a c <> Hang)
    by (intros n q a c; discriminate).
  assert (Hm : forall n r c m, Scenarios.failing_consensus_mix n r c m <> Hang)
    by (intros n r c m; discriminate).
  split; [exact He|]. split; [exact Hm|]. split; [exact sound_initial|].
  exact (process_query_keeps_statistics_sound Scenarios.tick_clock
           Scenarios.plain_format Scenarios.failing_executor
           Scenarios.failing_executor Scenarios.failing_executor
           Scenarios.failing_consensus_mix He He He Hm 3 "What is VO2 max?"
           None (Some Scenarios.chain_with_moe_fallback) initial_state
           ltac:(lia) sound_initial).
Defined.
End OrchestratorStatistics.
